(** * Movie Encyclopedia: the storage facade of [movieproject.py] and
      [movies2.py], embedded over a model of its two backing stores.

    The facade class [MovieEncyclopedia] talks to a MongoDB collection
    (through pymongo) or to a DynamoDB table (through boto3), chosen by
    [db_choice].  The two stores are modelled as lists of Python
    dictionaries; every facade method is a computation in a state and
    exception monad over a [world] that holds both stores, the objects of
    the caller, what was printed and what the form displayed.

    The form class [MovieEncyclopediaGUI] runs over the same world: its
    methods read the entries of the form, call the facade, and write to
    the result field and to dialogs. *)

From Stdlib Require Import ZArith QArith String Ascii List Permutation Sorted Lia.
From Stdlib Require Import DecimalString.
From stdpp Require Import base option list gmap strings.

Close Scope Q_scope.
Open Scope string_scope.

(** ** Python values *)

(** The values a movie record holds: strings, numbers of the three Python
    kinds the source tells apart with [isinstance] (int, float, Decimal),
    sequences of strings, and the [_id] pymongo adds.  A finite float or
    Decimal is carried by its exact rational value: of a Decimal the
    model keeps the number, not the exponent it was written with, so
    that [Decimal('8.50')] and [Decimal('8.5')] are one value. *)
Inductive pyval :=
| PStr (s : string)
| PInt (z : Z)
| PFloat (x : Q)
| PDecimal (d : Q)
| PList (l : list string)
| PObjectId (n : nat).

(** A Python [dict] with string keys. *)
Abbreviation pydict := (gmap string pyval).

Definition is_float (v : pyval) : bool :=
  match v with PFloat _ => true | _ => false end.

Definition is_Decimal (v : pyval) : bool :=
  match v with PDecimal _ => true | _ => false end.

(** ** Exceptions *)

Inductive exn_class :=
| Exception
| LookupError | KeyError
| AttributeError
| ValueError | TypeError
| ArithmeticError | DecimalException | InvalidOperation
| Inexact | Rounded | Overflow | Underflow
| BSONError | InvalidDocument
| PyMongoError
| ClientError.

Definition exn_class_eqb (c d : exn_class) : bool :=
  match c, d with
  | Exception, Exception | LookupError, LookupError | KeyError, KeyError
  | AttributeError, AttributeError
  | ValueError, ValueError | TypeError, TypeError
  | ArithmeticError, ArithmeticError | DecimalException, DecimalException
  | InvalidOperation, InvalidOperation | Inexact, Inexact | Rounded, Rounded
  | Overflow, Overflow | Underflow, Underflow
  | BSONError, BSONError | InvalidDocument, InvalidDocument
  | PyMongoError, PyMongoError | ClientError, ClientError => true
  | _, _ => false
  end.

(** The direct base class of each exception class; of the two classes
    with more than one, the first. *)
Definition superclass (c : exn_class) : option exn_class :=
  match c with
  | Exception => None
  | KeyError => Some LookupError
  | DecimalException => Some ArithmeticError
  | InvalidOperation | Inexact | Rounded => Some DecimalException
  | Overflow | Underflow => Some Inexact
  | InvalidDocument => Some BSONError
  | LookupError | AttributeError | ValueError | TypeError | ArithmeticError
  | BSONError | PyMongoError | ClientError => Some Exception
  end.

Fixpoint issubclass_upto (n : nat) (c d : exn_class) : bool :=
  exn_class_eqb c d ||
  match n, superclass c with
  | S n', Some c' => issubclass_upto n' c' d
  | _, _ => false
  end.

(** [issubclass c d]: the hierarchy above is at most four levels deep. *)
Definition issubclass : exn_class -> exn_class -> bool := issubclass_upto 4.

Record exn := { exn_type : exn_class; exn_msg : string }.

(** ** Strings

    A Python string is carried as its UTF-8 encoding: a character is one
    byte below 128, or a leading byte and the continuation bytes after
    it. *)

(** [needle in hay] *)
Fixpoint str_contains (needle hay : string) : bool :=
  String.prefix needle hay ||
  match hay with
  | EmptyString => false
  | String _ hay' => str_contains needle hay'
  end.

(** [s.split(sep)] for a one-character separator. *)
Fixpoint split_on (sep : ascii) (s : string) : list string :=
  match s with
  | EmptyString => [EmptyString]
  | String c s' =>
      if Ascii.eqb c sep then EmptyString :: split_on sep s'
      else match split_on sep s' with
           | [] => [String c EmptyString]
           | w :: ws => String c w :: ws
           end
  end.

(** A byte that continues a character. *)
Definition continuation (c : ascii) : bool :=
  let n := nat_of_ascii c in
  (128 <=? n)%nat && (n <=? 191)%nat.

(** The characters of a string, each with its continuation bytes. *)
Fixpoint chars (s : string) : list string :=
  match s with
  | EmptyString => []
  | String c s' =>
      match chars s' with
      | w :: ws =>
          if match s' with String d _ => continuation d | EmptyString => false end
          then String c w :: ws
          else String c EmptyString :: w :: ws
      | [] => [String c EmptyString]
      end
  end.

(** The ASCII characters [str.isspace] accepts. *)
Definition is_space (c : ascii) : bool :=
  let n := nat_of_ascii c in
  ((9 <=? n)%nat && (n <=? 13)%nat) || ((28 <=? n)%nat && (n <=? 32)%nat).

(** The characters of two bytes it accepts: U+0085 and U+00A0. *)
Definition is_space2 (a b : ascii) : bool :=
  let a := nat_of_ascii a in
  let b := nat_of_ascii b in
  (a =? 194)%nat && ((b =? 133)%nat || (b =? 160)%nat).

(** The characters of three bytes it accepts: U+1680, U+2000 to U+200A,
    U+2028, U+2029, U+202F, U+205F and U+3000. *)
Definition is_space3 (a b c : ascii) : bool :=
  let a := nat_of_ascii a in
  let b := nat_of_ascii b in
  let c := nat_of_ascii c in
  ((a =? 225)%nat && (b =? 154)%nat && (c =? 128)%nat)
  || ((a =? 226)%nat && (b =? 128)%nat
      && (((128 <=? c)%nat && (c <=? 138)%nat)
          || (c =? 168)%nat || (c =? 169)%nat || (c =? 175)%nat))
  || ((a =? 226)%nat && (b =? 129)%nat && (c =? 159)%nat)
  || ((a =? 227)%nat && (b =? 128)%nat && (c =? 128)%nat).

(** The number of bytes of the white-space character [s] starts with,
    and 0 when it starts with none. *)
Definition space_width (s : string) : nat :=
  match s with
  | String a r =>
      if is_space a then 1
      else match r with
           | String b r' =>
               if is_space2 a b then 2
               else match r' with
                    | String c _ => if is_space3 a b c then 3 else 0
                    | EmptyString => 0
                    end
           | EmptyString => 0
           end
  | EmptyString => 0
  end%nat.

(** [s] without its first [skip] bytes and the white space after them. *)
Fixpoint lstrip_from (skip : nat) (s : string) : string :=
  match s with
  | EmptyString => EmptyString
  | String _ s' =>
      match skip with
      | S k => lstrip_from k s'
      | O =>
          match space_width s with
          | S k => lstrip_from k s'
          | O => s
          end
      end
  end.

(** [s.lstrip()] *)
Definition lstrip (s : string) : string := lstrip_from 0 s.

(** [s] is white space from end to end. *)
Definition all_space (s : string) : bool := String.eqb (lstrip s) "".

(** [s.rstrip()] *)
Fixpoint rstrip (s : string) : string :=
  match s with
  | EmptyString => EmptyString
  | String c s' =>
      if all_space (String c s') then EmptyString else String c (rstrip s')
  end.

(** [s.strip()] *)
Definition strip (s : string) : string := rstrip (lstrip s).

(** Truth value of a string: [not s] holds exactly for the empty string. *)
Definition str_truthy (s : string) : bool := negb (String.eqb s "").

(** ** What the libraries compute *)

(** The parts of CPython, PCRE and the MongoDB server that the facade
    relies on and that are not written in this repository. *)
Class Externals := {
  (** [regex_search p s]: the pattern [p], compiled with option [i],
      matches somewhere in [s]. *)
  regex_search : string -> string -> bool;
  (** MongoDB's comparison order of the values of a sort key; [None] is a
      document without the field. *)
  bson_leb : option pyval -> option pyval -> bool;
  (** The binary64 number nearest to a rational. *)
  round64 : Q -> Q;
  (** [float(s)] of a string, [None] where Python raises [ValueError]. *)
  float_of_str : string -> option Q;
  (** [Decimal(s)] of a string, [None] where Python raises
      [InvalidOperation]. *)
  decimal_of_str : string -> option Q;
  (** [str(v)]; of a Decimal, the [str] of the Decimal of that value
      that a float gives and the table returns: the digits the number
      needs and no more. *)
  py_str : pyval -> string;
  (** What boto3's number context raises on a Decimal
      ([DYNAMODB_CONTEXT]: 38 digits, the exponents from -128 to 126,
      the traps [Inexact], [Rounded], [Overflow], [Underflow] and
      [Clamped] set), and [None] when it takes the Decimal as it is.
      It is asked of the Decimal of that value written with no more
      digits than the value needs, as [Decimal] reads it from the [str]
      of a float and as the table returns it.  A Decimal written with
      zeros beyond its 38th digit or below 1e-165, which the context
      rounds and refuses with [Rounded], is outside the model. *)
  context_error : Q -> option exn;
  (** [scan_before n m]: a scan of the table meets the key [n] before the
      key [m].  DynamoDB scans in the order of a hash of the key. *)
  scan_before : string -> string -> bool
}.

(** ** Outcomes and the state-and-exception monad *)

(** A call returns, raises, or (for the one loop of the source, run on
    fuel) does neither. *)
Inductive outcome (A : Type) :=
| Ok (a : A)
| Raise (e : exn)
| Diverge.
Arguments Ok {A} a.
Arguments Raise {A} e.
Arguments Diverge {A}.

(** A computation over a mutable state [S].  The state is threaded through
    a raise: what was mutated before an exception stays mutated. *)
Definition M (S A : Type) : Type := S -> outcome A * S.

Definition ret {S A} (a : A) : M S A := fun s => (Ok a, s).

Definition bind {S A B} (c : M S A) (k : A -> M S B) : M S B :=
  fun s =>
    match c s with
    | (Ok a, s') => k a s'
    | (Raise e, s') => (Raise e, s')
    | (Diverge, s') => (Diverge, s')
    end.

Definition raise {S A} (e : exn) : M S A := fun s => (Raise e, s).

Definition gets {S A} (f : S -> A) : M S A := fun s => (Ok (f s), s).

Definition modify {S} (f : S -> S) : M S unit := fun s => (Ok tt, f s).

(** A pure computation that may raise, run inside a method. *)
Definition lift_outcome {S A} (o : outcome A) : M S A := fun s => (o, s).

(** [try: body except cls as e: handler e] *)
Definition try_except {S A} (body : M S A) (cls : exn_class)
    (handler : exn -> M S A) : M S A :=
  fun s =>
    match body s with
    | (Raise e, s') =>
        if issubclass (exn_type e) cls then handler e s' else (Raise e, s')
    | r => r
    end.

Declare Scope py_scope.
Delimit Scope py_scope with py.
Notation "x <- c ;; k" := (bind c (fun x => k))
  (at level 100, c at next level, k at level 200, right associativity) : py_scope.
Notation "c ;; k" := (bind c (fun _ => k))
  (at level 100, k at level 200, right associativity) : py_scope.
Open Scope py_scope.

(** A method body with one local variable of type [L] next to the state:
    [lift] runs a computation on the state, [with_local] runs a body from
    an initial value of the local and returns its final value, also when
    the body was left by a handled exception. *)
Definition lift {L S A} (c : M S A) : M (L * S) A :=
  fun ls => let '(o, s') := c (snd ls) in (o, (fst ls, s')).

Definition with_local {L S} (init : L) (body : M (L * S) unit) : M S L :=
  fun s =>
    match body (init, s) with
    | (Ok _, (l, s')) => (Ok l, s')
    | (Raise e, (_, s')) => (Raise e, s')
    | (Diverge, (_, s')) => (Diverge, s')
    end.

Definition get_local {L S} : M (L * S) L := gets fst.

Definition set_local {L S} (l : L) : M (L * S) unit :=
  modify (fun ls => (l, snd ls)).

(** Pure outcomes: [traverse f l] applies [f] to the elements of [l] from
    left to right and stops at the first that raises. *)
Definition obind {A B} (o : outcome A) (k : A -> outcome B) : outcome B :=
  match o with
  | Ok a => k a
  | Raise e => Raise e
  | Diverge => Diverge
  end.

Fixpoint traverse {A B} (f : A -> outcome B) (l : list A) : outcome (list B) :=
  match l with
  | [] => Ok []
  | x :: l' => obind (f x) (fun y => obind (traverse f l') (fun ys => Ok (y :: ys)))
  end.

(** ** The world *)

Record world := {
  (** the MongoDB collection [movie_encyclopedia_db.movies], in natural
      (insertion) order *)
  movies : list pydict;
  (** the next [ObjectId] pymongo generates *)
  next_oid : nat;
  (** the items of the DynamoDB table [Movies], in scan order *)
  table : list pydict;
  (** how many items one [scan] request evaluates before it stops and
      hands out a [LastEvaluatedKey]: at least one *)
  scan_limit : positive;
  (** what becomes of the coming requests to a backend: [Some e] is a
      request the backend (or the connection to it) answers by raising
      [e]; past the end of the list every request is answered *)
  faults : list (option exn);
  (** the dictionaries the caller passes by reference *)
  heap : gmap nat pydict;
  (** what [print] wrote *)
  stdout : list string;
  (** the blocking dialogs [messagebox.showerror] opened: title, message *)
  dialogs : list (string * string);
  (** what [self.text.insert(tk.END, ...)] appended to the result field *)
  text : list string
}.

Definition with_movies (v : list pydict) (w : world) : world :=
  {| movies := v; next_oid := next_oid w; table := table w;
     scan_limit := scan_limit w; faults := faults w; heap := heap w;
     stdout := stdout w; dialogs := dialogs w; text := text w |}.

Definition with_next_oid (v : nat) (w : world) : world :=
  {| movies := movies w; next_oid := v; table := table w;
     scan_limit := scan_limit w; faults := faults w; heap := heap w;
     stdout := stdout w; dialogs := dialogs w; text := text w |}.

Definition with_table (v : list pydict) (w : world) : world :=
  {| movies := movies w; next_oid := next_oid w; table := v;
     scan_limit := scan_limit w; faults := faults w; heap := heap w;
     stdout := stdout w; dialogs := dialogs w; text := text w |}.

Definition with_faults (v : list (option exn)) (w : world) : world :=
  {| movies := movies w; next_oid := next_oid w; table := table w;
     scan_limit := scan_limit w; faults := v; heap := heap w;
     stdout := stdout w; dialogs := dialogs w; text := text w |}.

Definition with_heap (v : gmap nat pydict) (w : world) : world :=
  {| movies := movies w; next_oid := next_oid w; table := table w;
     scan_limit := scan_limit w; faults := faults w; heap := v;
     stdout := stdout w; dialogs := dialogs w; text := text w |}.

Definition with_stdout (v : list string) (w : world) : world :=
  {| movies := movies w; next_oid := next_oid w; table := table w;
     scan_limit := scan_limit w; faults := faults w; heap := heap w;
     stdout := v; dialogs := dialogs w; text := text w |}.

Definition with_dialogs (v : list (string * string)) (w : world) : world :=
  {| movies := movies w; next_oid := next_oid w; table := table w;
     scan_limit := scan_limit w; faults := faults w; heap := heap w;
     stdout := stdout w; dialogs := v; text := text w |}.

Definition with_text (v : list string) (w : world) : world :=
  {| movies := movies w; next_oid := next_oid w; table := table w;
     scan_limit := scan_limit w; faults := faults w; heap := heap w;
     stdout := stdout w; dialogs := dialogs w; text := v |}.

(** The world with another page size of the scan. *)
Definition with_scan_limit (v : positive) (w : world) : world :=
  {| movies := movies w; next_oid := next_oid w; table := table w;
     scan_limit := v; faults := faults w; heap := heap w;
     stdout := stdout w; dialogs := dialogs w; text := text w |}.

(** [print(s)] *)
Definition print (s : string) : M world unit :=
  modify (fun w => with_stdout (stdout w ++ [s]) w).

(** [messagebox.showerror(title, message)] *)
Definition showerror (title message : string) : M world unit :=
  modify (fun w => with_dialogs (dialogs w ++ [(title, message)]) w).

(** [self.text.insert(tk.END, s)] *)
Definition text_insert (s : string) : M world unit :=
  modify (fun w => with_text (text w ++ [s]) w).

(** [self.text.delete('1.0', tk.END)] *)
Definition text_clear : M world unit :=
  modify (with_text []).

(** [messagebox.showinfo(title, message)]: a blocking dialog too, kept
    with the others. *)
Definition showinfo (title message : string) : M world unit :=
  modify (fun w => with_dialogs (dialogs w ++ [(title, message)]) w).

(** One request to a backend: it consumes the head of [faults]. *)
Definition request : M world unit :=
  fun w =>
    let w' := with_faults (tl (faults w)) w in
    match faults w with
    | Some e :: _ => (Raise e, w')
    | _ => (Ok tt, w')
    end.

(** *** Dictionaries of the caller *)

(** The dictionary a reference points to. *)
Definition deref (l : nat) : M world pydict :=
  gets (fun w => heap w !!! l).

(** [d[k]] *)
Definition getitem (l : nat) (k : string) : M world pyval :=
  d <- deref l ;;
  match d !! k with
  | Some v => ret v
  | None => raise {| exn_type := KeyError; exn_msg := "'" ++ k ++ "'" |}
  end.

(** [d[k] = v] *)
Definition setitem (l : nat) (k : string) (v : pyval) : M world unit :=
  modify (fun w => with_heap (<[l := <[k := v]> (heap w !!! l)]> (heap w)) w).

(** A dictionary display [{...}]: a new object. *)
Definition alloc (d : pydict) : M world nat :=
  fun w =>
    let l := fresh (dom (heap w)) in
    (Ok l, with_heap (<[l := d]> (heap w)) w).

(** ** Conversions and sorting of the Python runtime *)

Section Runtime.
Context `{Externals}.

(** [float(v)] *)
Definition py_float (v : pyval) : outcome Q :=
  match v with
  | PStr s =>
      match float_of_str s with
      | Some x => Ok x
      | None => Raise {| exn_type := ValueError;
                         exn_msg := "could not convert string to float" |}
      end
  | PInt z => Ok (round64 (inject_Z z))
  | PFloat x => Ok x
  | PDecimal d => Ok (round64 d)
  | PList _ | PObjectId _ =>
      Raise {| exn_type := TypeError;
               exn_msg := "float() argument must be a string or a real number" |}
  end.

(** [Decimal(v)] *)
Definition py_Decimal (v : pyval) : outcome Q :=
  match v with
  | PStr s =>
      match decimal_of_str s with
      | Some d => Ok d
      | None => Raise {| exn_type := InvalidOperation;
                         exn_msg := "[<class 'decimal.ConversionSyntax'>]" |}
      end
  | PInt z => Ok (inject_Z z)
  | PFloat x => Ok x
  | PDecimal d => Ok d
  | PList _ =>
      Raise {| exn_type := ValueError;
               exn_msg := "Invalid tuple size in creation of Decimal from list or tuple" |}
  | PObjectId _ =>
      Raise {| exn_type := TypeError;
               exn_msg := "conversion from ObjectId to Decimal is not supported" |}
  end.
End Runtime.

(** Insertion of [x] into a list that is in descending order of its keys:
    [x] goes before the first element whose key is not above its own, so
    that elements with equal keys keep the order they arrive in. *)
Fixpoint insert_desc {A K} (leb : K -> K -> bool) (key : A -> K)
    (x : A) (l : list A) : list A :=
  match l with
  | [] => [x]
  | y :: l' =>
      if leb (key y) (key x) then x :: y :: l'
      else y :: insert_desc leb key x l'
  end.

(** A stable sort by descending key. *)
Definition sort_desc {A K} (leb : K -> K -> bool) (key : A -> K)
    (l : list A) : list A :=
  foldr (insert_desc leb key) [] l.

(** [sorted(l, key=key, reverse=True)] where the key is a float and its
    computation may raise: Python computes the keys of all elements, in
    order, before it compares any. *)
Definition py_sorted_reverse {A} (key : A -> outcome Q) (l : list A)
    : outcome (list A) :=
  obind (traverse (fun x => obind (key x) (fun k => Ok (k, x))) l)
        (fun kxs => Ok (map snd (sort_desc Qle_bool fst kxs))).

(** ** The document backend: a MongoDB collection through pymongo *)

(** The condition a query document puts on one field: [{field: v}] or
    [{field: {'$regex': p, '$options': 'i'}}]. *)
Inductive mongo_cond :=
| CondEq (v : string)
| CondRegexI (p : string).

Module Mongo.
Section Mongo.
Context `{Externals}.

Definition cond_holds (c : mongo_cond) (s : string) : bool :=
  match c with
  | CondEq v => String.eqb s v
  | CondRegexI p => regex_search p s
  end.

(** A document matches [{field: c}] when the field is a string that
    satisfies [c] or an array with an element that does. *)
Definition matches (field : string) (c : mongo_cond) (d : pydict) : bool :=
  match d !! field with
  | Some (PStr s) => cond_holds c s
  | Some (PList l) => existsb (cond_holds c) l
  | _ => false
  end.

(** BSON has no encoding of a Python [Decimal]. *)
Definition encodable (d : pydict) : bool :=
  bool_decide (map_Forall (fun _ v => is_Decimal v = false) d).

Definition invalid_document : exn :=
  {| exn_type := InvalidDocument;
     exn_msg := "cannot encode object of type <class 'decimal.Decimal'>" |}.

(** A document without [_id] is given a fresh one. *)
Definition assign_id (d : pydict) : M world pydict :=
  match d !! "_id" with
  | Some _ => ret d
  | None =>
      n <- gets next_oid ;;
      modify (with_next_oid (S n)) ;;
      ret (<["_id" := PObjectId n]> d)
  end.

Fixpoint assign_ids (ds : list pydict) : M world (list pydict) :=
  match ds with
  | [] => ret []
  | d :: ds' =>
      d' <- assign_id d ;;
      ds'' <- assign_ids ds' ;;
      ret (d' :: ds'')
  end.

(** [collection.drop()] *)
Definition drop : M world unit :=
  request ;; modify (with_movies []).

(** [collection.insert_one(document)]: the [_id] is written into the
    dictionary of the caller; once a server is there the document is
    encoded, and a copy of it stored. *)
Definition insert_one (document : nat) : M world unit :=
  d <- deref document ;;
  d' <- assign_id d ;;
  modify (fun w => with_heap (<[document := d']> (heap w)) w) ;;
  request ;;
  if encodable d' then modify (fun w => with_movies (movies w ++ [d']) w)
  else raise invalid_document.

(** [collection.insert_many(documents)] for a list of new dictionaries. *)
Definition insert_many (documents : list pydict) : M world unit :=
  match documents with
  | [] => raise {| exn_type := TypeError;
                   exn_msg := "documents must be a non-empty list" |}
  | _ =>
      ds <- assign_ids documents ;;
      request ;;
      if forallb encodable ds then
        modify (fun w => with_movies (movies w ++ ds) w)
      else raise invalid_document
  end.

Fixpoint update_first (p : pydict -> bool) (f : pydict -> pydict)
    (ds : list pydict) : list pydict :=
  match ds with
  | [] => []
  | d :: ds' => if p d then f d :: ds' else d :: update_first p f ds'
  end.

Fixpoint remove_first (p : pydict -> bool) (ds : list pydict) : list pydict :=
  match ds with
  | [] => []
  | d :: ds' => if p d then ds' else d :: remove_first p ds'
  end.

(** [collection.update_one({field: v}, {'$set': update})]: the first
    matching document takes the fields of [update]; no upsert. *)
Definition update_one_set (field v : string) (update : pydict) : M world unit :=
  request ;;
  if encodable update then
    modify (fun w =>
      with_movies (update_first (matches field (CondEq v))
                                (fun d => update ∪ d) (movies w)) w)
  else raise invalid_document.

(** [collection.delete_one({field: v}).deleted_count] *)
Definition delete_one (field v : string) : M world nat :=
  request ;;
  ds <- gets movies ;;
  modify (with_movies (remove_first (matches field (CondEq v)) ds)) ;;
  ret (if existsb (matches field (CondEq v)) ds then 1 else 0)%nat.

(** [list(collection.find({field: c}, {"_id": 0}).sort(key, -1).limit(n))] *)
Definition find_sort_limit (field : string) (c : mongo_cond)
    (key : string) (n : nat) : M world (list pydict) :=
  request ;;
  ds <- gets movies ;;
  ret (map (delete "_id")
         (firstn n (sort_desc bson_leb (fun d : pydict => d !! key)
                      (List.filter (matches field c) ds)))).

(** [collection.find_one({field: c}, {"_id": 0})] *)
Definition find_one (field : string) (c : mongo_cond) : M world (option pydict) :=
  request ;;
  ds <- gets movies ;;
  ret (delete "_id" <$> List.find (matches field c) ds).
End Mongo.
End Mongo.

(** ** The key-value backend: a DynamoDB table through boto3

    The table has the partition key [name] (a string) and no sort key. *)

Module Dynamo.
Section Dynamo.
Context `{Externals}.

(** The key of an item. *)
Definition item_key (d : pydict) : option string :=
  match d !! "name" with
  | Some (PStr n) => Some n
  | _ => None
  end.

Definition has_key (n : string) (d : pydict) : bool :=
  match item_key d with
  | Some m => String.eqb m n
  | None => false
  end.

(** The table has one type of number, which boto3 reads back as a
    [Decimal]: an [int] that is written is a [Decimal] from then on. *)
Definition as_attribute (v : pyval) : pyval :=
  match v with
  | PInt z => PDecimal (inject_Z z)
  | _ => v
  end.

(** boto3 refuses to serialize a Python [float]. *)
Definition float_free (d : pydict) : bool :=
  bool_decide (map_Forall (fun _ v => is_float v = false) d).

Definition float_unsupported : exn :=
  {| exn_type := TypeError;
     exn_msg := "Float types are not supported. Use Decimal types instead." |}.

Definition double_quote : string := String (ascii_of_nat 34) EmptyString.

(** It has no type for an [ObjectId] either. *)
Definition type_unsupported (v : pyval) : exn :=
  {| exn_type := TypeError;
     exn_msg := "Unsupported type " ++ double_quote
                ++ "<class 'bson.objectid.ObjectId'>" ++ double_quote
                ++ " for value " ++ double_quote ++ py_str v ++ double_quote |}.

Definition number_rounded : exn :=
  {| exn_type := Rounded; exn_msg := "[<class 'decimal.Rounded'>]" |}.

(** What boto3 raises on a value, and [None] when it serializes it.  It
    writes an [int] or a [Decimal] as
    [str(DYNAMODB_CONTEXT.create_decimal(value))], which raises on a
    number the context cannot take as it is.  An [int] has its digits
    down to the units: the context takes it up to 38 digits, and rounds
    a longer one even where it ends in zeros. *)
Definition value_error (v : pyval) : option exn :=
  match v with
  | PStr _ | PList _ => None
  | PFloat _ => Some float_unsupported
  | PObjectId _ => Some (type_unsupported v)
  | PDecimal q => context_error q
  | PInt z =>
      if Z.ltb (Z.abs z) (10 ^ 38)%Z then None
      else match context_error (inject_Z z) with
           | Some e => Some e
           | None => Some number_rounded
           end
  end.

Definition accepted (v : pyval) : bool :=
  match value_error v with
  | None => true
  | Some _ => false
  end.

Definition values_accepted (d : pydict) : bool :=
  bool_decide (map_Forall (fun _ v => accepted v = true) d).

(** What boto3 serializes: a dictionary of values it accepts, so without
    a float. *)
Definition serializable (d : pydict) : bool :=
  float_free d && values_accepted d.

(** What boto3 raises on a dictionary it does not serialize.  It takes
    the attributes in the order of the dictionary and raises at the
    first it refuses; a dictionary here has no order: a float is
    reported before another value, and of the other values the first in
    the order of the keys. *)
Definition refusal (d : pydict) : exn :=
  if float_free d then
    match omap (fun kv => value_error kv.2) (map_to_list d) with
    | e :: _ => e
    | [] => float_unsupported
    end
  else float_unsupported.

(** The first item with key [n] becomes [f] of it. *)
Fixpoint table_replace (n : string) (f : pydict -> pydict) (t : list pydict)
    : list pydict :=
  match t with
  | [] => []
  | d :: t' => if has_key n d then f d :: t' else d :: table_replace n f t'
  end.

(** A new item with key [n] takes its place in the order of the scan:
    before the first item the scan meets after its key. *)
Fixpoint table_place (n : string) (item : pydict) (t : list pydict)
    : list pydict :=
  match t with
  | [] => [item]
  | d :: t' =>
      match item_key d with
      | Some m =>
          if scan_before n m then item :: d :: t'
          else d :: table_place n item t'
      | None => d :: table_place n item t'
      end
  end.

(** The item with key [n] is replaced, or the item is new. *)
Definition table_put (n : string) (item : pydict) (t : list pydict) : list pydict :=
  if existsb (has_key n) t then table_replace n (fun _ => item) t
  else table_place n item t.

(** [SET] of the attributes of [update] on the item with key [n], which
    is created when the table has none. *)
Definition table_update (n : string) (update : pydict) (t : list pydict)
    : list pydict :=
  if existsb (has_key n) t then table_replace n (fun d => update ∪ d) t
  else table_place n (update ∪ {["name" := PStr n]}) t.

(** [table.put_item(Item=item)]: a new item, or the replacement of the
    item with the same key. *)
Definition put_item (item : pydict) : M world unit :=
  if serializable item then
    request ;;
    match item_key item with
    | Some n =>
        modify (fun w => with_table (table_put n (as_attribute <$> item) (table w)) w)
    | None => raise {| exn_type := ClientError;
                       exn_msg := "ValidationException: One of the required keys was not given a value" |}
    end
  else raise (refusal item).

(** [table.update_item(Key={'name': n}, UpdateExpression="set k= :k, ...",
    ExpressionAttributeValues={":k": v, ...})].  An expression the table
    rejects (a reserved word among the names, no name at all) is a
    request answered by an exception, one of [faults]. *)
Definition update_item (n : string) (update : pydict) : M world unit :=
  if serializable update then
    request ;;
    modify (fun w =>
      with_table (table_update n (as_attribute <$> update) (table w)) w)
  else raise (refusal update).

(** [table.delete_item(Key={'name': n})] *)
Definition delete_item (n : string) : M world unit :=
  request ;;
  modify (fun w =>
    with_table (List.filter (fun d => negb (has_key n d)) (table w)) w).

(** [table.get_item(Key={'name': n}).get('Item', None)] *)
Definition get_item (n : string) : M world (option pydict) :=
  request ;;
  gets (fun w => List.find (has_key n) (table w)).

(** The filter [contains(key, :val)]: [val] is a substring of a string
    attribute or an element of a list attribute. *)
Definition contains (key val : string) (d : pydict) : bool :=
  match d !! key with
  | Some (PStr s) => str_contains val s
  | Some (PList l) => existsb (String.eqb val) l
  | _ => false
  end.

(** [table.scan(FilterExpression="contains(key, :val)",
    ExpressionAttributeValues={':val': val}, ExclusiveStartKey=start)]:
    one page.  The request evaluates up to [scan_limit] items, returns
    those that pass the filter and, when items are left, a
    [LastEvaluatedKey]; that token is carried here as the position the
    next page starts from. *)
Definition scan (key val : string) (start : option nat)
    : M world (list pydict * option nat) :=
  request ;;
  w <- gets id ;;
  let from := default 0%nat start in
  let page := firstn (Pos.to_nat (scan_limit w)) (skipn from (table w)) in
  let upto := (from + length page)%nat in
  ret (List.filter (contains key val) page,
       if (0 <? length page)%nat && (upto <? length (table w))%nat
       then Some upto else None).
End Dynamo.
End Dynamo.

(** ** Pieces shared by the two source files *)

(** [for x in l: body x] *)
Fixpoint for_each {S A} (l : list A) (body : A -> M S unit) : M S unit :=
  match l with
  | [] => ret tt
  | x :: l' => body x ;; for_each l' body
  end.

(** [d.items()] *)
Definition items (l : nat) : M world (list (string * pyval)) :=
  d <- deref l ;; ret (map_to_list d).

(** [k in d] *)
Definition py_in (k : string) (l : nat) : M world bool :=
  d <- deref l ;; ret (bool_decide (is_Some (d !! k))).

(** A cell of the file as [pd.read_csv] typed it: text, or a number of
    a column of whole numbers or of a column of floats.  No cell is
    empty. *)
Inductive cell :=
| CellStr (s : string)
| CellInt (z : Z)
| CellFloat (x : Q).

(** The Python value of a cell in [df.to_dict('records')] and in a row
    of [df.iterrows()]. *)
Definition cell_value (c : cell) : pyval :=
  match c with
  | CellStr s => PStr s
  | CellInt z => PInt z
  | CellFloat x => PFloat x
  end.

(** A row of the file [pd.read_csv] parsed: the columns
    [name, year, rating, certificate, genre, casts, directors], the last
    three holding text in every row. *)
Record csv_row := {
  csv_name : cell;
  csv_year : cell;
  csv_rating : cell;
  csv_certificate : cell;
  csv_genre : string;
  csv_casts : string;
  csv_directors : string
}.

(** A row of the data frame once the three delimited columns are split. *)
Record frame_row := {
  row_name : cell;
  row_year : cell;
  row_rating : cell;
  row_certificate : cell;
  row_genre : list string;
  row_casts : list string;
  row_directors : list string
}.

(** [df[col] = df[col].apply(lambda x: x.split(','))] for [casts],
    [directors] and [genre]. *)
Definition split_columns (r : csv_row) : frame_row :=
  {| row_name := csv_name r; row_year := csv_year r;
     row_rating := csv_rating r; row_certificate := csv_certificate r;
     row_genre := split_on "," (csv_genre r);
     row_casts := split_on "," (csv_casts r);
     row_directors := split_on "," (csv_directors r) |}.

(** A row of the data frame [pd.read_csv] returns, before the three
    delimited columns are split.  A cell of these columns is text where
    the column holds text somewhere, a number in a column of numbers,
    and nothing where the file has an empty cell, which pandas reads as
    NaN, a float. *)
Record read_row := {
  read_name : cell;
  read_year : cell;
  read_rating : cell;
  read_certificate : cell;
  read_genre : option cell;
  read_casts : option cell;
  read_directors : option cell
}.

(** What [x.split(',')] raises on an [x] that is not a string. *)
Definition no_split (type : string) : exn :=
  {| exn_type := AttributeError;
     exn_msg := "'" ++ type ++ "' object has no attribute 'split'" |}.

(** The text [lambda x: x.split(',')] splits, where the cell holds
    text. *)
Definition split_text (c : option cell) : outcome string :=
  match c with
  | Some (CellStr s) => Ok s
  | Some (CellInt _) => Raise (no_split "int")
  | Some (CellFloat _) | None => Raise (no_split "float")
  end.

(** The rows of a frame whose three delimited columns hold text in
    every row.  The columns are gone through in the order in which the
    source applies the split: [casts], [directors], [genre]. *)
Definition text_rows (df : list read_row) : outcome (list csv_row) :=
  obind (traverse (fun r => split_text (read_casts r)) df) (fun _ =>
  obind (traverse (fun r => split_text (read_directors r)) df) (fun _ =>
  traverse
    (fun r =>
       obind (split_text (read_genre r)) (fun genre =>
       obind (split_text (read_casts r)) (fun casts =>
       obind (split_text (read_directors r)) (fun directors =>
       Ok {| csv_name := read_name r; csv_year := read_year r;
             csv_rating := read_rating r; csv_certificate := read_certificate r;
             csv_genre := genre; csv_casts := casts;
             csv_directors := directors |}))))
    df)).

(** [df.to_dict('records')], one row. *)
Definition to_record (r : frame_row) : pydict :=
  <["name" := cell_value (row_name r)]>
  (<["year" := cell_value (row_year r)]>
  (<["rating" := cell_value (row_rating r)]>
  (<["certificate" := cell_value (row_certificate r)]>
  (<["genre" := PList (row_genre r)]>
  (<["casts" := PList (row_casts r)]>
  (<["directors" := PList (row_directors r)]> ∅)))))).

(** The fields of the form. *)
Record form := {
  movie_name_entry : string;
  genre_entry : string;
  director_entry : string;
  certificate_entry : string;
  rating_entry : string
}.

(** [[genre.strip() for genre in genres if genre.strip()]] *)
Definition stripped_nonempty (l : list string) : list string :=
  map strip (List.filter (fun g => str_truthy (strip g)) l).

(** The key [lambda x: float(x['rating'])] of the client-side sort. *)
Definition rating_key `{Externals} (x : pydict) : outcome Q :=
  match x !! "rating" with
  | Some v => py_float v
  | None => Raise {| exn_type := KeyError; exn_msg := "'rating'" |}
  end.

(** What the form holds next to its entries: the operation chosen in the
    menu, the details entry, and what [simpledialog.askfloat] returns when
    it is asked ([None]: the dialog was cancelled). *)
Record controls := {
  operation_var : string;
  details_entry : string;
  entries : form;
  askfloat : option Q
}.

(** The labels and entries [update_fields] hides and shows. *)
Inductive widget :=
| detail_label | details_entry_widget
| name_label | movie_name_entry_widget
| genre_label | genre_entry_widget
| director_label | director_entry_widget
| rating_label | rating_entry_widget
| certificate_label | certificate_entry_widget.

(** Truth value of a dictionary: it has an entry. *)
Definition dict_truthy (d : pydict) : bool := (0 <? size d)%nat.

(** [sep.join(v)]: of the elements of a sequence of strings, or of the
    characters of a string. *)
Definition py_join (sep : string) (v : pyval) : outcome string :=
  match v with
  | PList l => Ok (String.concat sep l)
  | PStr s =>
      Ok (String.concat sep (chars s))
  | _ => Raise {| exn_type := TypeError;
                  exn_msg := "can only join an iterable" |}
  end.

Section Rendering.
Context `{Externals}.

(** [movie.get(k, 'N/A')] as an f-string shows it. *)
Definition shown (movie : pydict) (k : string) : string :=
  py_str (default (PStr "N/A") (movie !! k)).

(** [movie['name']] as an f-string shows it. *)
Definition shown_name (movie : pydict) : outcome string :=
  match movie !! "name" with
  | Some n => Ok (py_str n)
  | None => Raise {| exn_type := KeyError; exn_msg := "'name'" |}
  end.

(** [f"{movie['name']} - Rating: {movie.get('rating', 'N/A')}\n"] *)
Definition search_line (movie : pydict) : outcome string :=
  obind (shown_name movie) (fun name =>
  Ok (name ++ " - Rating: " ++ shown movie "rating" ++ "
")).

(** [f"{movie['name']} - {movie.get('rating', 'N/A')}\n"] *)
Definition name_line (movie : pydict) : outcome string :=
  obind (shown_name movie) (fun name =>
  Ok (name ++ " - " ++ shown movie "rating" ++ "
")).

(** The six lines of [get_movie_details]. *)
Definition details_text (movie : pydict) : outcome string :=
  obind (shown_name movie) (fun name =>
  obind (py_join ", " (default (PList []) (movie !! "genre"))) (fun genre =>
  obind (py_join ", " (default (PList []) (movie !! "directors"))) (fun directors =>
  Ok ("Name: " ++ name ++ "
Year: " ++ shown movie "year" ++ "
Rating: " ++ shown movie "rating" ++ "
Genre: " ++ genre ++ "
Certificate: " ++ shown movie "certificate" ++ "
Director: " ++ directors ++ "
")))).
End Rendering.

(** ** movieproject.py *)

Module MovieProject.
Module MovieEncyclopedia.
Section MovieEncyclopedia.
Context `{Externals}.

(** The item the key-value branch of the bulk load builds from a row. *)
Definition item_of_row (row : frame_row) : pydict :=
  let primary_genre :=
    match row_genre row with
    | g :: _ => g
    | [] => "None"
    end in
  <["name" := cell_value (row_name row)]>
  (<["year" := PStr (py_str (cell_value (row_year row)))]>
  (<["rating" := PStr (py_str (cell_value (row_rating row)))]>
  (<["certificate" := cell_value (row_certificate row)]>
  (<["genre" := PList (row_genre row)]>
  (<["primary_genre" := PStr primary_genre]>
  (<["casts" := PList (row_casts row)]>
  (<["directors" := PList (row_directors row)]> ∅))))))).

(** [load_movies_from_csv], from the parsed file on.  The batch writer
    is taken to send every item as it is put. *)
Definition load_movies_from_csv (db_choice : string) (file : list csv_row)
    : M world unit :=
  let df := map split_columns file in
  if String.eqb db_choice "mongodb" then
    Mongo.drop ;;
    let movies_data := map to_record df in
    Mongo.insert_many movies_data ;;
    if String.eqb db_choice "dynamodb" then
      for_each df (fun row => Dynamo.put_item (item_of_row row))
    else ret tt
  else ret tt.

(** [load_movies_from_csv] from the data frame [pd.read_csv] returns:
    the split of a cell that is not text raises before anything else is
    done. *)
Definition load_movies_from_frame (db_choice : string) (df : list read_row)
    : M world unit :=
  file <- lift_outcome (text_rows df) ;;
  load_movies_from_csv db_choice file.

Definition add_movie (db_choice : string) (movie_data : nat) : M world unit :=
  if String.eqb db_choice "mongodb" then
    (has_rating <- py_in "rating" movie_data ;;
     if has_rating : bool then
       r <- getitem movie_data "rating" ;;
       x <- lift_outcome (py_float r) ;;
       setitem movie_data "rating" (PFloat x)
     else ret tt) ;;
    Mongo.insert_one movie_data
  else if String.eqb db_choice "dynamodb" then
    (has_rating <- py_in "rating" movie_data ;;
     is_dec <- (if has_rating : bool then
                  r <- getitem movie_data "rating" ;; ret (is_Decimal r)
                else ret false) ;;
     if is_dec : bool then
       r <- getitem movie_data "rating" ;;
       d <- lift_outcome (py_Decimal (PStr (py_str r))) ;;
       setitem movie_data "rating" (PDecimal d)
     else ret tt) ;;
    item <- deref movie_data ;;
    Dynamo.put_item item
  else ret tt.

Definition update_movie (db_choice movie_name : string) (update_data : nat)
    : M world unit :=
  (if String.eqb db_choice "mongodb" then
     kvs <- items update_data ;;
     for_each kvs (fun '(key, value) =>
       if is_Decimal value then
         x <- lift_outcome (py_float value) ;;
         setitem update_data key (PFloat x)
       else ret tt)
   else ret tt) ;;
  if String.eqb db_choice "mongodb" then
    update <- deref update_data ;;
    Mongo.update_one_set "name" movie_name update
  else if String.eqb db_choice "dynamodb" then
    kvs <- items update_data ;;
    for_each kvs (fun '(key, value) =>
      if is_float value then
        d <- lift_outcome (py_Decimal (PStr (py_str value))) ;;
        setitem update_data key (PDecimal d)
      else ret tt) ;;
    update <- deref update_data ;;
    Dynamo.update_item movie_name update
  else ret tt.

Definition delete_movie (db_choice movie_name : string) : M world unit :=
  if String.eqb db_choice "mongodb" then
    deleted_count <- Mongo.delete_one "name" movie_name ;;
    if Nat.eqb deleted_count 0 then print "No movie found with that name."
    else ret tt
  else if String.eqb db_choice "dynamodb" then
    try_except (Dynamo.delete_item movie_name) Exception
      (fun e => print ("Failed to delete movie: " ++ exn_msg e))
  else ret tt.

(** The [while not done] loop of [find_movies], on fuel.  The local
    variable next to the world is [results]; [exclusive_start] is the
    entry [ExclusiveStartKey] of [scan_kwargs]. *)
Fixpoint scan_pages (fuel : nat) (key value : string)
    (exclusive_start start_key : option nat)
    : M (list pydict * world) unit :=
  match fuel with
  | O => fun s => (Diverge, s)
  | S fuel' =>
      let exclusive_start :=
        match start_key with
        | Some k => Some k
        | None => exclusive_start
        end in
      response <- lift (Dynamo.scan key value exclusive_start) ;;
      results <- get_local ;;
      set_local (results ++ fst response)%list ;;
      let start_key := snd response in
      match start_key with
      | None => ret tt
      | Some _ => scan_pages fuel' key value exclusive_start start_key
      end
  end.

(** [find_movies]; the loop gets one unit of fuel per item of the table
    and one more. *)
Definition find_movies (db_choice key value : string) : M world (list pydict) :=
  if String.eqb db_choice "mongodb" then
    Mongo.find_sort_limit key (CondRegexI value) "rating" 20
  else if String.eqb db_choice "dynamodb" then
    with_local []
      (try_except
         (n <- lift (gets (fun w => length (table w))) ;;
          scan_pages (S n) key value None None ;;
          results <- get_local ;;
          sorted <- lift_outcome (py_sorted_reverse rating_key results) ;;
          set_local (firstn 20 sorted))
         Exception
         (fun e => lift (print ("Error scanning DynamoDB: " ++ exn_msg e))))
  else ret [].

Definition get_movie_details (db_choice movie_name : string)
    : M world (option pydict) :=
  if String.eqb db_choice "mongodb" then
    Mongo.find_one "name" (CondRegexI movie_name)
  else if String.eqb db_choice "dynamodb" then
    Dynamo.get_item movie_name
  else ret None.

(** [perform_search] of the facade: one page of the scan, no handler. *)
Definition perform_search (db_choice key value : string) : M world (list pydict) :=
  if String.eqb db_choice "mongodb" then
    Mongo.find_sort_limit key (CondRegexI value) "rating" 20
  else if String.eqb db_choice "dynamodb" then
    response <- Dynamo.scan key value None ;;
    sorted_items <- lift_outcome (py_sorted_reverse rating_key (fst response)) ;;
    ret (firstn 20 sorted_items)
  else ret [].
End MovieEncyclopedia.
End MovieEncyclopedia.

Module MovieEncyclopediaGUI.
Section MovieEncyclopediaGUI.
Context `{Externals}.

(** [add_movie] of the form; [db_choice] is that of [self.encyclopedia],
    and the fields are what the entries hold. *)
Definition add_movie (db_choice : string) (entries : form) : M world unit :=
  let name := movie_name_entry entries in
  let genres := split_on "," (genre_entry entries) in
  let directors := split_on "," (director_entry entries) in
  let certificate := certificate_entry entries in
  let rating_str := rating_entry entries in
  if negb (str_truthy name) || negb (str_truthy rating_str) then
    showerror "Error" "Movie name and rating are required."
  else
    parsed <- try_except
                (rating <- lift_outcome (py_Decimal (PStr rating_str)) ;;
                 ret (Some rating))
                ValueError
                (fun _ =>
                   showerror "Error" "Invalid rating. Please enter a numeric value." ;;
                   ret None) ;;
    match parsed with
    | None => ret tt
    | Some rating =>
        let genres := stripped_nonempty genres in
        match genres with
        | [] => showerror "Error" "At least one genre is required."
        | _ =>
            movie_data <- alloc
              (<["name" := PStr name]>
               (<["genre" := PList genres]>
               (<["directors" := PList directors]>
               (<["certificate" := PStr certificate]>
               (<["rating" := PDecimal rating]> ∅))))) ;;
            MovieEncyclopedia.add_movie db_choice movie_data ;;
            text_insert ("Added movie: " ++ name ++ "
")
        end
    end.

(** [perform_search] of the form. *)
Definition perform_search (db_choice key value : string) : M world unit :=
  results <- MovieEncyclopedia.find_movies db_choice key value ;;
  text_clear ;;
  match results with
  | [] => text_insert "No movies found.
"
  | _ =>
      for_each results (fun movie =>
        line <- lift_outcome (search_line movie) ;;
        text_insert line)
  end.

(** [get_movie_details] of the form. *)
Definition get_movie_details (db_choice movie_name : string) : M world unit :=
  movie <- MovieEncyclopedia.get_movie_details db_choice movie_name ;;
  text_clear ;;
  match movie with
  | Some m =>
      if dict_truthy m then
        shown_text <- lift_outcome (details_text m) ;;
        text_insert shown_text
      else text_insert "Movie not found.
"
  | None => text_insert "Movie not found.
"
  end.

(** [find_movies] of the form. *)
Definition find_movies (db_choice : string) (fields : form) : M world unit :=
  let name := movie_name_entry fields in
  results <- MovieEncyclopedia.find_movies db_choice "name" name ;;
  text_clear ;;
  for_each results (fun movie =>
    line <- lift_outcome (name_line movie) ;;
    text_insert line).

(** [update_movie] of the form; [answer] is what [askfloat] returned. *)
Definition update_movie (db_choice : string) (fields : form) (answer : option Q)
    : M world unit :=
  let name := movie_name_entry fields in
  match answer with
  | None => showinfo "Cancelled" "Update operation cancelled."
  | Some new_rating =>
      new_rating <- lift_outcome (py_Decimal (PFloat new_rating)) ;;
      update_data <- alloc {["rating" := PDecimal new_rating]} ;;
      MovieEncyclopedia.update_movie db_choice name update_data ;;
      text_insert ("Updated movie: " ++ name ++ " with new rating: "
                   ++ py_str (PDecimal new_rating) ++ "
")
  end.

(** [delete_movie] of the form. *)
Definition delete_movie (db_choice : string) (fields : form) : M world unit :=
  let name := movie_name_entry fields in
  MovieEncyclopedia.delete_movie db_choice name ;;
  text_insert ("Deleted movie: " ++ name ++ "
").

(** [update_fields]: every label and entry is removed from the grid, and
    those of the chosen operation are put back; the result is the list of
    widgets shown, in the order of the calls of [grid]. *)
Definition update_fields (operation : string) : list widget :=
  if existsb (String.eqb operation)
       ["Find movies by actor"; "Find movies by director"; "Find movies by genre";
        "Find movies by certificate"; "Get movie details"]
  then [detail_label; details_entry_widget]
  else if existsb (String.eqb operation) ["Add Movie"; "Update Movie"]
  then [name_label; movie_name_entry_widget; genre_label; genre_entry_widget;
        director_label; director_entry_widget; rating_label; rating_entry_widget;
        certificate_label; certificate_entry_widget]
  else if String.eqb operation "Delete Movie"
  then [name_label; movie_name_entry_widget]
  else [].

(** [execute_operation]: the details entry is stripped. *)
Definition execute_operation (db_choice : string) (c : controls) : M world unit :=
  let operation := operation_var c in
  let detail := strip (details_entry c) in
  if String.eqb operation "Find movies by actor" then
    perform_search db_choice "casts" detail
  else if String.eqb operation "Find movies by director" then
    perform_search db_choice "directors" detail
  else if String.eqb operation "Find movies by genre" then
    perform_search db_choice "genre" detail
  else if String.eqb operation "Find movies by certificate" then
    perform_search db_choice "certificate" detail
  else if String.eqb operation "Get movie details" then
    get_movie_details db_choice detail
  else if String.eqb operation "Add Movie" then
    add_movie db_choice (entries c)
  else if String.eqb operation "Update Movie" then
    update_movie db_choice (entries c) (askfloat c)
  else if String.eqb operation "Delete Movie" then
    delete_movie db_choice (entries c)
  else ret tt.
End MovieEncyclopediaGUI.
End MovieEncyclopediaGUI.
End MovieProject.

(** ** movies2.py *)

Module Movies2.
Module MovieEncyclopedia.
Section MovieEncyclopedia.
Context `{Externals}.

(** The text of [load_movies_from_csv], [update_movie] and
    [get_movie_details] is that of movieproject.py, comments apart. *)
Definition load_movies_from_csv :=
  MovieProject.MovieEncyclopedia.load_movies_from_csv.

Definition load_movies_from_frame :=
  MovieProject.MovieEncyclopedia.load_movies_from_frame.

Definition update_movie :=
  MovieProject.MovieEncyclopedia.update_movie.

Definition get_movie_details :=
  MovieProject.MovieEncyclopedia.get_movie_details.

Definition add_movie (db_choice : string) (movie_data : nat) : M world unit :=
  (if String.eqb db_choice "mongodb" then
     r <- getitem movie_data "rating" ;;
     x <- lift_outcome (py_float r) ;;
     setitem movie_data "rating" (PFloat x)
   else ret tt) ;;
  if String.eqb db_choice "mongodb" then
    Mongo.insert_one movie_data
  else if String.eqb db_choice "dynamodb" then
    item <- deref movie_data ;;
    Dynamo.put_item item
  else ret tt.

Definition delete_movie (db_choice movie_name : string) : M world unit :=
  if String.eqb db_choice "mongodb" then
    deleted_count <- Mongo.delete_one "name" movie_name ;;
    if Nat.eqb deleted_count 0 then print "No movie found with that name."
    else print ("Deleted movie: " ++ movie_name)
  else if String.eqb db_choice "dynamodb" then
    try_except
      (Dynamo.delete_item movie_name ;;
       print ("Deleted movie: " ++ movie_name))
      Exception
      (fun e => print ("Failed to delete movie: " ++ exn_msg e))
  else ret tt.

Definition find_movies (db_choice key value : string) : M world (list pydict) :=
  if String.eqb db_choice "mongodb" then
    Mongo.find_sort_limit key (CondEq value) "rating" 20
  else if String.eqb db_choice "dynamodb" then
    response <- Dynamo.scan key value None ;;
    sorted_items <- lift_outcome (py_sorted_reverse rating_key (fst response)) ;;
    ret (firstn 20 sorted_items)
  else ret [].
End MovieEncyclopedia.
End MovieEncyclopedia.

Module MovieEncyclopediaGUI.
Section MovieEncyclopediaGUI.
Context `{Externals}.

(** [add_movie] of the form: this file has no entries for directors and
    certificate. *)
Definition add_movie (db_choice : string) (entries : form) : M world unit :=
  let name := movie_name_entry entries in
  let genres := split_on "," (genre_entry entries) in
  let rating_str := rating_entry entries in
  if negb (str_truthy name) || negb (str_truthy rating_str) then
    showerror "Error" "Movie name and rating are required."
  else
    parsed <- try_except
                (rating <- lift_outcome (py_Decimal (PStr rating_str)) ;;
                 ret (Some rating))
                ValueError
                (fun _ =>
                   showerror "Error" "Invalid rating. Please enter a numeric value." ;;
                   ret None) ;;
    match parsed with
    | None => ret tt
    | Some rating =>
        let genres := stripped_nonempty genres in
        match genres with
        | [] => showerror "Error" "At least one genre is required."
        | _ =>
            movie_data <- alloc
              (<["name" := PStr name]>
               (<["genre" := PList genres]>
               (<["rating" := PDecimal rating]> ∅))) ;;
            MovieEncyclopedia.add_movie db_choice movie_data ;;
            text_insert ("Added movie: " ++ name ++ "
")
        end
    end.

(** [perform_search] of the form. *)
Definition perform_search (db_choice key value : string) : M world unit :=
  results <- MovieEncyclopedia.find_movies db_choice key value ;;
  text_clear ;;
  match results with
  | [] => text_insert "No movies found.
"
  | _ =>
      for_each results (fun movie =>
        line <- lift_outcome (search_line movie) ;;
        text_insert line)
  end.

(** [get_movie_details] of the form. *)
Definition get_movie_details (db_choice movie_name : string) : M world unit :=
  movie <- MovieEncyclopedia.get_movie_details db_choice movie_name ;;
  text_clear ;;
  match movie with
  | Some m =>
      if dict_truthy m then
        shown_text <- lift_outcome (details_text m) ;;
        text_insert shown_text
      else text_insert "Movie not found.
"
  | None => text_insert "Movie not found.
"
  end.

(** [find_movies] of the form. *)
Definition find_movies (db_choice : string) (fields : form) : M world unit :=
  let name := movie_name_entry fields in
  results <- MovieEncyclopedia.find_movies db_choice "name" name ;;
  text_clear ;;
  for_each results (fun movie =>
    line <- lift_outcome (name_line movie) ;;
    text_insert line).

(** [update_movie] of the form; [answer] is what [askfloat] returned. *)
Definition update_movie (db_choice : string) (fields : form) (answer : option Q)
    : M world unit :=
  let name := movie_name_entry fields in
  match answer with
  | None => showinfo "Cancelled" "Update operation cancelled."
  | Some new_rating =>
      new_rating <- lift_outcome (py_Decimal (PFloat new_rating)) ;;
      update_data <- alloc {["rating" := PDecimal new_rating]} ;;
      MovieEncyclopedia.update_movie db_choice name update_data ;;
      text_insert ("Updated movie: " ++ name ++ " with new rating: "
                   ++ py_str (PDecimal new_rating) ++ "
")
  end.

(** [delete_movie] of the form. *)
Definition delete_movie (db_choice : string) (fields : form) : M world unit :=
  let name := movie_name_entry fields in
  MovieEncyclopedia.delete_movie db_choice name ;;
  text_insert ("Deleted movie: " ++ name ++ "
").

(** [execute_operation]: the details entry is taken as it is. *)
Definition execute_operation (db_choice : string) (c : controls) : M world unit :=
  let operation := operation_var c in
  let detail := details_entry c in
  if String.eqb operation "Find movies by actor" then
    perform_search db_choice "casts" detail
  else if String.eqb operation "Find movies by director" then
    perform_search db_choice "directors" detail
  else if String.eqb operation "Find movies by genre" then
    perform_search db_choice "genre" detail
  else if String.eqb operation "Find movies by certificate" then
    perform_search db_choice "certificate" detail
  else if String.eqb operation "Get movie details" then
    get_movie_details db_choice detail
  else if String.eqb operation "Add Movie" then
    add_movie db_choice (entries c)
  else if String.eqb operation "Update Movie" then
    update_movie db_choice (entries c) (askfloat c)
  else if String.eqb operation "Delete Movie" then
    delete_movie db_choice (entries c)
  else ret tt.
End MovieEncyclopediaGUI.
End MovieEncyclopediaGUI.
End Movies2.

(** ** A runtime to compute with

    [plain_runtime] instantiates [Externals] on the fragment where the
    libraries are easy to describe: a pattern without metacharacters is
    searched as a substring without regard to case, a number is written
    and read as a plain decimal literal ([8.5], [-3], [0.25]), a rational
    with a short binary expansion is its own binary64 value, numbers
    sort below strings, the number context of boto3 is asked about the
    value of a number, and a scan meets shorter keys first and keys of
    one length in the order of their bytes. *)

Module Plain.

Definition lower_ascii (c : ascii) : ascii :=
  let n := nat_of_ascii c in
  if (65 <=? n)%nat && (n <=? 90)%nat then ascii_of_nat (n + 32) else c.

Fixpoint lower (s : string) : string :=
  match s with
  | EmptyString => EmptyString
  | String c s' => String (lower_ascii c) (lower s')
  end.

Definition regex_search (p s : string) : bool :=
  str_contains (lower p) (lower s).

Definition bson_rank (v : option pyval) : nat :=
  match v with
  | None => 0
  | Some (PInt _) | Some (PFloat _) | Some (PDecimal _) => 1
  | Some (PStr _) => 2
  | Some (PList _) => 3
  | Some (PObjectId _) => 4
  end.

Definition number_value (v : option pyval) : Q :=
  match v with
  | Some (PInt z) => inject_Z z
  | Some (PFloat x) | Some (PDecimal x) => x
  | _ => 0%Q
  end.

Definition bson_leb (a b : option pyval) : bool :=
  if (bson_rank a <? bson_rank b)%nat then true
  else if (bson_rank b <? bson_rank a)%nat then false
  else match a, b with
       | Some (PStr s), Some (PStr t) => String.leb s t
       | _, _ => Qle_bool (number_value a) (number_value b)
       end.

(** Digits, with an optional sign and an optional fraction. *)
Definition parse_unsigned (s : string) : option Q :=
  match split_on "." s with
  | [a] =>
      match a, NilEmpty.uint_of_string a with
      | String _ _, Some u => Some (inject_Z (Z.of_uint u))
      | _, _ => None
      end
  | [a; b] =>
      match (a ++ b)%string, NilEmpty.uint_of_string (a ++ b) with
      | String _ _, Some u =>
          Some (Qred (Qmake (Z.of_uint u)
                        (Z.to_pos (10 ^ Z.of_nat (String.length b)))))
      | _, _ => None
      end
  | _ => None
  end.

Definition parse_number (s : string) : option Q :=
  match s with
  | String "-" s' => Qopp <$> parse_unsigned s'
  | String "+" s' => parse_unsigned s'
  | _ => parse_unsigned s
  end.

(** The least number of fraction digits, from one to seventeen, that
    writes [x] exactly; seventeen when there is none. *)
Fixpoint fraction_digits (n : nat) (k : nat) (x : Q) : nat :=
  match n with
  | O => k
  | S n' =>
      if Z.eqb ((Qnum x * 10 ^ Z.of_nat k) mod Z.pos (Qden x))%Z 0 then k
      else fraction_digits n' (S k) x
  end.

Fixpoint pad_zeros (n : nat) (s : string) : string :=
  match n with
  | O => s
  | S n' => if (String.length s <? n)%nat then pad_zeros n' ("0" ++ s) else s
  end.

Definition str_of_Z (z : Z) : string := NilZero.string_of_int (Z.to_int z).

(** A number with a fraction of one digit at least and of [digits] + 1
    at most. *)
Definition str_of_fraction (digits : nat) (x : Q) : string :=
  let k := fraction_digits digits 1 x in
  let scaled := (Z.abs (Qnum x) * 10 ^ Z.of_nat k / Z.pos (Qden x))%Z in
  let whole := (scaled / 10 ^ Z.of_nat k)%Z in
  let frac := (scaled mod 10 ^ Z.of_nat k)%Z in
  ((if Z.ltb (Qnum x) 0 then "-" else "") ++ str_of_Z whole ++ "."
     ++ pad_zeros k (str_of_Z frac))%string.

(** [str] of a float. *)
Definition str_of_Q (x : Q) : string := str_of_fraction 16 x.

(** [str] of a Decimal without an exponent and without zeros at its
    end: a whole number has no fraction. *)
Definition str_of_decimal (x : Q) : string :=
  if Pos.eqb (Qden (Qred x)) 1 then str_of_Z (Qnum (Qred x))
  else str_of_fraction 63 x.

Definition py_str (v : pyval) : string :=
  match v with
  | PStr s => s
  | PInt z => str_of_Z z
  | PFloat x => str_of_Q x
  | PDecimal x => str_of_decimal x
  | PList l => "[" ++ String.concat ", " (map (fun s => "'" ++ s ++ "'") l) ++ "]"
  | PObjectId n => str_of_Z (Z.of_nat n)
  end.

(** The number of decimal digits of a whole number that is not
    negative. *)
Definition digits (z : Z) : Z := Z.of_nat (String.length (str_of_Z z)).

Definition inexact : exn :=
  {| exn_type := Inexact;
     exn_msg := "[<class 'decimal.Inexact'>, <class 'decimal.Rounded'>]" |}.

Definition overflow : exn :=
  {| exn_type := Overflow;
     exn_msg := "[<class 'decimal.Overflow'>, <class 'decimal.Inexact'>, "
                ++ "<class 'decimal.Rounded'>]" |}.

Definition underflow (clamped : bool) : exn :=
  {| exn_type := Underflow;
     exn_msg := "[<class 'decimal.Underflow'>, <class 'decimal.Inexact'>, "
                ++ "<class 'decimal.Rounded'>"
                ++ (if clamped then ", <class 'decimal.Clamped'>]" else "]") |}.

(** The place after the point of the first digit of [n / d], a number
    below one: the least [k] with [1 <= n / d * 10 ^ k], looked for up to
    [fuel] places further. *)
Fixpoint leading_place (fuel k : nat) (n d : Z) : nat :=
  match fuel with
  | O => k
  | S fuel' =>
      if Z.leb d (n * 10 ^ Z.of_nat k)%Z then k else leading_place fuel' (S k) n d
  end.

(** [n / d] is a whole number of units [10 ^ (- p)]. *)
Definition ends_at (p n d : Z) : bool :=
  Z.eqb ((n * 10 ^ Z.max p 0) mod (d * 10 ^ Z.max (- p) 0))%Z 0.

(** The number context of boto3 on the Decimal of value [x] written with
    the digits it needs: 38 digits from the first, none below 1e-165,
    and the first not above 1e126. *)
Definition context_error (x : Q) : option exn :=
  let n := Z.abs (Qnum (Qred x)) in
  let d := Z.pos (Qden (Qred x)) in
  if Z.eqb n 0 then None
  else if Z.leb (10 ^ 127 * d)%Z n then Some overflow
  else
    let whole := if Z.ltb n d then 0%Z else digits (n / d)%Z in
    let places :=
      if Z.eqb whole 0
      then Z.min (37 + Z.of_nat (leading_place 128 1 n d))%Z 165
      else (38 - whole)%Z in
    if ends_at places n d then None
    else if Z.ltb (n * 10 ^ 128)%Z d
    then Some (underflow (Z.leb (2 * n * 10 ^ 165)%Z d))
    else if Z.eqb whole 127
            && Z.eqb (n / (d * 10 ^ 89))%Z (10 ^ 38 - 1)%Z
            && Z.leb (d * 10 ^ 89)%Z (2 * (n mod (d * 10 ^ 89)))%Z
    then Some overflow
    else Some inexact.

(** Shorter keys first, and keys of one length in the order of their
    bytes. *)
Definition scan_before (n m : string) : bool :=
  (String.length n <? String.length m)%nat
  || ((String.length n =? String.length m)%nat && String.ltb n m).
End Plain.

Definition plain_runtime : Externals :=
  {| regex_search := Plain.regex_search;
     bson_leb := Plain.bson_leb;
     round64 := fun x => x;
     float_of_str := Plain.parse_number;
     decimal_of_str := Plain.parse_number;
     py_str := Plain.py_str;
     context_error := Plain.context_error;
     scan_before := Plain.scan_before |}.

(** ** Vocabulary of the statements *)

(** The coming [n] requests to a backend are answered, not refused. *)
Definition answered (n : nat) (w : world) : bool :=
  forallb (fun f : option exn => match f with None => true | Some _ => false end)
          (firstn n (faults w)).

(** What [Decimal] raises on a string that is not a number. *)
Definition conversion_syntax : exn :=
  {| exn_type := InvalidOperation;
     exn_msg := "[<class 'decimal.ConversionSyntax'>]" |}.

(** The dictionary [insert_one] leaves with the caller. *)
Definition with_id (oid : nat) (d : pydict) : pydict :=
  match d !! "_id" with
  | Some _ => d
  | None => <["_id" := PObjectId oid]> d
  end.

(** One round of a conversion loop over the items of a dictionary. *)
Definition convert_entry (target : pyval -> bool) (conv : pyval -> pyval)
    (c : pydict) (kv : string * pyval) : pydict :=
  if target (snd kv) then <[fst kv := conv (snd kv)]> c else c.

Section Representations.
Context `{Externals}.

(** A value as the document backend takes it: a [Decimal] as the
    nearest float. *)
Definition to_float_value (v : pyval) : pyval :=
  match v with
  | PDecimal d => PFloat (round64 d)
  | _ => v
  end.

(** A value as the key-value backend takes it: a float as the [Decimal]
    of its [str]. *)
Definition to_decimal_value (v : pyval) : pyval :=
  match v with
  | PFloat _ =>
      match decimal_of_str (py_str v) with
      | Some d => PDecimal d
      | None => v
      end
  | _ => v
  end.

(** Every float of the dictionary has a [str] that [Decimal] reads. *)
Definition decimal_convertible (d : pydict) : bool :=
  bool_decide (map_Forall (fun _ v => is_float (to_decimal_value v) = false) d).
End Representations.

(** Both stores. *)
Definition stores (w : world) : list pydict * list pydict := (movies w, table w).

(** [l'] is [l] with at most one element gone, one that passes [p]. *)
Definition removes_at_most_one (p : pydict -> bool) (l l' : list pydict) : Prop :=
  l' = l \/
  exists before d after,
    l = (before ++ d :: after)%list /\ p d = true /\ l' = (before ++ after)%list.

(** What one page of a scan from position [from] evaluates and returns. *)
Definition scan_page (w : world) (from : nat) : list pydict :=
  firstn (Pos.to_nat (scan_limit w)) (skipn from (table w)).

(** A computation that sends no request to a backend and ends. *)
Definition silent {A} (c : M world A) : Prop :=
  forall w, exists o w', c w = (o, w') /\ o <> Diverge /\ faults w' = faults w.

(** A run that ends by raising: the exception [e] of the backend when its
    request was sent, and otherwise one raised before any request. *)
Definition ends_raising {A} (e : exn) (fs : list (option exn))
    (r : outcome A * world) : Prop :=
  exists e',
    fst r = Raise e'
    /\ ((e' = e /\ faults (snd r) = fs) \/ faults (snd r) = Some e :: fs).

(** What [FindMovies] returns of the stored records that pass the filter
    of a backend: only such records, as [proj] shows them, and all of
    them when no more than twenty pass. *)
Definition returned_of (passes : pydict -> bool) (stored : list pydict)
    (proj : pydict -> pydict) (results : list pydict) : Prop :=
  (forall r, In r results ->
     exists d, In d stored /\ passes d = true /\ r = proj d)
  /\ (length (List.filter passes stored) <= 20 ->
      forall d, In d stored -> passes d = true -> In (proj d) results).

(** The client-side sort key of an item can be computed. *)
Definition has_float_rating `{Externals} (d : pydict) : bool :=
  match rating_key d with
  | Ok _ => true
  | _ => false
  end.

(** Each result and the one after it have ratings that convert to floats,
    and the first is not below the second. *)
Definition rating_not_below `{Externals} (x y : pydict) : Prop :=
  exists kx ky, rating_key x = Ok kx /\ rating_key y = Ok ky /\ (ky <= kx)%Q.

Definition descending_ratings `{Externals} (results : list pydict) : Prop :=
  forall i x y,
    results !! i = Some x -> results !! S i = Some y -> rating_not_below x y.

(** How often the character [c] occurs in [s]. *)
Fixpoint count_char (c : ascii) (s : string) : nat :=
  match s with
  | EmptyString => 0
  | String a s' => (if Ascii.eqb a c then 1 else 0) + count_char c s'
  end.

(** [s] starts with a white-space character. *)
Definition starts_with_space (s : string) : bool :=
  negb (Nat.eqb (space_width s) 0).

(** [s] ends with a white-space character: a suffix of it that is not
    empty is white space from end to end. *)
Fixpoint ends_with_space (s : string) : bool :=
  match s with
  | EmptyString => false
  | String c s' => all_space (String c s') || ends_with_space s'
  end.

(** The dictionary the form of movieproject.py builds. *)
Definition form_record (fields : form) (rating : pyval) : pydict :=
  <["name" := PStr (movie_name_entry fields)]>
  (<["genre" := PList (stripped_nonempty (split_on "," (genre_entry fields)))]>
  (<["directors" := PList (split_on "," (director_entry fields))]>
  (<["certificate" := PStr (certificate_entry fields)]>
  (<["rating" := rating]> ∅)))).

(** The dictionary the form of movies2.py builds. *)
Definition form_record2 (fields : form) (rating : pyval) : pydict :=
  <["name" := PStr (movie_name_entry fields)]>
  (<["genre" := PList (stripped_nonempty (split_on "," (genre_entry fields)))]>
  (<["rating" := rating]> ∅)).

(** What a user of the application can observe of the world: the two
    stores, what was printed, the dialogs and the result field. *)
Definition observable (w : world)
    : list pydict * list pydict * list string * list (string * string) * list string :=
  (movies w, table w, stdout w, dialogs w, text w).

(** No two items of the table have the same name: a lookup by name has
    one answer at most. *)
Definition one_item_per_name (t : list pydict) : Prop :=
  forall n, (length (List.filter (Dynamo.has_key n) t) <= 1)%nat.

(** A computation that leaves the table as it is, however it ends. *)
Definition keeps_table {A} (c : M world A) : Prop :=
  forall w, table (snd (c w)) = table w.

(** What [put_item] may make of a table: nothing, or the item put under
    its name. *)
Definition put_step `{Externals} (t t' : list pydict) : Prop :=
  t' = t \/ exists n item, Dynamo.has_key n item = true /\ t' = Dynamo.table_put n item t.

(** The documents [ds] with the identifiers [n], [n + 1], ... *)
Fixpoint with_ids (n : nat) (ds : list pydict) : list pydict :=
  match ds with
  | [] => []
  | d :: ds' => <["_id" := PObjectId n]> d :: with_ids (S n) ds'
  end.

(** What an entry of the form holds; a label holds nothing. *)
Definition entry_value (c : controls) (x : widget) : string :=
  match x with
  | details_entry_widget => details_entry c
  | movie_name_entry_widget => movie_name_entry (entries c)
  | genre_entry_widget => genre_entry (entries c)
  | director_entry_widget => director_entry (entries c)
  | rating_entry_widget => rating_entry (entries c)
  | certificate_entry_widget => certificate_entry (entries c)
  | _ => ""
  end.

(** The operations of the menu. *)
Definition operations : list string :=
  ["Find movies by actor"; "Find movies by director";
   "Find movies by genre"; "Find movies by certificate";
   "Get movie details"; "Add Movie"; "Update Movie"; "Delete Movie"].

(** The controls with another text in the details entry. *)
Definition with_details (s : string) (c : controls) : controls :=
  {| operation_var := operation_var c; details_entry := s;
     entries := entries c; askfloat := askfloat c |}.

(** ** Sample data *)

(** Both stores empty, no refusal to come, nothing printed or shown. *)
Definition empty_world : world :=
  {| movies := []; next_oid := 0; table := []; scan_limit := 25;
     faults := []; heap := ∅; stdout := []; dialogs := []; text := [] |}.

(** [{'name': name, 'genre': genre, 'rating': rating}] *)
Definition record (name : string) (genre : list string) (rating : pyval) : pydict :=
  <["name" := PStr name]> (<["genre" := PList genre]> (<["rating" := rating]> ∅)).

(** [{'name': name, 'genre': genre}] *)
Definition unrated (name : string) (genre : list string) : pydict :=
  <["name" := PStr name]> (<["genre" := PList genre]> ∅).

(** A backend that cannot be reached. *)
Definition unreachable : exn :=
  {| exn_type := ClientError; exn_msg := "Could not connect to the endpoint URL" |}.

(** The search of the specification: the value occurs in the field, or
    in an element of a sequence field, without regard to case. *)
Definition occurs_ignoring_case (key value : string) (d : pydict) : bool :=
  match d !! key with
  | Some (PStr s) => str_contains (Plain.lower value) (Plain.lower s)
  | Some (PList l) =>
      existsb (fun s => str_contains (Plain.lower value) (Plain.lower s)) l
  | _ => false
  end.

(** The store after [AddMovie] of each of [records] in turn. *)
Definition stocked (db_choice : string) (records : list pydict) : world :=
  snd (for_each records
         (fun d =>
            movie_data <- alloc d ;;
            @MovieProject.MovieEncyclopedia.add_movie plain_runtime db_choice movie_data)
         empty_world).

(** Twenty-one rated dramas and one without a rating, in the key-value
    store. *)
Definition dramas : list pydict :=
  (map (fun i => record ("Drama " ++ Plain.str_of_Z (Z.of_nat i)) ["Drama"]
                   (PDecimal (inject_Z (Z.of_nat i))))
       (seq 1 21)
   ++ [unrated "Untitled" ["Drama"]])%list.

Definition crowded_world : world := stocked "dynamodb" dramas.

(** The twenty-one rated dramas alone, in the key-value store. *)
Definition rated_world : world := stocked "dynamodb" (firstn 21 dramas).

(** "Dune" and "Casablanca" in both stores, and an update of the rating
    to 9 held by the caller. *)
Definition sample_world : world :=
  with_movies [<["_id" := PObjectId 0]> (record "Dune" ["Sci-Fi"] (PFloat (17 # 2)));
               <["_id" := PObjectId 1]> (record "Casablanca" ["Drama"] (PFloat (17 # 2)))]
    (with_table [record "Dune" ["Sci-Fi"] (PDecimal (17 # 2));
                 record "Casablanca" ["Drama"] (PDecimal (17 # 2))]
       (with_heap {[0%nat := {["rating" := PDecimal 9]}]} empty_world)).

(** "Dune Part Two" stored before "Dune" in the document store. *)
Definition sequel_world : world :=
  with_movies [<["_id" := PObjectId 0]> (record "Dune Part Two" ["Sci-Fi"] (PFloat 8));
               <["_id" := PObjectId 1]> (record "Dune" ["Sci-Fi"] (PFloat (17 # 2)))]
    (with_heap {[0%nat := {["rating" := PDecimal 9]}]} empty_world).

(** The form filled in for "Dune", rated 8.5. *)
Definition dune_form : form :=
  {| movie_name_entry := "Dune"; genre_entry := " Sci-Fi , Adventure,";
     director_entry := "Denis Villeneuve"; certificate_entry := "PG-13";
     rating_entry := "8.5" |}.

(** The no-break space U+00A0 in UTF-8, white space for [str.strip]. *)
Definition no_break_space : string :=
  String (ascii_of_nat 194) (String (ascii_of_nat 160) EmptyString).

(** The form for "Dune" with no-break spaces around its genres. *)
Definition padded_form : form :=
  {| movie_name_entry := "Dune";
     genre_entry := no_break_space ++ "Sci-Fi" ++ no_break_space ++ ", Adventure ,"
                    ++ no_break_space;
     director_entry := "Denis Villeneuve"; certificate_entry := "PG-13";
     rating_entry := "8.5" |}.

(** The form for "Dune" with a rating of forty digits. *)
Definition long_rating_form : form :=
  {| movie_name_entry := "Dune"; genre_entry := "Sci-Fi";
     director_entry := "Denis Villeneuve"; certificate_entry := "PG-13";
     rating_entry := "8.500000000000000000000000000000000000001" |}.

(** A file of two rows. *)
Definition sample_file : list csv_row :=
  [{| csv_name := CellStr "Dune"; csv_year := CellInt 2021; csv_rating := CellInt 8;
      csv_certificate := CellStr "PG-13"; csv_genre := "Sci-Fi,Adventure";
      csv_casts := "Timothee Chalamet,Zendaya"; csv_directors := "Denis Villeneuve" |};
   {| csv_name := CellStr "Casablanca"; csv_year := CellInt 1942; csv_rating := CellInt 9;
      csv_certificate := CellStr "PG"; csv_genre := "Drama";
      csv_casts := "Humphrey Bogart,Ingrid Bergman"; csv_directors := "Michael Curtiz" |}].

(** The sample file as [pd.read_csv] returns it, and the same with the
    cell of the genre of "Casablanca" left empty. *)
Definition sample_frame : list read_row :=
  map (fun r => {| read_name := csv_name r; read_year := csv_year r;
                   read_rating := csv_rating r;
                   read_certificate := csv_certificate r;
                   read_genre := Some (CellStr (csv_genre r));
                   read_casts := Some (CellStr (csv_casts r));
                   read_directors := Some (CellStr (csv_directors r)) |})
      sample_file.

Definition gapped_frame : list read_row :=
  [{| read_name := CellStr "Dune"; read_year := CellInt 2021;
      read_rating := CellInt 8; read_certificate := CellStr "PG-13";
      read_genre := Some (CellStr "Sci-Fi,Adventure");
      read_casts := Some (CellStr "Timothee Chalamet,Zendaya");
      read_directors := Some (CellStr "Denis Villeneuve") |};
   {| read_name := CellStr "Casablanca"; read_year := CellInt 1942;
      read_rating := CellInt 9; read_certificate := CellStr "PG";
      read_genre := None;
      read_casts := Some (CellStr "Humphrey Bogart,Ingrid Bergman");
      read_directors := Some (CellStr "Michael Curtiz") |}].

(** A "Dune" held by the caller, next to the sample stores. *)
Definition dune_world : world :=
  with_heap {[0%nat := record "Dune" ["Sci-Fi"] (PDecimal (17 # 2))]} sample_world.

(** The binary64 number nearest to 8.1, the float of the literal
    [8.1]: 4559894622712627 / 2 ^ 49, in decimal
    8.0999999999999996447286321199499070644378662109375. *)
Definition float_8_1 : Q := 4559894622712627 # 562949953421312.

(** * Properties *)

Example plain_parse_8_5 : Plain.parse_number "8.5" = Some (17 # 2)%Q.
Proof. reflexivity. Qed.

Example plain_parse_abc : Plain.parse_number "abc" = None.
Proof. reflexivity. Qed.

Example plain_str_8_5 : Plain.py_str (PFloat (17 # 2)%Q) = "8.5".
Proof. reflexivity. Qed.

Example plain_str_9 : Plain.py_str (PFloat 9) = "9.0".
Proof. reflexivity. Qed.

Example plain_regex_dune : Plain.regex_search "dune" "Dune Part Two" = true.
Proof. reflexivity. Qed.

Example split_two : split_on "," "Action,Drama" = ["Action"; "Drama"].
Proof. reflexivity. Qed.

Example split_one : split_on "," "Drama" = ["Drama"].
Proof. reflexivity. Qed.

Example strip_spaces : strip "  Sci-Fi " = "Sci-Fi".
Proof. reflexivity. Qed.

Example strip_no_break_space :
  strip (no_break_space ++ "Drama" ++ no_break_space) = "Drama".
Proof. reflexivity. Qed.

Example stripped_no_break_space :
  stripped_nonempty [no_break_space ++ "Drama" ++ no_break_space; "Sci-Fi"; no_break_space]
  = ["Drama"; "Sci-Fi"].
Proof. reflexivity. Qed.

Example chars_no_break_space : chars (no_break_space ++ "ab") = [no_break_space; "a"; "b"].
Proof. reflexivity. Qed.

Example plain_str_decimal_9 : Plain.py_str (PDecimal 9) = "9".
Proof. reflexivity. Qed.

Example plain_str_decimal_8_1 :
  Plain.py_str (PDecimal float_8_1) = "8.0999999999999996447286321199499070644378662109375".
Proof. vm_compute. reflexivity. Qed.

Example plain_context_8_5 : Plain.context_error (17 # 2) = None.
Proof. vm_compute. reflexivity. Qed.

Example plain_context_8_1 : Plain.context_error float_8_1 = Some Plain.inexact.
Proof. vm_compute. reflexivity. Qed.

Example plain_context_1e200 :
  Plain.context_error (inject_Z (10 ^ 200)) = Some Plain.overflow.
Proof. vm_compute. reflexivity. Qed.

Section Claims.
Context `{Externals}.

Lemma request_table (w : world) : table (snd (request w)) = table w.
Proof. unfold request. destruct (faults w) as [|[e|] fs]; reflexivity. Qed.

Lemma assign_ids_table (ds : list pydict) (w : world) :
  table (snd (Mongo.assign_ids ds w)) = table w.
Proof.
  revert w. induction ds as [|d ds IH]; intros w; [reflexivity|].
  simpl. unfold bind, Mongo.assign_id.
  destruct (d !! "_id").
  - unfold ret at 1. specialize (IH w).
    destruct (Mongo.assign_ids ds w) as [[a| |] w']; simpl in *; exact IH.
  - unfold bind, gets, modify, ret at 1; simpl.
    specialize (IH (with_next_oid (S (next_oid w)) w)).
    destruct (Mongo.assign_ids ds _) as [[a| |] w']; simpl in *; exact IH.
Qed.

Lemma drop_table (w : world) : table (snd (Mongo.drop w)) = table w.
Proof.
  unfold Mongo.drop, bind. pose proof (request_table w) as Hr.
  destruct (request w) as [[[]| |] w']; simpl in *; exact Hr.
Qed.

Lemma insert_many_table (ds : list pydict) (w : world) :
  table (snd (Mongo.insert_many ds w)) = table w.
Proof.
  unfold Mongo.insert_many. destruct ds as [|d ds]; [reflexivity|].
  unfold bind. pose proof (assign_ids_table (d :: ds) w) as Ha.
  destruct (Mongo.assign_ids (d :: ds) w) as [[ds'| |] w1]; simpl in Ha |- *; try exact Ha.
  pose proof (request_table w1) as Hr.
  destruct (request w1) as [[[]| |] w2]; simpl in *; try congruence.
  destruct (forallb Mongo.encodable ds'); simpl; congruence.
Qed.

(** C3. In the bulk load the key-value branch is nested in the branch of
    the document backend: it would run only for a [db_choice] equal to
    both ['mongodb'] and ['dynamodb'].  So for every [db_choice] the load
    is the load without that branch and leaves the table as it was, and
    with [db_choice = 'dynamodb'] it does nothing at all.  The text of
    movies2.py is the same. *)
Theorem bulk_load_key_value_branch_dead
    (db_choice : string) (file : list csv_row) (w : world) :
  let load := MovieProject.MovieEncyclopedia.load_movies_from_csv in
  let load2 := Movies2.MovieEncyclopedia.load_movies_from_csv in
  load db_choice file w =
    (if String.eqb db_choice "mongodb"
     then Mongo.drop ;; Mongo.insert_many (map to_record (map split_columns file))
     else ret tt) w
  /\ table (snd (load db_choice file w)) = table w
  /\ load "dynamodb" file w = (Ok tt, w)
  /\ load2 db_choice file w = load db_choice file w.
Proof.
  intros load load2.
  assert (Hdead : load db_choice file w =
    (if String.eqb db_choice "mongodb"
     then Mongo.drop ;; Mongo.insert_many (map to_record (map split_columns file))
     else ret tt) w).
  { unfold load, MovieProject.MovieEncyclopedia.load_movies_from_csv.
    destruct (String.eqb_spec db_choice "mongodb") as [->|Hne]; [|reflexivity].
    change (String.eqb "mongodb" "dynamodb") with false. cbv iota.
    unfold bind.
    destruct (Mongo.drop w) as [[[]| |] w1]; try reflexivity.
    destruct (Mongo.insert_many _ w1) as [[[]| |] w2]; reflexivity. }
  split; [exact Hdead|]. split; [|split; reflexivity].
  rewrite Hdead.
  destruct (String.eqb db_choice "mongodb"); [|reflexivity].
  unfold bind. pose proof (drop_table w) as Hd.
  destruct (Mongo.drop w) as [[[]| |] w1]; simpl in Hd |- *; try exact Hd.
  rewrite insert_many_table. exact Hd.
Qed.

Lemma str_truthy_nonempty (s : string) : s <> "" -> str_truthy s = true.
Proof.
  intros Hs. unfold str_truthy. destruct (String.eqb_spec s ""); [contradiction|reflexivity].
Qed.

(** C9. A form submitted with a name and with a rating that is not a
    number is to be refused with an error dialog.  In both files
    [Decimal(rating_str)] raises [InvalidOperation], which is not a
    [ValueError]: the handler with the dialog is passed over, the
    exception leaves [add_movie], and the world is as before, with no
    dialog shown (and no record written). *)
Theorem form_add_movie_invalid_rating_escapes
    (db_choice : string) (entries : form) (w : world) :
  movie_name_entry entries <> "" ->
  rating_entry entries <> "" ->
  decimal_of_str (rating_entry entries) = None ->
  issubclass (exn_type conversion_syntax) ValueError = false
  /\ MovieProject.MovieEncyclopediaGUI.add_movie db_choice entries w
     = (Raise conversion_syntax, w)
  /\ Movies2.MovieEncyclopediaGUI.add_movie db_choice entries w
     = (Raise conversion_syntax, w).
Proof.
  intros Hname Hrating Hparse. split; [reflexivity|].
  unfold MovieProject.MovieEncyclopediaGUI.add_movie,
    Movies2.MovieEncyclopediaGUI.add_movie.
  rewrite (str_truthy_nonempty _ Hname), (str_truthy_nonempty _ Hrating).
  cbn [negb orb].
  unfold bind, try_except, lift_outcome, py_Decimal.
  rewrite Hparse. cbn. split; reflexivity.
Qed.

Lemma not_float_free (d : pydict) (k : string) (x : Q) :
  d !! k = Some (PFloat x) -> Dynamo.float_free d = false.
Proof.
  intros Hk. unfold Dynamo.float_free. apply bool_decide_eq_false.
  intros Hall. specialize (Hall k _ Hk). discriminate Hall.
Qed.

Lemma not_serializable (d : pydict) (k : string) (x : Q) :
  d !! k = Some (PFloat x) -> Dynamo.serializable d = false.
Proof.
  intros Hk. unfold Dynamo.serializable. rewrite (not_float_free _ _ _ Hk). reflexivity.
Qed.

(** C4. AddMovie is to hand the key-value backend an exact decimal
    whatever numeric type the caller gave.  In movieproject.py the
    conversion is guarded by [isinstance(..., Decimal)] and so never
    touches a float; movies2.py has no conversion.  A float rating
    reaches [put_item] as a float, boto3 refuses it with [TypeError],
    and nothing is written. *)
Theorem add_movie_key_value_keeps_float (movie_data : nat) (x : Q) (w : world) :
  (heap w !!! movie_data) !! "rating" = Some (PFloat x) ->
  MovieProject.MovieEncyclopedia.add_movie "dynamodb" movie_data w
    = (Raise Dynamo.float_unsupported, w)
  /\ Movies2.MovieEncyclopedia.add_movie "dynamodb" movie_data w
    = (Raise Dynamo.float_unsupported, w).
Proof.
  intros Hr.
  unfold MovieProject.MovieEncyclopedia.add_movie, Movies2.MovieEncyclopedia.add_movie.
  change (String.eqb "dynamodb" "mongodb") with false.
  change (String.eqb "dynamodb" "dynamodb") with true. cbv iota.
  unfold bind, py_in, getitem, deref, gets, ret, Dynamo.put_item. cbn.
  repeat (rewrite Hr; cbn).
  rewrite (not_serializable _ _ _ Hr). unfold Dynamo.refusal.
  rewrite (not_float_free _ _ _ Hr). split; reflexivity.
Qed.

Lemma request_heap (w : world) : heap (snd (request w)) = heap w.
Proof. unfold request. destruct (faults w) as [|[e|] fs]; reflexivity. Qed.

Lemma with_heap_same (w : world) : with_heap (heap w) w = w.
Proof. destruct w; reflexivity. Qed.

Lemma for_each_convert (target : pyval -> bool) (conv : pyval -> pyval)
    (l : nat) (body : string * pyval -> M world unit)
    (kvs : list (string * pyval)) (w : world) :
  (forall k v w', In (k, v) kvs ->
     body (k, v) w' =
       (Ok tt, if target v
               then with_heap (<[l := <[k := conv v]> (heap w' !!! l)]> (heap w')) w'
               else w')) ->
  exists h,
    for_each kvs body w = (Ok tt, with_heap h w)
    /\ h !!! l = foldl (convert_entry target conv) (heap w !!! l) kvs.
Proof.
  revert w. induction kvs as [|[k v] kvs IH]; intros w Hbody.
  - exists (heap w). rewrite with_heap_same. split; reflexivity.
  - cbn [for_each foldl]. unfold bind.
    rewrite (Hbody k v w (or_introl eq_refl)).
    unfold convert_entry at 2. cbn [fst snd].
    destruct (target v) eqn:Ht.
    + set (w1 := with_heap _ w).
      destruct (IH w1) as (h & Hrun & Hh).
      { intros k' v' w' Hin. apply Hbody. right. exact Hin. }
      exists h. rewrite Hrun. split; [reflexivity|].
      rewrite Hh. subst w1. cbn [heap with_heap].
      rewrite lookup_total_insert_eq. reflexivity.
    + destruct (IH w) as (h & Hrun & Hh).
      { intros k' v' w' Hin. apply Hbody. right. exact Hin. }
      exists h. rewrite Hrun. split; [reflexivity|exact Hh].
Qed.

Lemma foldl_convert_lookup (target : pyval -> bool) (conv : pyval -> pyval)
    (kvs : list (string * pyval)) (c : pydict) (k : string) :
  NoDup (kvs.*1) ->
  foldl (convert_entry target conv) c kvs !! k =
    match List.find (fun kv => String.eqb (fst kv) k && target (snd kv)) kvs with
    | Some kv => Some (conv (snd kv))
    | None => c !! k
    end.
Proof.
  revert c. induction kvs as [|[k0 v0] kvs IH]; intros c Hnd; [reflexivity|].
  cbn [foldl List.find fst snd] in *. rewrite fmap_cons in Hnd.
  apply NoDup_cons in Hnd as [Hnotin Hnd']. cbn [fst] in Hnotin.
  rewrite (IH _ Hnd'). unfold convert_entry. cbn [fst snd].
  destruct (List.find _ kvs) as [[k1 v1]|] eqn:Hfind.
  - apply List.find_some in Hfind as [Hin Hp]. cbn [fst snd] in Hp.
    apply andb_true_iff in Hp as [Hk Ht]. apply String.eqb_eq in Hk. subst k1.
    destruct (String.eqb_spec k0 k) as [->|Hne].
    + exfalso. apply Hnotin. apply list_elem_of_fmap. exists (k, v1).
      split; [reflexivity|apply list_elem_of_In; exact Hin].
    + reflexivity.
  - destruct (String.eqb_spec k0 k) as [->|Hne]; cbn [andb].
    + destruct (target v0); [apply lookup_insert_eq|reflexivity].
    + destruct (target v0); [apply lookup_insert_ne; exact Hne|reflexivity].
Qed.

Lemma foldl_convert_items (target : pyval -> bool) (conv : pyval -> pyval)
    (d : pydict) :
  foldl (convert_entry target conv) d (map_to_list d)
  = (fun v => if target v then conv v else v) <$> d.
Proof.
  apply map_eq. intros k.
  rewrite foldl_convert_lookup by apply NoDup_fst_map_to_list.
  rewrite lookup_fmap.
  destruct (List.find _ (map_to_list d)) as [[k1 v1]|] eqn:Hfind.
  - apply List.find_some in Hfind as [Hin Hp]. cbn [fst snd] in *.
    apply andb_true_iff in Hp as [Hk Ht]. apply String.eqb_eq in Hk. subst k1.
    apply list_elem_of_In, elem_of_map_to_list in Hin.
    rewrite Hin. cbn. rewrite Ht. reflexivity.
  - destruct (d !! k) as [v|] eqn:Hk; [|reflexivity]. cbn.
    destruct (target v) eqn:Ht; [|reflexivity].
    exfalso. apply elem_of_map_to_list, list_elem_of_In in Hk.
    eapply List.find_none in Hfind; [|exact Hk]. cbn [fst snd] in Hfind.
    rewrite String.eqb_refl, Ht in Hfind. discriminate.
Qed.

Lemma update_one_set_heap (field v : string) (update : pydict) (w : world) :
  heap (snd (Mongo.update_one_set field v update w)) = heap w.
Proof.
  unfold Mongo.update_one_set.
  unfold bind. pose proof (request_heap w) as Hr.
  destruct (request w) as [[[]| |] w1]; simpl in *; try exact Hr.
  destruct (Mongo.encodable update); exact Hr.
Qed.

Lemma update_item_heap (n : string) (update : pydict) (w : world) :
  heap (snd (Dynamo.update_item n update w)) = heap w.
Proof.
  unfold Dynamo.update_item. destruct (Dynamo.serializable update); [|reflexivity].
  unfold bind. pose proof (request_heap w) as Hr.
  destruct (request w) as [[[]| |] w1]; simpl in *; exact Hr.
Qed.

(** [update_movie] on the document backend: the conversion loop, then
    the update request with the converted dictionary. *)
Lemma update_movie_mongodb_run (movie_name : string) (update_data : nat) (w : world) :
  exists h,
    h !!! update_data = to_float_value <$> (heap w !!! update_data)
    /\ MovieProject.MovieEncyclopedia.update_movie "mongodb" movie_name update_data w
       = Mongo.update_one_set "name" movie_name
           (to_float_value <$> (heap w !!! update_data)) (with_heap h w).
Proof.
  unfold MovieProject.MovieEncyclopedia.update_movie.
  change (String.eqb "mongodb" "mongodb") with true. cbv iota.
  destruct (for_each_convert is_Decimal to_float_value update_data
    (fun '(key, value) =>
       if is_Decimal value then
         x <- lift_outcome (py_float value) ;;
         setitem update_data key (PFloat x)
       else ret tt)
    (map_to_list (heap w !!! update_data)) w) as (h & Hrun & Hh).
  { intros k v w' _. destruct v; reflexivity. }
  rewrite foldl_convert_items in Hh.
  assert (Hh' : h !!! update_data = to_float_value <$> (heap w !!! update_data)).
  { rewrite Hh. apply map_fmap_ext. intros k v _. destruct v; reflexivity. }
  exists h. split; [exact Hh'|].
  unfold bind at 1. unfold bind at 1. unfold items at 1. unfold bind at 1.
  unfold deref at 1, gets at 1, ret at 1. rewrite Hrun.
  unfold bind, deref, gets. cbn [heap with_heap]. rewrite Hh'. reflexivity.
Qed.

Lemma update_movie_dynamodb_run (movie_name : string) (update_data : nat) (w : world) :
  (forall k x, (heap w !!! update_data) !! k = Some (PFloat x) ->
               is_Some (decimal_of_str (py_str (PFloat x)))) ->
  exists h,
    h !!! update_data = to_decimal_value <$> (heap w !!! update_data)
    /\ MovieProject.MovieEncyclopedia.update_movie "dynamodb" movie_name update_data w
       = Dynamo.update_item movie_name
           (to_decimal_value <$> (heap w !!! update_data)) (with_heap h w).
Proof.
  intros Hparse.
  unfold MovieProject.MovieEncyclopedia.update_movie.
  change (String.eqb "dynamodb" "mongodb") with false.
  change (String.eqb "dynamodb" "dynamodb") with true. cbv iota.
  destruct (for_each_convert is_float to_decimal_value update_data
    (fun '(key, value) =>
       if is_float value then
         d <- lift_outcome (py_Decimal (PStr (py_str value))) ;;
         setitem update_data key (PDecimal d)
       else ret tt)
    (map_to_list (heap w !!! update_data)) w) as (h & Hrun & Hh).
  { intros k v w' Hin. destruct v; try reflexivity.
    apply list_elem_of_In, elem_of_map_to_list in Hin.
    destruct (Hparse _ _ Hin) as [d Hd].
    unfold bind, lift_outcome, py_Decimal, to_decimal_value. cbn [is_float].
    rewrite Hd. reflexivity. }
  rewrite foldl_convert_items in Hh.
  assert (Hh' : h !!! update_data = to_decimal_value <$> (heap w !!! update_data)).
  { rewrite Hh. apply map_fmap_ext. intros k v _. destruct v; reflexivity. }
  exists h. split; [exact Hh'|].
  unfold bind at 1. unfold ret at 1.
  unfold bind at 1. unfold bind at 1. unfold items at 1. unfold bind at 1.
  unfold deref at 1, gets at 1, ret at 1. rewrite Hrun.
  unfold bind, deref, gets. cbn [heap with_heap]. rewrite Hh'. reflexivity.
Qed.

Lemma insert_one_heap (document : nat) (w : world) :
  heap (snd (Mongo.insert_one document w)) !!! document
  = with_id (next_oid w) (heap w !!! document).
Proof.
  unfold Mongo.insert_one, with_id, Mongo.assign_id.
  unfold bind at 1. unfold deref, gets.
  destruct ((heap w !!! document) !! "_id") eqn:Hid.
  - unfold bind at 1. unfold ret at 1. unfold bind at 1. unfold modify at 1.
    set (w1 := with_heap _ w).
    unfold bind. pose proof (request_heap w1) as Hr.
    destruct (request w1) as [[[]| |] w2]; [destruct (Mongo.encodable _)| |];
      simpl in Hr |- *; rewrite Hr; apply lookup_total_insert_eq.
  - unfold bind at 1. unfold bind at 1. unfold bind at 1.
    unfold modify at 1, ret at 1. unfold bind at 1. unfold modify at 1.
    cbn [next_oid with_next_oid heap].
    set (w1 := with_heap _ _).
    unfold bind. pose proof (request_heap w1) as Hr.
    destruct (request w1) as [[[]| |] w2]; [destruct (Mongo.encodable _)| |];
      simpl in Hr |- *; rewrite Hr; apply lookup_total_insert_eq.
Qed.

Lemma add_movie_mongodb_heap (movie_data : nat) (r : pyval) (x : Q) (w : world) :
  (heap w !!! movie_data) !! "rating" = Some r ->
  py_float r = Ok x ->
  heap (snd (MovieProject.MovieEncyclopedia.add_movie "mongodb" movie_data w))
       !!! movie_data
    = with_id (next_oid w) (<["rating" := PFloat x]> (heap w !!! movie_data))
  /\ heap (snd (Movies2.MovieEncyclopedia.add_movie "mongodb" movie_data w))
       !!! movie_data
    = with_id (next_oid w) (<["rating" := PFloat x]> (heap w !!! movie_data)).
Proof.
  intros Hr Hx.
  unfold MovieProject.MovieEncyclopedia.add_movie, Movies2.MovieEncyclopedia.add_movie.
  change (String.eqb "mongodb" "mongodb") with true. cbv iota.
  split.
  - unfold bind at 1. unfold bind at 1. unfold py_in, bind at 1, deref, gets, ret at 1.
    rewrite Hr, bool_decide_eq_true_2 by eauto.
    unfold bind at 1. unfold getitem, bind at 1, deref, gets. rewrite Hr.
    unfold ret at 1. unfold bind at 1, lift_outcome. rewrite Hx.
    unfold setitem, modify.
    rewrite insert_one_heap. cbn [next_oid heap with_heap].
    rewrite lookup_total_insert_eq. reflexivity.
  - unfold bind at 1. unfold bind at 1.
    unfold getitem, bind at 1, deref, gets. rewrite Hr.
    unfold ret at 1. unfold bind at 1, lift_outcome. rewrite Hx.
    unfold setitem, modify.
    rewrite insert_one_heap. cbn [next_oid heap with_heap].
    rewrite lookup_total_insert_eq. reflexivity.
Qed.

(** C10. [add_movie] and [update_movie] write into the dictionary the
    caller passed.  After [add_movie] on the document backend that
    dictionary holds the float of its rating (and the [_id] pymongo
    adds); after [update_movie] on the document backend every [Decimal]
    in it is a float; after [update_movie] on the key-value backend
    every float in it is the [Decimal] of its [str].  This holds whether
    or not the backend then accepts the request. *)
Theorem add_update_mutate_caller_dictionary
    (movie_name : string) (data : nat) (w : world) :
  let d := heap w !!! data in
  let after (run : M world unit) := heap (snd (run w)) !!! data in
  (forall r x, d !! "rating" = Some r -> py_float r = Ok x ->
     after (MovieProject.MovieEncyclopedia.add_movie "mongodb" data)
       = with_id (next_oid w) (<["rating" := PFloat x]> d)
     /\ after (Movies2.MovieEncyclopedia.add_movie "mongodb" data)
       = with_id (next_oid w) (<["rating" := PFloat x]> d))
  /\ after (MovieProject.MovieEncyclopedia.update_movie "mongodb" movie_name data)
     = to_float_value <$> d
  /\ after (Movies2.MovieEncyclopedia.update_movie "mongodb" movie_name data)
     = to_float_value <$> d
  /\ (decimal_convertible d = true ->
      after (MovieProject.MovieEncyclopedia.update_movie "dynamodb" movie_name data)
        = to_decimal_value <$> d
      /\ after (Movies2.MovieEncyclopedia.update_movie "dynamodb" movie_name data)
        = to_decimal_value <$> d).
Proof.
  intros d after.
  assert (Hmongo : after (MovieProject.MovieEncyclopedia.update_movie "mongodb" movie_name data)
                   = to_float_value <$> d).
  { unfold after. destruct (update_movie_mongodb_run movie_name data w) as (h & Hh & Hrun).
    rewrite Hrun, update_one_set_heap. exact Hh. }
  split; [|split; [exact Hmongo|split; [exact Hmongo|]]].
  - intros r x Hr Hx. exact (add_movie_mongodb_heap data r x w Hr Hx).
  - intros Hconv.
    assert (Hparse : forall k x, d !! k = Some (PFloat x) ->
                                 is_Some (decimal_of_str (py_str (PFloat x)))).
    { unfold decimal_convertible in Hconv. apply bool_decide_eq_true_1 in Hconv.
      intros k x Hk. specialize (Hconv k _ Hk). cbn in Hconv.
      destruct (decimal_of_str (py_str (PFloat x))); [eauto|discriminate Hconv]. }
    assert (Hdyn : after (MovieProject.MovieEncyclopedia.update_movie "dynamodb" movie_name data)
                   = to_decimal_value <$> d).
    { unfold after.
      destruct (update_movie_dynamodb_run movie_name data w Hparse) as (h & Hh & Hrun).
      rewrite Hrun, update_item_heap. exact Hh. }
    split; exact Hdyn.
Qed.

Lemma request_answered (n : nat) (w : world) :
  answered (S n) w = true ->
  request w = (Ok tt, with_faults (tl (faults w)) w)
  /\ answered n (with_faults (tl (faults w)) w) = true.
Proof.
  unfold answered, request. destruct (faults w) as [|[e|] fs]; cbn.
  - intros _. split; [reflexivity|]. destruct n; reflexivity.
  - discriminate.
  - intros Hfs. split; [reflexivity|exact Hfs].
Qed.

Lemma request_refused (e : exn) (fs : list (option exn)) (w : world) :
  faults w = Some e :: fs ->
  request w = (Raise e, with_faults fs w).
Proof. intros Hf. unfold request. rewrite Hf. reflexivity. Qed.

(** [List.find] returns the first element that passes the test. *)
Lemma find_first {A} (p : A -> bool) (l : list A) :
  match List.find p l with
  | Some x =>
      exists before after,
        l = (before ++ x :: after)%list
        /\ forallb (fun y => negb (p y)) before = true
        /\ p x = true
  | None => forallb (fun y => negb (p y)) l = true
  end.
Proof.
  induction l as [|y l IH]; [reflexivity|]. cbn [List.find].
  destruct (p y) eqn:Hy.
  - exists [], l. repeat split; assumption.
  - destruct (List.find p l) as [x|].
    + destruct IH as (before & after & -> & Hb & Hx).
      exists (y :: before), after. repeat split; [|exact Hx].
      cbn. rewrite Hy. exact Hb.
    + cbn. rewrite Hy. exact IH.
Qed.

Lemma has_key_name (n : string) (d : pydict) :
  Dynamo.has_key n d = true <-> d !! "name" = Some (PStr n).
Proof.
  unfold Dynamo.has_key, Dynamo.item_key.
  destruct (d !! "name") as [[s| | | | |]|]; try (split; [discriminate|congruence]).
  rewrite String.eqb_eq. split; congruence.
Qed.

(** C8. When the backend answers, [get_movie_details] on the document
    backend returns the first stored document whose name the pattern
    matches without regard to case (without its [_id]), and nothing
    when no document matches; on the key-value backend it returns the
    item whose key is exactly the name, and [None] when the table has
    no such item. *)
Theorem get_movie_details_lookup (movie_name : string) (w : world) :
  answered 1 w = true ->
  let w' := with_faults (tl (faults w)) w in
  (exists found,
     MovieProject.MovieEncyclopedia.get_movie_details "mongodb" movie_name w
       = (Ok found, w')
     /\ Movies2.MovieEncyclopedia.get_movie_details "mongodb" movie_name w
       = (Ok found, w')
     /\ match found with
        | Some record =>
            exists before d after,
              movies w = (before ++ d :: after)%list
              /\ (forall d', In d' before ->
                    Mongo.matches "name" (CondRegexI movie_name) d' = false)
              /\ Mongo.matches "name" (CondRegexI movie_name) d = true
              /\ record = delete "_id" d
        | None =>
            forall d, In d (movies w) ->
              Mongo.matches "name" (CondRegexI movie_name) d = false
        end)
  /\ (exists found,
        MovieProject.MovieEncyclopedia.get_movie_details "dynamodb" movie_name w
          = (Ok found, w')
        /\ Movies2.MovieEncyclopedia.get_movie_details "dynamodb" movie_name w
          = (Ok found, w')
        /\ match found with
           | Some item =>
               exists before after,
                 table w = (before ++ item :: after)%list
                 /\ (forall d', In d' before -> d' !! "name" <> Some (PStr movie_name))
                 /\ item !! "name" = Some (PStr movie_name)
           | None =>
               forall d, In d (table w) -> d !! "name" <> Some (PStr movie_name)
           end).
Proof.
  intros Hans w'. destruct (request_answered 0 w Hans) as [Hreq _].
  split.
  - exists (delete "_id" <$> List.find (Mongo.matches "name" (CondRegexI movie_name)) (movies w)).
    assert (Hrun : MovieProject.MovieEncyclopedia.get_movie_details "mongodb" movie_name w
              = (Ok (delete "_id" <$>
                       List.find (Mongo.matches "name" (CondRegexI movie_name)) (movies w)), w')).
    { unfold MovieProject.MovieEncyclopedia.get_movie_details.
      change (String.eqb "mongodb" "mongodb") with true. cbv iota.
      unfold Mongo.find_one, bind. rewrite Hreq. reflexivity. }
    split; [exact Hrun|]. split; [exact Hrun|].
    pose proof (find_first (Mongo.matches "name" (CondRegexI movie_name)) (movies w)) as Hf.
    destruct (List.find _ (movies w)) as [d|]; cbn [fmap option_fmap option_map].
    + destruct Hf as (before & after & Hsplit & Hb & Hd).
      exists before, d, after. repeat split; try assumption.
      intros d' Hin. rewrite forallb_forall in Hb. specialize (Hb d' Hin).
      apply negb_true_iff in Hb. exact Hb.
    + intros d Hin. rewrite forallb_forall in Hf. specialize (Hf d Hin).
      apply negb_true_iff in Hf. exact Hf.
  - exists (List.find (Dynamo.has_key movie_name) (table w)).
    assert (Hrun : MovieProject.MovieEncyclopedia.get_movie_details "dynamodb" movie_name w
              = (Ok (List.find (Dynamo.has_key movie_name) (table w)), w')).
    { unfold MovieProject.MovieEncyclopedia.get_movie_details.
      change (String.eqb "dynamodb" "mongodb") with false.
      change (String.eqb "dynamodb" "dynamodb") with true. cbv iota.
      unfold Dynamo.get_item, bind. rewrite Hreq. reflexivity. }
    split; [exact Hrun|]. split; [exact Hrun|].
    pose proof (find_first (Dynamo.has_key movie_name) (table w)) as Hf.
    destruct (List.find _ (table w)) as [d|].
    + destruct Hf as (before & after & Hsplit & Hb & Hd).
      exists before, after. repeat split; try assumption.
      * intros d' Hin Hname. rewrite forallb_forall in Hb. specialize (Hb d' Hin).
        apply negb_true_iff in Hb. apply has_key_name in Hname. congruence.
      * apply has_key_name. exact Hd.
    + intros d Hin Hname. rewrite forallb_forall in Hf. specialize (Hf d Hin).
      apply negb_true_iff in Hf. apply has_key_name in Hname. congruence.
Qed.

Lemma remove_first_at_most_one (p : pydict -> bool) (l : list pydict) :
  removes_at_most_one p l (Mongo.remove_first p l).
Proof.
  induction l as [|d l IH]; [left; reflexivity|]. cbn.
  destruct (p d) eqn:Hd.
  - right. exists [], d, l. repeat split. exact Hd.
  - destruct IH as [IH|(before & d' & after & Hl & Hd' & Hr)].
    + left. rewrite IH. reflexivity.
    + right. exists (d :: before), d', after. rewrite Hl at 1. rewrite Hr.
      repeat split. exact Hd'.
Qed.

Lemma remove_first_none (p : pydict -> bool) (l : list pydict) :
  existsb p l = false -> Mongo.remove_first p l = l.
Proof.
  induction l as [|d l IH]; [reflexivity|]. cbn.
  destruct (p d); [discriminate|]. intros Hl. rewrite (IH Hl). reflexivity.
Qed.

Lemma filter_out_none (p : pydict -> bool) (l : list pydict) :
  existsb p l = false -> List.filter (fun d => negb (p d)) l = l.
Proof.
  induction l as [|d l IH]; [reflexivity|]. cbn.
  destruct (p d); [discriminate|]. intros Hl. cbn. rewrite (IH Hl). reflexivity.
Qed.

Lemma with_movies_same (w : world) : with_movies (movies w) w = w.
Proof. destruct w; reflexivity. Qed.

Lemma with_table_same (w : world) : with_table (table w) w = w.
Proof. destruct w; reflexivity. Qed.

Lemma issubclass_Exception (c : exn_class) : issubclass c Exception = true.
Proof. destruct c; reflexivity. Qed.

(** What [delete_movie] does, by the answer to its one request. *)
Lemma delete_movie_mongodb_run (movie_name : string) (w : world) :
  let named := Mongo.matches "name" (CondEq movie_name) in
  let w1 := with_faults (tl (faults w)) w in
  let w2 := with_movies (Mongo.remove_first named (movies w)) w1 in
  match faults w with
  | Some e :: _ =>
      MovieProject.MovieEncyclopedia.delete_movie "mongodb" movie_name w = (Raise e, w1)
      /\ Movies2.MovieEncyclopedia.delete_movie "mongodb" movie_name w = (Raise e, w1)
  | _ =>
      MovieProject.MovieEncyclopedia.delete_movie "mongodb" movie_name w
        = (Ok tt, if existsb named (movies w) then w2
                  else with_stdout (stdout w ++ ["No movie found with that name."]) w2)
      /\ Movies2.MovieEncyclopedia.delete_movie "mongodb" movie_name w
        = (Ok tt, with_stdout
                    (stdout w ++ [if existsb named (movies w)
                                  then "Deleted movie: " ++ movie_name
                                  else "No movie found with that name."]) w2)
  end.
Proof.
  intros named w1 w2.
  unfold MovieProject.MovieEncyclopedia.delete_movie, Movies2.MovieEncyclopedia.delete_movie.
  change (String.eqb "mongodb" "mongodb") with true. cbv iota.
  unfold Mongo.delete_one, bind, request, gets, modify, ret, print.
  subst w2 w1.
  destruct (faults w) as [|[e|] fs]; cbn [movies with_faults];
    fold named; destruct (existsb named (movies w)); split; reflexivity.
Qed.

Lemma delete_movie_dynamodb_run (movie_name : string) (w : world) :
  let w1 := with_faults (tl (faults w)) w in
  let w2 := with_table (List.filter (fun d => negb (Dynamo.has_key movie_name d)) (table w)) w1 in
  match faults w with
  | Some e :: _ =>
      MovieProject.MovieEncyclopedia.delete_movie "dynamodb" movie_name w
        = (Ok tt, with_stdout (stdout w ++ ["Failed to delete movie: " ++ exn_msg e]) w1)
      /\ Movies2.MovieEncyclopedia.delete_movie "dynamodb" movie_name w
        = (Ok tt, with_stdout (stdout w ++ ["Failed to delete movie: " ++ exn_msg e]) w1)
  | _ =>
      MovieProject.MovieEncyclopedia.delete_movie "dynamodb" movie_name w = (Ok tt, w2)
      /\ Movies2.MovieEncyclopedia.delete_movie "dynamodb" movie_name w
        = (Ok tt, with_stdout (stdout w ++ ["Deleted movie: " ++ movie_name]) w2)
  end.
Proof.
  intros w1 w2.
  unfold MovieProject.MovieEncyclopedia.delete_movie, Movies2.MovieEncyclopedia.delete_movie.
  change (String.eqb "dynamodb" "mongodb") with false.
  change (String.eqb "dynamodb" "dynamodb") with true. cbv iota.
  unfold try_except, Dynamo.delete_item, bind, request, modify, print.
  subst w2 w1.
  destruct (faults w) as [|[e|] fs]; cbn [table with_faults];
    rewrite ?issubclass_Exception; split; reflexivity.
Qed.

Lemma delete_movie_zero_match_stores (db_choice movie_name : string) (w : world) :
  existsb (Mongo.matches "name" (CondEq movie_name)) (movies w) = false ->
  existsb (Dynamo.has_key movie_name) (table w) = false ->
  stores (snd (MovieProject.MovieEncyclopedia.delete_movie db_choice movie_name w))
    = stores w
  /\ stores (snd (Movies2.MovieEncyclopedia.delete_movie db_choice movie_name w))
    = stores w.
Proof.
  intros Hdocs Hitems.
  destruct (String.eqb_spec db_choice "mongodb") as [->|Hm].
  - pose proof (delete_movie_mongodb_run movie_name w) as Hrun. cbv zeta in Hrun.
    rewrite Hdocs, (remove_first_none _ _ Hdocs) in Hrun.
    destruct (faults w) as [|[e|] fs]; destruct Hrun as [-> ->]; split; reflexivity.
  - destruct (String.eqb_spec db_choice "dynamodb") as [->|Hd].
    + pose proof (delete_movie_dynamodb_run movie_name w) as Hrun. cbv zeta in Hrun.
      rewrite (filter_out_none _ _ Hitems) in Hrun.
      destruct (faults w) as [|[e|] fs]; destruct Hrun as [-> ->]; split; reflexivity.
    + unfold MovieProject.MovieEncyclopedia.delete_movie,
        Movies2.MovieEncyclopedia.delete_movie.
      apply String.eqb_neq in Hm, Hd. rewrite Hm, Hd. split; reflexivity.
Qed.

(** C7, amended.  [delete_movie] on the document backend, when the
    backend answers, returns and removes at most one document, one with
    that name; with no such document it prints that none was found and
    leaves the store as it was.  On the key-value backend it sends the
    delete without looking first and returns whatever the backend does:
    a refusal is printed and nothing is deleted.  With no record of that
    name a delete leaves both stores as they were, and so does a second
    one.  On the document backend a request the backend refuses is not
    caught: [delete_movie] raises that exception, whatever the
    collection holds. *)
Theorem delete_movie_zero_matches (movie_name : string) (w : world) :
  let named := Mongo.matches "name" (CondEq movie_name) in
  let w1 := with_faults (tl (faults w)) w in
  let delete := MovieProject.MovieEncyclopedia.delete_movie in
  let delete2 := Movies2.MovieEncyclopedia.delete_movie in
  (answered 1 w = true ->
     exists w' w2',
       delete "mongodb" movie_name w = (Ok tt, w')
       /\ delete2 "mongodb" movie_name w = (Ok tt, w2')
       /\ removes_at_most_one named (movies w) (movies w')
       /\ removes_at_most_one named (movies w) (movies w2'))
  /\ (answered 1 w = true -> existsb named (movies w) = false ->
        delete "mongodb" movie_name w
          = (Ok tt, with_stdout (stdout w ++ ["No movie found with that name."]) w1)
        /\ delete2 "mongodb" movie_name w
          = (Ok tt, with_stdout (stdout w ++ ["No movie found with that name."]) w1))
  /\ (exists w' w2',
        delete "dynamodb" movie_name w = (Ok tt, w')
        /\ delete2 "dynamodb" movie_name w = (Ok tt, w2')
        /\ faults w' = tl (faults w) /\ faults w2' = tl (faults w))
  /\ (forall e fs, faults w = Some e :: fs ->
        delete "dynamodb" movie_name w
          = (Ok tt, with_stdout (stdout w ++ ["Failed to delete movie: " ++ exn_msg e]) w1)
        /\ delete2 "dynamodb" movie_name w
          = (Ok tt, with_stdout (stdout w ++ ["Failed to delete movie: " ++ exn_msg e]) w1)
        /\ table w1 = table w)
  /\ (existsb named (movies w) = false ->
      existsb (Dynamo.has_key movie_name) (table w) = false ->
      forall db_choice,
        stores (snd (delete db_choice movie_name w)) = stores w
        /\ stores (snd ((delete db_choice movie_name ;; delete db_choice movie_name) w))
           = stores (snd (delete db_choice movie_name w))
        /\ stores (snd (delete2 db_choice movie_name w)) = stores w
        /\ stores (snd ((delete2 db_choice movie_name ;; delete2 db_choice movie_name) w))
           = stores (snd (delete2 db_choice movie_name w)))
  /\ (forall e fs, faults w = Some e :: fs ->
        delete "mongodb" movie_name w = (Raise e, w1)
        /\ delete2 "mongodb" movie_name w = (Raise e, w1)).
Proof.
  intros named w1 delete delete2.
  pose proof (delete_movie_mongodb_run movie_name w) as Hm.
  pose proof (delete_movie_dynamodb_run movie_name w) as Hd.
  cbv zeta in Hm, Hd. fold named w1 delete delete2 in Hm, Hd.
  split; [|split; [|split; [|split; [|split]]]].
  - intros Hans. unfold answered in Hans.
    destruct (faults w) as [|[e|] fs]; [|discriminate Hans|]; destruct Hm as [-> ->];
      eexists _, _; (split; [reflexivity|]); (split; [reflexivity|]);
      (split; [destruct (existsb named (movies w))|]);
      cbn [movies with_stdout with_movies]; apply remove_first_at_most_one.
  - intros Hans Hnone. unfold answered in Hans.
    rewrite Hnone, (remove_first_none _ _ Hnone) in Hm.
    replace (with_movies (movies w) w1) with w1 in Hm
      by (subst w1; destruct w; reflexivity).
    destruct (faults w) as [|[e|] fs]; [|discriminate Hans|]; exact Hm.
  - destruct (faults w) as [|[e|] fs]; destruct Hd as [-> ->];
      eexists _, _; repeat split; reflexivity.
  - intros e fs Hf. rewrite Hf in Hd. destruct Hd as [-> ->]. repeat split.
  - intros Hdocs Hitems db_choice.
    destruct (delete_movie_zero_match_stores db_choice movie_name w Hdocs Hitems)
      as [Hs Hs2]. fold delete delete2 in Hs, Hs2.
    split; [exact Hs|]. split; [|split; [exact Hs2|]].
    + unfold bind. destruct (delete db_choice movie_name w) as [[[]| |] w'] eqn:Hrun;
        try reflexivity.
      cbn [snd] in Hs |- *. injection Hs as Hmov Htab.
      destruct (delete_movie_zero_match_stores db_choice movie_name w') as [Hs' _].
      { rewrite Hmov. exact Hdocs. }
      { rewrite Htab. exact Hitems. }
      exact Hs'.
    + unfold bind. destruct (delete2 db_choice movie_name w) as [[[]| |] w'] eqn:Hrun;
        try reflexivity.
      cbn [snd] in Hs2 |- *. injection Hs2 as Hmov Htab.
      destruct (delete_movie_zero_match_stores db_choice movie_name w') as [_ Hs'].
      { rewrite Hmov. exact Hdocs. }
      { rewrite Htab. exact Hitems. }
      exact Hs'.
  - intros e fs Hf. rewrite Hf in Hm. exact Hm.
Qed.


Lemma scan_run (key val : string) (start : option nat) (w : world) :
  let w1 := with_faults (tl (faults w)) w in
  let from := default 0%nat start in
  let page := scan_page w from in
  Dynamo.scan key val start w =
    match faults w with
    | Some e :: _ => (Raise e, w1)
    | _ => (Ok (List.filter (Dynamo.contains key val) page,
                if (0 <? length page)%nat
                   && (from + length page <? length (table w))%nat
                then Some (from + length page)%nat else None), w1)
    end.
Proof.
  unfold Dynamo.scan, bind, request, gets, ret, scan_page.
  destruct (faults w) as [|[e|] fs]; reflexivity.
Qed.

(** The loop of [find_movies] ends within its fuel, whatever the
    backend answers. *)
Lemma scan_pages_returns (fuel : nat) (key value : string)
    (exclusive_start start_key : option nat) (results : list pydict) (w : world) :
  let from := default 0%nat (match start_key with
                             | Some k => Some k
                             | None => exclusive_start
                             end) in
  (from <= length (table w))%nat ->
  (length (table w) < fuel + from)%nat ->
  exists o results' w',
    MovieProject.MovieEncyclopedia.scan_pages fuel key value exclusive_start start_key
      (results, w) = (o, (results', w'))
    /\ o <> Diverge /\ stdout w' = stdout w.
Proof.
  revert exclusive_start start_key results w.
  induction fuel as [|fuel IH]; intros excl sk results w from Hle Hlt; [lia|].
  cbn [MovieProject.MovieEncyclopedia.scan_pages].
  set (excl' := match sk with Some k => Some k | None => excl end) in *.
  unfold bind at 1. unfold lift at 1. cbn [snd fst].
  rewrite scan_run. cbv zeta. fold from.
  destruct (faults w) as [|[e|] fs] eqn:Hf.
  2: { eexists _, _, _. split; [reflexivity|split; [discriminate|reflexivity]]. }
  all: unfold bind at 1; unfold get_local at 1, gets at 1;
    unfold bind at 1; unfold set_local at 1, modify at 1; cbn [fst snd].
  all: set (page := scan_page w from).
  all: destruct ((0 <? length page)%nat && (from + length page <? length (table w))%nat)
         eqn:Hmore;
    [|eexists _, _, _; split; [reflexivity|split; [discriminate|reflexivity]]].
  all: apply andb_true_iff in Hmore as [Hpos Hupto];
    apply Nat.ltb_lt in Hpos, Hupto.
  all: match goal with |- context [MovieProject.MovieEncyclopedia.scan_pages _ _ _ ?x ?k (?r, ?w0)] =>
         destruct (IH x k r w0) as (o & results' & w' & Hrun & Ho & Hout) end;
    [cbn [default from_option table with_faults]; unfold id; lia
    |cbn [default from_option table with_faults]; unfold id; lia|].
  all: exists o, results', w'; split; [exact Hrun|split; [exact Ho|exact Hout]].
Qed.

Lemma py_float_returns (v : pyval) : py_float v <> Diverge.
Proof. destruct v; cbn; try discriminate. destruct (float_of_str s); discriminate. Qed.

Lemma rating_key_returns (x : pydict) : rating_key x <> Diverge.
Proof.
  unfold rating_key. destruct (x !! "rating"); [apply py_float_returns|discriminate].
Qed.

Lemma traverse_returns {A B} (f : A -> outcome B) (l : list A) :
  (forall x, f x <> Diverge) -> traverse f l <> Diverge.
Proof.
  intros Hf. induction l as [|x l IH]; cbn; [discriminate|].
  specialize (Hf x). destruct (f x); cbn; try congruence.
  destruct (traverse f l); cbn; congruence.
Qed.

Lemma py_sorted_reverse_returns {A} (key : A -> outcome Q) (l : list A) :
  (forall x, key x <> Diverge) -> py_sorted_reverse key l <> Diverge.
Proof.
  intros Hkey. unfold py_sorted_reverse.
  pose proof (traverse_returns (fun x => obind (key x) (fun k => Ok (k, x))) l) as Ht.
  destruct (traverse _ l); cbn; try discriminate.
  exfalso. apply Ht; [|reflexivity].
  intros x. specialize (Hkey x). destruct (key x); cbn; congruence.
Qed.

(** [find_movies] of movieproject.py on the key-value backend returns,
    whatever the backend answers, and prints the exception it caught. *)
Lemma find_movies_dynamodb_returns (key value : string) (w : world) :
  exists results w',
    MovieProject.MovieEncyclopedia.find_movies "dynamodb" key value w
      = (Ok results, w')
    /\ (stdout w' = stdout w
        \/ exists e, stdout w'
                     = (stdout w ++ [("Error scanning DynamoDB: " ++ exn_msg e)%string])%list).
Proof.
  unfold MovieProject.MovieEncyclopedia.find_movies.
  change (String.eqb "dynamodb" "mongodb") with false.
  change (String.eqb "dynamodb" "dynamodb") with true. cbv iota.
  unfold with_local, try_except.
  unfold bind at 1. unfold lift at 1, gets at 1. cbn [fst snd].
  unfold bind at 1.
  destruct (scan_pages_returns (S (length (table w))) key value None None [] w)
    as (o & results & w' & Hrun & Ho & Hout); [cbn; lia|cbn; lia|].
  rewrite Hrun.
  destruct o as [[]|e|]; [| |congruence].
  - unfold bind at 1. unfold get_local at 1, gets at 1. cbn [fst].
    unfold bind at 1. unfold lift_outcome at 1.
    pose proof (py_sorted_reverse_returns rating_key results rating_key_returns) as Hs.
    destruct (py_sorted_reverse rating_key results) as [sorted|e|]; [| |congruence].
    + eexists _, _. split; [reflexivity|]. left. exact Hout.
    + rewrite issubclass_Exception. eexists _, _. split; [reflexivity|].
      right. exists e. cbn. rewrite Hout. reflexivity.
  - rewrite issubclass_Exception. eexists _, _. split; [reflexivity|].
    right. exists e. cbn. rewrite Hout. reflexivity.
Qed.

(** A refused first request. *)
Lemma find_movies_refused (key value : string) (e : exn)
    (fs : list (option exn)) (w : world) :
  faults w = Some e :: fs ->
  let w1 := with_faults fs w in
  MovieProject.MovieEncyclopedia.find_movies "dynamodb" key value w
    = (Ok [], with_stdout (stdout w ++ ["Error scanning DynamoDB: " ++ exn_msg e]) w1)
  /\ MovieProject.MovieEncyclopedia.find_movies "mongodb" key value w = (Raise e, w1)
  /\ Movies2.MovieEncyclopedia.find_movies "mongodb" key value w = (Raise e, w1)
  /\ Movies2.MovieEncyclopedia.find_movies "dynamodb" key value w = (Raise e, w1).
Proof.
  intros Hf w1.
  unfold MovieProject.MovieEncyclopedia.find_movies, Movies2.MovieEncyclopedia.find_movies.
  change (String.eqb "dynamodb" "mongodb") with false.
  change (String.eqb "dynamodb" "dynamodb") with true.
  change (String.eqb "mongodb" "mongodb") with true. cbv iota.
  repeat split.
  - unfold with_local, try_except. unfold bind at 1. unfold lift at 1, gets at 1.
    cbn [fst snd MovieProject.MovieEncyclopedia.scan_pages].
    unfold bind at 1. unfold bind at 1. unfold lift at 1. cbn [fst snd].
    rewrite scan_run, Hf. cbv zeta. rewrite issubclass_Exception.
    unfold lift, print, modify. cbn. reflexivity.
  - unfold Mongo.find_sort_limit, bind, request. rewrite Hf. reflexivity.
  - unfold Mongo.find_sort_limit, bind, request. rewrite Hf. reflexivity.
  - unfold bind at 1. rewrite scan_run, Hf. reflexivity.
Qed.

Lemma silent_ret {A} (a : A) : silent (ret a).
Proof. intros w. eexists _, _. repeat split. discriminate. Qed.

Lemma silent_raise {A} (e : exn) : silent (@raise world A e).
Proof. intros w. eexists _, _. repeat split. discriminate. Qed.

Lemma silent_bind {A B} (c : M world A) (k : A -> M world B) :
  silent c -> (forall a, silent (k a)) -> silent (bind c k).
Proof.
  intros Hc Hk w. destruct (Hc w) as (o & w' & Hrun & Ho & Hf).
  unfold bind. rewrite Hrun. destruct o as [a|e|]; [| |congruence].
  - destruct (Hk a w') as (o2 & w2 & Hrun2 & Ho2 & Hf2).
    exists o2, w2. repeat split; [exact Hrun2|exact Ho2|congruence].
  - eexists _, _. repeat split; [discriminate|exact Hf].
Qed.

Lemma silent_gets {A} (f : world -> A) : silent (gets f).
Proof. intros w. eexists _, _. repeat split. discriminate. Qed.

Lemma silent_lift_outcome {A} (o : outcome A) : o <> Diverge -> silent (lift_outcome o).
Proof. intros Ho w. eexists _, _. repeat split. exact Ho. Qed.

Lemma silent_setitem (l : nat) (k : string) (v : pyval) : silent (setitem l k v).
Proof. intros w. eexists _, _. repeat split. discriminate. Qed.

Lemma silent_getitem (l : nat) (k : string) : silent (getitem l k).
Proof.
  apply silent_bind; [apply silent_gets|]. intros d.
  destruct (d !! k); [apply silent_ret|apply silent_raise].
Qed.

Lemma silent_py_in (k : string) (l : nat) : silent (py_in k l).
Proof. apply silent_bind; [apply silent_gets|]. intros d. apply silent_ret. Qed.

Lemma silent_for_each {A} (l : list A) (body : A -> M world unit) :
  (forall x, silent (body x)) -> silent (for_each l body).
Proof.
  intros Hb. induction l as [|x l IH]; [apply silent_ret|].
  cbn. apply silent_bind; [apply Hb|]. intros _. exact IH.
Qed.

Lemma py_Decimal_returns (v : pyval) : py_Decimal v <> Diverge.
Proof. destruct v; cbn; try discriminate. destruct (decimal_of_str s); discriminate. Qed.

Lemma silent_assign_id (d : pydict) : silent (Mongo.assign_id d).
Proof.
  unfold Mongo.assign_id. destruct (d !! "_id"); [apply silent_ret|].
  intros w. eexists _, _. repeat split. discriminate.
Qed.

(** After a silent prefix the refusal is still to come. *)
Lemma ends_raising_bind {A B} (e : exn) (fs : list (option exn))
    (c : M world A) (k : A -> M world B) (w : world) :
  silent c ->
  faults w = Some e :: fs ->
  (forall a w', faults w' = Some e :: fs -> ends_raising e fs (k a w')) ->
  ends_raising e fs (bind c k w).
Proof.
  intros Hc Hf Hk. destruct (Hc w) as (o & w' & Hrun & Ho & Hf').
  unfold bind. rewrite Hrun. destruct o as [a|e'|]; [| |congruence].
  - apply Hk. congruence.
  - exists e'. split; [reflexivity|]. right. cbn. congruence.
Qed.

Lemma ends_raising_request {B} (e : exn) (fs : list (option exn))
    (k : unit -> M world B) (w : world) :
  faults w = Some e :: fs -> ends_raising e fs (bind request k w).
Proof.
  intros Hf. unfold bind, request. rewrite Hf. exists e. split; [reflexivity|].
  left. split; reflexivity.
Qed.

Lemma ends_raising_raise {A} (e e' : exn) (fs : list (option exn)) (w : world) :
  faults w = Some e :: fs -> ends_raising e fs (@raise world A e' w).
Proof. intros Hf. exists e'. split; [reflexivity|]. right. exact Hf. Qed.

Lemma insert_one_refused (e : exn) (fs : list (option exn)) (l : nat) (w : world) :
  faults w = Some e :: fs -> ends_raising e fs (Mongo.insert_one l w).
Proof.
  intros Hf. unfold Mongo.insert_one.
  apply ends_raising_bind; [apply silent_gets|exact Hf|]. intros d w1 Hf1.
  apply ends_raising_bind; [apply silent_assign_id|exact Hf1|]. intros d' w2 Hf2.
  apply ends_raising_bind; [|exact Hf2|].
  { intros w0. eexists _, _. repeat split. discriminate. }
  intros _ w3 Hf3. apply ends_raising_request. exact Hf3.
Qed.

Lemma put_item_refused (e : exn) (fs : list (option exn)) (item : pydict) (w : world) :
  faults w = Some e :: fs -> ends_raising e fs (Dynamo.put_item item w).
Proof.
  intros Hf. unfold Dynamo.put_item. destruct (Dynamo.serializable item).
  - apply ends_raising_request. exact Hf.
  - apply ends_raising_raise. exact Hf.
Qed.

Lemma update_one_set_refused (e : exn) (fs : list (option exn))
    (field v : string) (update : pydict) (w : world) :
  faults w = Some e :: fs -> ends_raising e fs (Mongo.update_one_set field v update w).
Proof.
  intros Hf. unfold Mongo.update_one_set. apply ends_raising_request. exact Hf.
Qed.

Lemma update_item_refused (e : exn) (fs : list (option exn))
    (n : string) (update : pydict) (w : world) :
  faults w = Some e :: fs -> ends_raising e fs (Dynamo.update_item n update w).
Proof.
  intros Hf. unfold Dynamo.update_item. destruct (Dynamo.serializable update).
  - apply ends_raising_request. exact Hf.
  - apply ends_raising_raise. exact Hf.
Qed.

(** [add_movie] and [update_movie] have no handler. *)
Lemma add_update_refused (e : exn) (fs : list (option exn))
    (db_choice movie_name : string) (data : nat) (w : world) :
  faults w = Some e :: fs ->
  db_choice = "mongodb" \/ db_choice = "dynamodb" ->
  ends_raising e fs (MovieProject.MovieEncyclopedia.add_movie db_choice data w)
  /\ ends_raising e fs (Movies2.MovieEncyclopedia.add_movie db_choice data w)
  /\ ends_raising e fs
       (MovieProject.MovieEncyclopedia.update_movie db_choice movie_name data w)
  /\ ends_raising e fs
       (Movies2.MovieEncyclopedia.update_movie db_choice movie_name data w).
Proof.
  intros Hf [-> | ->];
    unfold Movies2.MovieEncyclopedia.update_movie,
      MovieProject.MovieEncyclopedia.add_movie, Movies2.MovieEncyclopedia.add_movie,
      MovieProject.MovieEncyclopedia.update_movie;
    change (String.eqb "dynamodb" "mongodb") with false;
    change (String.eqb "dynamodb" "dynamodb") with true;
    change (String.eqb "mongodb" "mongodb") with true; cbv iota.
  - assert (Hloop : silent (kvs <- items data ;;
              for_each kvs (fun '(key, value) =>
                if is_Decimal value then
                  x <- lift_outcome (py_float value) ;;
                  setitem data key (PFloat x)
                else ret tt))).
    { apply silent_bind; [apply silent_bind; [apply silent_gets|intros; apply silent_ret]|].
      intros kvs. apply silent_for_each. intros [k v].
      destruct (is_Decimal v); [|apply silent_ret].
      apply silent_bind; [apply silent_lift_outcome, py_float_returns|].
      intros x. apply silent_setitem. }
    repeat split.
    + apply ends_raising_bind; [|exact Hf|intros; apply insert_one_refused; assumption].
      apply silent_bind; [apply silent_py_in|]. intros [|]; [|apply silent_ret].
      apply silent_bind; [apply silent_getitem|]. intros r.
      apply silent_bind; [apply silent_lift_outcome, py_float_returns|].
      intros x. apply silent_setitem.
    + apply ends_raising_bind; [|exact Hf|intros; apply insert_one_refused; assumption].
      apply silent_bind; [apply silent_getitem|]. intros r.
      apply silent_bind; [apply silent_lift_outcome, py_float_returns|].
      intros x. apply silent_setitem.
    + apply ends_raising_bind; [exact Hloop|exact Hf|]. intros _ w1 Hf1.
      apply ends_raising_bind; [apply silent_gets|exact Hf1|]. intros d w2 Hf2.
      apply update_one_set_refused. exact Hf2.
    + apply ends_raising_bind; [exact Hloop|exact Hf|]. intros _ w1 Hf1.
      apply ends_raising_bind; [apply silent_gets|exact Hf1|]. intros d w2 Hf2.
      apply update_one_set_refused. exact Hf2.
  - assert (Hitems : silent (items data)).
    { apply silent_bind; [apply silent_gets|intros; apply silent_ret]. }
    assert (Hloop : forall kvs, silent (
              for_each kvs (fun '(key, value) =>
                if is_float value then
                  d <- lift_outcome (py_Decimal (PStr (py_str value))) ;;
                  setitem data key (PDecimal d)
                else ret tt))).
    { intros kvs. apply silent_for_each. intros [k v].
      destruct (is_float v); [|apply silent_ret].
      apply silent_bind; [apply silent_lift_outcome, py_Decimal_returns|].
      intros x. apply silent_setitem. }
    repeat split.
    + apply ends_raising_bind; [|exact Hf|].
      { apply silent_bind; [apply silent_py_in|]. intros has.
        apply silent_bind.
        - destruct has; [|apply silent_ret].
          apply silent_bind; [apply silent_getitem|]. intros r. apply silent_ret.
        - intros [|]; [|apply silent_ret].
          apply silent_bind; [apply silent_getitem|]. intros r.
          apply silent_bind; [apply silent_lift_outcome, py_Decimal_returns|].
          intros x. apply silent_setitem. }
      intros _ w1 Hf1.
      apply ends_raising_bind; [apply silent_gets|exact Hf1|]. intros d w2 Hf2.
      apply put_item_refused. exact Hf2.
    + apply ends_raising_bind; [apply silent_ret|exact Hf|]. intros _ w1 Hf1.
      apply ends_raising_bind; [apply silent_gets|exact Hf1|]. intros d w2 Hf2.
      apply put_item_refused. exact Hf2.
    + apply ends_raising_bind; [apply silent_ret|exact Hf|]. intros _ w1 Hf1.
      apply ends_raising_bind; [exact Hitems|exact Hf1|]. intros kvs w2 Hf2.
      apply ends_raising_bind; [apply Hloop|exact Hf2|]. intros _ w3 Hf3.
      apply ends_raising_bind; [apply silent_gets|exact Hf3|]. intros d w4 Hf4.
      apply update_item_refused. exact Hf4.
    + apply ends_raising_bind; [apply silent_ret|exact Hf|]. intros _ w1 Hf1.
      apply ends_raising_bind; [exact Hitems|exact Hf1|]. intros kvs w2 Hf2.
      apply ends_raising_bind; [apply Hloop|exact Hf2|]. intros _ w3 Hf3.
      apply ends_raising_bind; [apply silent_gets|exact Hf3|]. intros d w4 Hf4.
      apply update_item_refused. exact Hf4.
Qed.

(** C6, amended.  [find_movies] of movieproject.py and [delete_movie]
    of both files never leave by an exception on the key-value backend:
    a refusal of the backend is printed.  On the document backend
    [delete_movie] and [find_movies] pass the exception of the backend
    on to the caller, and so does [find_movies] of movies2.py on either
    backend.  [add_movie] and [update_movie] have no handler: they end
    by raising, the exception of the backend once their request is
    sent. *)
Theorem backend_exceptions_by_path
    (key value movie_name : string) (data : nat) (w : world) :
  (exists results w',
     MovieProject.MovieEncyclopedia.find_movies "dynamodb" key value w
       = (Ok results, w')
     /\ (stdout w' = stdout w
         \/ exists e, stdout w'
                      = (stdout w ++ [("Error scanning DynamoDB: " ++ exn_msg e)%string])%list))
  /\ (exists w' w2',
        MovieProject.MovieEncyclopedia.delete_movie "dynamodb" movie_name w = (Ok tt, w')
        /\ Movies2.MovieEncyclopedia.delete_movie "dynamodb" movie_name w = (Ok tt, w2'))
  /\ (forall e fs, faults w = Some e :: fs ->
        let w1 := with_faults fs w in
        let logged s := with_stdout (stdout w ++ [s ++ exn_msg e]) w1 in
        MovieProject.MovieEncyclopedia.delete_movie "dynamodb" movie_name w
          = (Ok tt, logged "Failed to delete movie: ")
        /\ Movies2.MovieEncyclopedia.delete_movie "dynamodb" movie_name w
          = (Ok tt, logged "Failed to delete movie: ")
        /\ MovieProject.MovieEncyclopedia.find_movies "dynamodb" key value w
          = (Ok [], logged "Error scanning DynamoDB: ")
        /\ MovieProject.MovieEncyclopedia.delete_movie "mongodb" movie_name w
          = (Raise e, w1)
        /\ Movies2.MovieEncyclopedia.delete_movie "mongodb" movie_name w
          = (Raise e, w1)
        /\ MovieProject.MovieEncyclopedia.find_movies "mongodb" key value w
          = (Raise e, w1)
        /\ Movies2.MovieEncyclopedia.find_movies "mongodb" key value w
          = (Raise e, w1)
        /\ Movies2.MovieEncyclopedia.find_movies "dynamodb" key value w
          = (Raise e, w1)
        /\ forall db_choice, db_choice = "mongodb" \/ db_choice = "dynamodb" ->
             ends_raising e fs
               (MovieProject.MovieEncyclopedia.add_movie db_choice data w)
             /\ ends_raising e fs
                  (Movies2.MovieEncyclopedia.add_movie db_choice data w)
             /\ ends_raising e fs
                  (MovieProject.MovieEncyclopedia.update_movie db_choice movie_name data w)
             /\ ends_raising e fs
                  (Movies2.MovieEncyclopedia.update_movie db_choice movie_name data w)).
Proof.
  split; [apply find_movies_dynamodb_returns|]. split.
  - pose proof (delete_movie_dynamodb_run movie_name w) as Hd. cbv zeta in Hd.
    destruct (faults w) as [|[e|] fs]; destruct Hd as [-> ->]; eexists _, _;
      split; reflexivity.
  - intros e fs Hf w1 logged.
    pose proof (delete_movie_dynamodb_run movie_name w) as Hd.
    pose proof (delete_movie_mongodb_run movie_name w) as Hm.
    cbv zeta in Hd, Hm. rewrite Hf in Hd, Hm. cbn [tl] in Hd, Hm.
    destruct Hd as [Hd1 Hd2]. destruct Hm as [Hm1 Hm2].
    destruct (find_movies_refused key value e fs w Hf) as (Hf1 & Hf2 & Hf3 & Hf4).
    repeat (split; [assumption|]).
    intros db_choice Hdb. apply add_update_refused; assumption.
Qed.

Lemma find_past {A} (p : A -> bool) (before : list A) (x : A) (after : list A) :
  forallb (fun y => negb (p y)) before = true ->
  p x = true ->
  List.find p (before ++ x :: after) = Some x.
Proof.
  intros Hb Hx. induction before as [|y before IH]; cbn in *.
  - rewrite Hx. reflexivity.
  - apply andb_true_iff in Hb as [Hy Hb]. apply negb_true_iff in Hy.
    rewrite Hy. apply IH. exact Hb.
Qed.

Lemma update_first_past (p : pydict -> bool) (f : pydict -> pydict)
    (before : list pydict) (d : pydict) (after : list pydict) :
  forallb (fun y => negb (p y)) before = true ->
  p d = true ->
  Mongo.update_first p f (before ++ d :: after) = (before ++ f d :: after)%list.
Proof.
  intros Hb Hd. induction before as [|y before IH]; cbn in *.
  - rewrite Hd. reflexivity.
  - apply andb_true_iff in Hb as [Hy Hb]. apply negb_true_iff in Hy.
    rewrite Hy, (IH Hb). reflexivity.
Qed.

Lemma table_update_past (n : string) (update : pydict)
    (before : list pydict) (d : pydict) (after : list pydict) :
  forallb (fun y => negb (Dynamo.has_key n y)) before = true ->
  Dynamo.has_key n d = true ->
  Dynamo.table_update n update (before ++ d :: after)
    = (before ++ (update ∪ d) :: after)%list.
Proof.
  intros Hb Hd. unfold Dynamo.table_update.
  assert (Hex : existsb (Dynamo.has_key n) (before ++ d :: after) = true).
  { rewrite existsb_app. cbn. rewrite Hd. apply orb_true_r. }
  rewrite Hex. clear Hex. induction before as [|y before IH]; cbn in *.
  - rewrite Hd. reflexivity.
  - apply andb_true_iff in Hb as [Hy Hb]. apply negb_true_iff in Hy.
    rewrite Hy, (IH Hb). reflexivity.
Qed.

Lemma set_rating_union (v : pyval) (d : pydict) :
  ({["rating" := v]} : pydict) ∪ d = <["rating" := v]> d.
Proof. symmetry. apply insert_union_singleton_l. Qed.

Lemma to_float_value_encodable (v : pyval) :
  Mongo.encodable {["rating" := to_float_value v]} = true.
Proof.
  unfold Mongo.encodable. apply bool_decide_eq_true_2, map_Forall_singleton.
  destruct v; reflexivity.
Qed.

Lemma matches_set_rating (field : string) (c : mongo_cond) (v : pyval) (d : pydict) :
  field <> "rating" ->
  Mongo.matches field c (<["rating" := v]> d) = Mongo.matches field c d.
Proof.
  intros Hne. unfold Mongo.matches. rewrite lookup_insert_ne by congruence. reflexivity.
Qed.

Lemma has_key_set_rating (n : string) (v : pyval) (d : pydict) :
  Dynamo.has_key n (<["rating" := v]> d) = Dynamo.has_key n d.
Proof.
  unfold Dynamo.has_key, Dynamo.item_key. rewrite lookup_insert_ne by discriminate.
  reflexivity.
Qed.

Lemma forallb_weaken {A} (p q : A -> bool) (l : list A) :
  (forall x, p x = true -> q x = true) ->
  forallb p l = true -> forallb q l = true.
Proof.
  intros Hpq. rewrite !forallb_forall. intros Hp x Hin. apply Hpq, Hp, Hin.
Qed.

Lemma serializable_rating (v : pyval) :
  is_float v = false ->
  Dynamo.serializable {["rating" := v]} = Dynamo.accepted v
  /\ (forall e, Dynamo.value_error v = Some e ->
               Dynamo.refusal {["rating" := v]} = e).
Proof.
  intros Hv.
  assert (Hfree : Dynamo.float_free {["rating" := v]} = true).
  { unfold Dynamo.float_free. apply bool_decide_eq_true_2, map_Forall_singleton.
    exact Hv. }
  unfold Dynamo.serializable, Dynamo.refusal. rewrite Hfree. split.
  - unfold Dynamo.values_accepted. cbn [andb].
    destruct (Dynamo.accepted v) eqn:Hin.
    + apply bool_decide_eq_true_2, map_Forall_singleton. exact Hin.
    + apply bool_decide_eq_false_2. intros Hall.
      apply map_Forall_singleton in Hall. congruence.
  - intros e He. rewrite map_to_list_singleton. cbn. rewrite He. reflexivity.
Qed.

Lemma accepted_error (v : pyval) (e : exn) :
  Dynamo.value_error v = Some e -> Dynamo.accepted v = false.
Proof. unfold Dynamo.accepted. intros ->. reflexivity. Qed.

(** C5, amended.  Let the update be [{'rating': r}] and the backend
    answer.  On the document backend, when the first stored document
    whose name the pattern matches is also the first whose name equals
    the given name, [get_movie_details] after [update_movie] returns
    what it returned before with [rating] set to [r] as a float.  On the
    key-value backend, when the table holds an item with that key, [r]
    is not a float whose [str] [Decimal] cannot read, and boto3 accepts
    [r] once a float is made a [Decimal] (a string, a list, or a number
    its context takes), [get_movie_details] after [update_movie]
    returns that item with [rating] set to [r] as a [Decimal].  On a
    value boto3 does not accept, such as [Decimal(8.1)] with its fifty
    digits, [update_movie] raises what boto3 raises, before any
    request, and nothing is written. *)
Theorem update_then_details (movie_name : string) (update_data : nat)
    (r : pyval) (w : world) :
  heap w !!! update_data = {["rating" := r]} ->
  answered 2 w = true ->
  (forall before d after,
     movies w = (before ++ d :: after)%list ->
     forallb (fun d' =>
                negb (Mongo.matches "name" (CondRegexI movie_name) d')
                && negb (Mongo.matches "name" (CondEq movie_name) d')) before = true ->
     Mongo.matches "name" (CondRegexI movie_name) d = true ->
     Mongo.matches "name" (CondEq movie_name) d = true ->
     exists w1 w2,
       MovieProject.MovieEncyclopedia.get_movie_details "mongodb" movie_name w
         = (Ok (Some (delete "_id" d)), w1)
       /\ (MovieProject.MovieEncyclopedia.update_movie "mongodb" movie_name update_data ;;
           MovieProject.MovieEncyclopedia.get_movie_details "mongodb" movie_name) w
          = (Ok (Some (<["rating" := to_float_value r]> (delete "_id" d))), w2))
  /\ (forall old,
        List.find (Dynamo.has_key movie_name) (table w) = Some old ->
        is_float (to_decimal_value r) = false ->
        Dynamo.accepted (to_decimal_value r) = true ->
        exists w1 w2,
          MovieProject.MovieEncyclopedia.get_movie_details "dynamodb" movie_name w
            = (Ok (Some old), w1)
          /\ (MovieProject.MovieEncyclopedia.update_movie "dynamodb" movie_name update_data ;;
              MovieProject.MovieEncyclopedia.get_movie_details "dynamodb" movie_name) w
             = (Ok (Some (<["rating" := Dynamo.as_attribute (to_decimal_value r)]> old)),
                w2))
  /\ (forall e,
        is_float (to_decimal_value r) = false ->
        Dynamo.value_error (to_decimal_value r) = Some e ->
        exists w',
          MovieProject.MovieEncyclopedia.update_movie "dynamodb" movie_name update_data w
            = (Raise e, w')
          /\ stores w' = stores w /\ faults w' = faults w).
Proof.
  intros Hdata Hans.
  assert (Hans1 : answered 1 w = true).
  { unfold answered in *. destruct (faults w) as [|[e|] [|f fs]]; cbn in *;
      try reflexivity; try discriminate. }
  split; [|split].
  - intros before d after Hmovies Hbefore Hregex Heq.
    assert (Hb_regex : forallb (fun y => negb (Mongo.matches "name" (CondRegexI movie_name) y))
                         before = true).
    { revert Hbefore. apply forallb_weaken. intros x Hx.
      apply andb_true_iff in Hx. tauto. }
    assert (Hb_eq : forallb (fun y => negb (Mongo.matches "name" (CondEq movie_name) y))
                      before = true).
    { revert Hbefore. apply forallb_weaken. intros x Hx.
      apply andb_true_iff in Hx. tauto. }
    destruct (update_movie_mongodb_run movie_name update_data w) as (h & Hh & Hrun).
    eexists _, _. split.
    + unfold MovieProject.MovieEncyclopedia.get_movie_details.
      change (String.eqb "mongodb" "mongodb") with true. cbv iota.
      unfold Mongo.find_one, bind.
      destruct (request_answered 0 w Hans1) as [-> _].
      unfold gets, ret. cbn [movies with_faults].
      rewrite Hmovies, (find_past _ _ _ _ Hb_regex Hregex). reflexivity.
    + unfold bind at 1. rewrite Hrun.
      rewrite Hdata, map_fmap_singleton.
      unfold Mongo.update_one_set. rewrite to_float_value_encodable.
      unfold bind at 1.
      destruct (request_answered 1 (with_heap h w)) as [-> Hans'];
        [exact Hans|].
      unfold modify.
      unfold MovieProject.MovieEncyclopedia.get_movie_details.
      change (String.eqb "mongodb" "mongodb") with true. cbv iota.
      unfold Mongo.find_one, bind.
      match goal with |- context [request ?w0] =>
        destruct (request_answered 0 w0) as [-> _]; [exact Hans'|] end.
      unfold gets, ret. cbn [movies with_faults with_movies with_heap].
      rewrite Hmovies, (update_first_past _ _ _ _ _ Hb_eq Heq).
      rewrite set_rating_union.
      rewrite (find_past _ before (<["rating" := to_float_value r]> d) after Hb_regex).
      2: { rewrite matches_set_rating by discriminate. exact Hregex. }
      cbn [fmap option_fmap option_map].
      rewrite delete_insert_ne by discriminate. reflexivity.
  - intros old Hfind Hrepr Hcontext.
    pose proof (find_first (Dynamo.has_key movie_name) (table w)) as Hsplit.
    rewrite Hfind in Hsplit. destruct Hsplit as (before & after & Htable & Hb & Hold).
    destruct (update_movie_dynamodb_run movie_name update_data w) as (h & Hh & Hrun).
    { rewrite Hdata. intros k x Hk.
      apply lookup_singleton_Some in Hk as [_ ->].
      cbn in Hrepr |- *. destruct (decimal_of_str (py_str (PFloat x))); [eauto|].
      discriminate Hrepr. }
    eexists _, _. split.
    + unfold MovieProject.MovieEncyclopedia.get_movie_details.
      change (String.eqb "dynamodb" "mongodb") with false.
      change (String.eqb "dynamodb" "dynamodb") with true. cbv iota.
      unfold Dynamo.get_item, bind.
      destruct (request_answered 0 w Hans1) as [-> _].
      unfold gets. cbn [table with_faults]. rewrite Hfind. reflexivity.
    + unfold bind at 1. rewrite Hrun.
      rewrite Hdata, map_fmap_singleton.
      unfold Dynamo.update_item.
      rewrite (proj1 (serializable_rating _ Hrepr)), Hcontext. unfold bind at 1.
      destruct (request_answered 1 (with_heap h w)) as [-> Hans'];
        [exact Hans|].
      unfold modify.
      unfold MovieProject.MovieEncyclopedia.get_movie_details.
      change (String.eqb "dynamodb" "mongodb") with false.
      change (String.eqb "dynamodb" "dynamodb") with true. cbv iota.
      unfold Dynamo.get_item, bind.
      match goal with |- context [request ?w0] =>
        destruct (request_answered 0 w0) as [-> _]; [exact Hans'|] end.
      unfold gets. cbn [table with_faults with_table with_heap].
      rewrite Htable, (table_update_past _ _ _ _ _ Hb Hold).
      rewrite map_fmap_singleton, set_rating_union.
      rewrite (find_past _ before
                 (<["rating" := Dynamo.as_attribute (to_decimal_value r)]> old) after Hb).
      2: { rewrite has_key_set_rating. exact Hold. }
      reflexivity.
  - intros e Hrepr Herror.
    destruct (update_movie_dynamodb_run movie_name update_data w) as (h & Hh & Hrun).
    { rewrite Hdata. intros k x Hk.
      apply lookup_singleton_Some in Hk as [_ ->].
      cbn in Hrepr |- *. destruct (decimal_of_str (py_str (PFloat x))); [eauto|].
      discriminate Hrepr. }
    rewrite Hrun, Hdata, map_fmap_singleton. unfold Dynamo.update_item.
    destruct (serializable_rating _ Hrepr) as [-> Hrefusal].
    rewrite (Hrefusal e Herror), (accepted_error _ _ Herror).
    eexists. split; [reflexivity|]. split; reflexivity.
Qed.

Lemma insert_desc_perm {A K} (leb : K -> K -> bool) (key : A -> K)
    (x : A) (l : list A) :
  Permutation (insert_desc leb key x l) (x :: l).
Proof.
  induction l as [|y l IH]; cbn; [reflexivity|].
  destruct (leb (key y) (key x)); [reflexivity|].
  rewrite IH. apply perm_swap.
Qed.

Lemma sort_desc_perm {A K} (leb : K -> K -> bool) (key : A -> K) (l : list A) :
  Permutation (sort_desc leb key l) l.
Proof.
  induction l as [|x l IH]; cbn; [reflexivity|].
  change (foldr (insert_desc leb key) [] l) with (sort_desc leb key l).
  rewrite insert_desc_perm, IH. reflexivity.
Qed.

Lemma traverse_keys {A} (key : A -> outcome Q) (l : list A) (kxs : list (Q * A)) :
  traverse (fun x => obind (key x) (fun k => Ok (k, x))) l = Ok kxs ->
  map snd kxs = l.
Proof.
  revert kxs. induction l as [|x l IH]; intros kxs; cbn.
  - intros [= <-]. reflexivity.
  - destruct (key x) as [k| |]; cbn; try discriminate.
    destruct (traverse _ l) as [kxs'| |]; cbn; try discriminate.
    intros [= <-]. cbn. rewrite (IH kxs' eq_refl). reflexivity.
Qed.

Lemma py_sorted_reverse_perm {A} (key : A -> outcome Q) (l sorted : list A) :
  py_sorted_reverse key l = Ok sorted -> Permutation sorted l.
Proof.
  unfold py_sorted_reverse.
  destruct (traverse _ l) as [kxs| |] eqn:Ht; cbn; try discriminate.
  intros [= <-]. rewrite <- (traverse_keys key l kxs Ht).
  apply Permutation_map, sort_desc_perm.
Qed.

Lemma py_sorted_reverse_ok (l : list pydict) :
  forallb has_float_rating l = true ->
  exists sorted, py_sorted_reverse rating_key l = Ok sorted.
Proof.
  intros Hl. unfold py_sorted_reverse.
  assert (Ht : exists kxs,
            traverse (fun x => obind (rating_key x) (fun k => Ok (k, x))) l = Ok kxs).
  { induction l as [|x l IH]; cbn in *; [eauto|].
    apply andb_true_iff in Hl as [Hx Hl]. unfold has_float_rating in Hx.
    destruct (rating_key x) as [k| |]; try discriminate. cbn.
    destruct (IH Hl) as [kxs ->]. cbn. eauto. }
  destruct Ht as [kxs ->]. cbn. eauto.
Qed.

Lemma In_firstn {A} (n : nat) (l : list A) (x : A) : In x (firstn n l) -> In x l.
Proof.
  revert l. induction n as [|n IH]; intros [|y l]; cbn; try tauto.
  intros [->|Hx]; [left; reflexivity|right; apply IH, Hx].
Qed.

Lemma returned_of_top (passes : pydict -> bool) (stored : list pydict)
    (proj : pydict -> pydict) (sorted : list pydict) :
  Permutation sorted (List.filter passes stored) ->
  returned_of passes stored proj (map proj (firstn 20 sorted)).
Proof.
  intros Hperm. split.
  - intros r Hr. apply in_map_iff in Hr as (d & <- & Hd).
    apply In_firstn in Hd. eapply Permutation_in in Hd; [|exact Hperm].
    apply filter_In in Hd as [Hin Hp]. exists d. auto.
  - intros Hlen d Hin Hp. apply in_map.
    rewrite firstn_all2 by (rewrite (Permutation_length Hperm); exact Hlen).
    eapply Permutation_in; [symmetry; exact Hperm|].
    apply filter_In. auto.
Qed.

Lemma returned_of_all (passes : pydict -> bool) (stored : list pydict) :
  returned_of passes stored (fun d => d) (List.filter passes stored).
Proof.
  split.
  - intros r Hr. apply filter_In in Hr as [Hin Hp]. exists r. auto.
  - intros _ d Hin Hp. apply filter_In. auto.
Qed.

Lemma map_same {A} (l : list A) : map (fun x => x) l = l.
Proof. apply map_id. Qed.

(** A page and what lies behind it. *)
Lemma page_split {A} (n : nat) (s : list A) :
  s = (firstn n s ++ skipn (length (firstn n s)) s)%list.
Proof.
  destruct (Nat.le_gt_cases n (length s)) as [Hle|Hgt].
  - rewrite length_firstn, Nat.min_l by exact Hle. symmetry. apply firstn_skipn.
  - rewrite firstn_all2 by lia. rewrite skipn_all, app_nil_r. reflexivity.
Qed.

Lemma answered_tail (n : nat) (w : world) :
  answered (S n) w = true ->
  (faults w = [] \/ exists fs, faults w = None :: fs)
  /\ answered n (with_faults (tl (faults w)) w) = true.
Proof.
  unfold answered. destruct (faults w) as [|[e|] fs]; cbn.
  - intros _. split; [left; reflexivity|]. destruct n; reflexivity.
  - discriminate.
  - intros Hfs. split; [right; eauto|exact Hfs].
Qed.

(** With every request answered the loop gathers the items of the
    table that pass the filter. *)
Lemma scan_pages_complete (fuel : nat) (key value : string)
    (exclusive_start start_key : option nat) (results : list pydict) (w : world) :
  let from := default 0%nat (match start_key with
                             | Some k => Some k
                             | None => exclusive_start
                             end) in
  (from <= length (table w))%nat ->
  (length (table w) < fuel + from)%nat ->
  answered fuel w = true ->
  exists w',
    MovieProject.MovieEncyclopedia.scan_pages fuel key value exclusive_start start_key
      (results, w)
    = (Ok tt, ((results ++ List.filter (Dynamo.contains key value)
                               (skipn from (table w)))%list, w'))
    /\ table w' = table w /\ stdout w' = stdout w.
Proof.
  revert exclusive_start start_key results w.
  induction fuel as [|fuel IH]; intros excl sk results w from Hle Hlt Hans; [lia|].
  cbn [MovieProject.MovieEncyclopedia.scan_pages].
  set (excl' := match sk with Some k => Some k | None => excl end) in *.
  unfold bind at 1. unfold lift at 1. cbn [snd fst].
  rewrite scan_run. cbv zeta. fold from.
  destruct (answered_tail fuel w Hans) as [Hshape Hans'].
  set (w1 := with_faults (tl (faults w)) w) in *.
  set (page := scan_page w from).
  assert (Hscan : match faults w with
                  | Some e :: _ => (Raise e, w1)
                  | _ => (Ok (List.filter (Dynamo.contains key value) page,
                              if (0 <? length page)%nat
                                 && (from + length page <? length (table w))%nat
                              then Some (from + length page)%nat else None), w1)
                  end
                  = (Ok (List.filter (Dynamo.contains key value) page,
                         if (0 <? length page)%nat
                            && (from + length page <? length (table w))%nat
                         then Some (from + length page)%nat else None), w1)).
  { destruct Hshape as [->|[fs ->]]; reflexivity. }
  rewrite Hscan. clear Hscan.
  unfold bind at 1. unfold get_local at 1, gets at 1.
  unfold bind at 1. unfold set_local at 1, modify at 1. cbn [fst snd].
  pose proof (page_split (Pos.to_nat (scan_limit w)) (skipn from (table w))) as Hsplit.
  fold (scan_page w from) in Hsplit. fold page in Hsplit.
  rewrite skipn_skipn in Hsplit.
  destruct ((0 <? length page)%nat && (from + length page <? length (table w))%nat)
    eqn:Hmore.
  - apply andb_true_iff in Hmore as [Hpos Hupto].
    apply Nat.ltb_lt in Hpos, Hupto.
    destruct (IH excl' (Some (from + length page)%nat)
                (results ++ List.filter (Dynamo.contains key value) page)%list w1)
      as (w' & Hrun & Htab & Hout).
    { cbn [default from_option table with_faults]. unfold id. subst w1. cbn. lia. }
    { cbn [default from_option table with_faults]. unfold id. subst w1. cbn. lia. }
    { exact Hans'. }
    exists w'. rewrite Hrun. cbn [default from_option]. unfold id.
    split; [|split; [rewrite Htab; reflexivity|rewrite Hout; reflexivity]].
    f_equal. f_equal.
    rewrite <- app_assoc, <- List.filter_app. f_equal. f_equal.
    subst w1. cbn [table with_faults].
    rewrite Hsplit at 1. rewrite (Nat.add_comm (length page) from). reflexivity.
  - exists w1. split; [|split; reflexivity].
    f_equal. f_equal. f_equal. f_equal.
    apply andb_false_iff in Hmore as [Hnone|Hend].
    + apply Nat.ltb_ge in Hnone.
      assert (Hp : page = []) by (destruct page; [reflexivity|cbn in Hnone; lia]).
      rewrite Hp. unfold page, scan_page in Hp.
      destruct (skipn from (table w)) as [|d rest]; [reflexivity|].
      destruct (Pos.to_nat (scan_limit w)) eqn:Hlim; [lia|discriminate Hp].
    + apply Nat.ltb_ge in Hend.
      rewrite Hsplit at 1. rewrite skipn_all2 by lia. rewrite app_nil_r. reflexivity.
Qed.

(** C2, amended.  When the backend answers, [find_movies] returns only
    stored records that pass the filter of the backend, and every such
    record when no more than twenty pass.  The filter is
    [Mongo.matches] with a pattern searched without regard to case on
    the document backend of movieproject.py, [Mongo.matches] with
    equality on the document backend of movies2.py, and
    [Dynamo.contains] on the key-value backend, where movies2.py reads
    the first page of the scan only. *)
Theorem find_movies_filter (key value : string) (w : world) :
  (answered 1 w = true ->
     exists results w',
       MovieProject.MovieEncyclopedia.find_movies "mongodb" key value w
         = (Ok results, w')
       /\ returned_of (Mongo.matches key (CondRegexI value)) (movies w)
            (delete "_id") results)
  /\ (answered 1 w = true ->
        exists results w',
          Movies2.MovieEncyclopedia.find_movies "mongodb" key value w
            = (Ok results, w')
          /\ returned_of (Mongo.matches key (CondEq value)) (movies w)
               (delete "_id") results)
  /\ (answered (S (length (table w))) w = true ->
        exists results w',
          MovieProject.MovieEncyclopedia.find_movies "dynamodb" key value w
            = (Ok results, w')
          /\ returned_of (Dynamo.contains key value) (table w) (fun d => d) results)
  /\ (answered 1 w = true ->
      forallb has_float_rating
        (List.filter (Dynamo.contains key value) (scan_page w 0)) = true ->
        exists results w',
          Movies2.MovieEncyclopedia.find_movies "dynamodb" key value w
            = (Ok results, w')
          /\ returned_of (Dynamo.contains key value) (scan_page w 0)
               (fun d => d) results).
Proof.
  split; [|split; [|split]].
  - intros Hans. destruct (request_answered 0 w Hans) as [Hreq _].
    unfold MovieProject.MovieEncyclopedia.find_movies.
    change (String.eqb "mongodb" "mongodb") with true. cbv iota.
    unfold Mongo.find_sort_limit, bind. rewrite Hreq.
    eexists _, _. split; [reflexivity|].
    apply returned_of_top, sort_desc_perm.
  - intros Hans. destruct (request_answered 0 w Hans) as [Hreq _].
    unfold Movies2.MovieEncyclopedia.find_movies.
    change (String.eqb "mongodb" "mongodb") with true. cbv iota.
    unfold Mongo.find_sort_limit, bind. rewrite Hreq.
    eexists _, _. split; [reflexivity|].
    apply returned_of_top, sort_desc_perm.
  - intros Hans.
    destruct (scan_pages_complete (S (length (table w))) key value None None [] w)
      as (w' & Hrun & Htab & Hout); [cbn; lia|cbn; lia|exact Hans|].
    cbn [default from_option app] in Hrun. unfold id in Hrun. rewrite skipn_0 in Hrun.
    unfold MovieProject.MovieEncyclopedia.find_movies.
    change (String.eqb "dynamodb" "mongodb") with false.
    change (String.eqb "dynamodb" "dynamodb") with true. cbv iota.
    unfold with_local, try_except.
    unfold bind at 1. unfold lift at 1, gets at 1. cbn [fst snd].
    unfold bind at 1. rewrite Hrun.
    unfold bind at 1. unfold get_local at 1, gets at 1. cbn [fst].
    unfold bind at 1. unfold lift_outcome at 1.
    set (found := List.filter (Dynamo.contains key value) (table w)).
    pose proof (py_sorted_reverse_returns rating_key found rating_key_returns) as Hs.
    destruct (py_sorted_reverse rating_key found) as [sorted|e|] eqn:Hsorted;
      [| |congruence].
    + eexists _, _. split; [reflexivity|].
      rewrite <- (map_same (firstn 20 sorted)).
      apply returned_of_top. eapply py_sorted_reverse_perm. exact Hsorted.
    + rewrite issubclass_Exception. eexists _, _. split; [reflexivity|].
      apply returned_of_all.
  - intros Hans Hkeys. destruct (request_answered 0 w Hans) as [Hreq _].
    unfold Movies2.MovieEncyclopedia.find_movies.
    change (String.eqb "dynamodb" "mongodb") with false.
    change (String.eqb "dynamodb" "dynamodb") with true. cbv iota.
    unfold bind at 1. rewrite scan_run. cbv zeta.
    assert (Hf : match faults w with
                 | Some e :: _ => false
                 | _ => true
                 end = true).
    { revert Hans. unfold answered. destruct (faults w) as [|[e|] fs]; cbn; auto. }
    destruct (py_sorted_reverse_ok _ Hkeys) as [sorted Hsorted].
    destruct (faults w) as [|[e|] fs]; try discriminate Hf;
      cbn [fst default from_option]; unfold id;
      unfold bind, lift_outcome; rewrite Hsorted;
      eexists _, _; (split; [reflexivity|]);
      rewrite <- (map_same (firstn 20 sorted));
      apply returned_of_top; eapply py_sorted_reverse_perm; exact Hsorted.
Qed.

Lemma insert_desc_sorted {A K} (leb : K -> K -> bool) (key : A -> K)
    (x : A) (l : list A) :
  (forall a b, leb a b = false -> leb b a = true) ->
  Sorted (fun a b => leb (key b) (key a) = true) l ->
  Sorted (fun a b => leb (key b) (key a) = true) (insert_desc leb key x l).
Proof.
  intros Htotal Hs. induction l as [|y l IH]; cbn.
  - repeat constructor.
  - destruct (leb (key y) (key x)) eqn:Hyx.
    + constructor; [exact Hs|]. constructor. exact Hyx.
    + inversion Hs as [|? ? Hs' Hhd]; subst. constructor; [apply IH, Hs'|].
      destruct l as [|z l]; cbn.
      * constructor. apply Htotal, Hyx.
      * destruct (leb (key z) (key x)).
        -- constructor. apply Htotal, Hyx.
        -- inversion Hhd; subst. constructor. assumption.
Qed.

Lemma sort_desc_sorted {A K} (leb : K -> K -> bool) (key : A -> K) (l : list A) :
  (forall a b, leb a b = false -> leb b a = true) ->
  Sorted (fun a b => leb (key b) (key a) = true) (sort_desc leb key l).
Proof.
  intros Htotal. induction l as [|x l IH]; cbn; [constructor|].
  apply insert_desc_sorted; assumption.
Qed.

Lemma Qle_bool_total (a b : Q) : Qle_bool a b = false -> Qle_bool b a = true.
Proof.
  intros Hab. apply Qle_bool_iff. apply Qlt_le_weak, Qnot_le_lt.
  intros Hle. apply Qle_bool_iff in Hle. congruence.
Qed.

Lemma traverse_keys_ok (l : list pydict) (kxs : list (Q * pydict)) :
  traverse (fun x => obind (rating_key x) (fun k => Ok (k, x))) l = Ok kxs ->
  Forall (fun kx => rating_key (snd kx) = Ok (fst kx)) kxs.
Proof.
  revert kxs. induction l as [|x l IH]; intros kxs; cbn.
  - intros [= <-]. constructor.
  - destruct (rating_key x) as [k| |] eqn:Hk; cbn; try discriminate.
    destruct (traverse _ l) as [kxs'| |]; cbn; try discriminate.
    intros [= <-]. constructor; [exact Hk|apply IH; reflexivity].
Qed.

Lemma Sorted_firstn {A} (R : A -> A -> Prop) (n : nat) (l : list A) :
  Sorted R l -> Sorted R (firstn n l).
Proof.
  revert l. induction n as [|n IH]; intros l Hs; [constructor|].
  destruct Hs as [|x l Hs Hhd]; cbn; [constructor|].
  constructor; [apply IH, Hs|].
  destruct Hhd as [|y l Hxy]; [destruct n; constructor|].
  destruct n; constructor. exact Hxy.
Qed.

Lemma Sorted_adjacent {A} (R : A -> A -> Prop) (l : list A) (i : nat) (x y : A) :
  Sorted R l -> l !! i = Some x -> l !! S i = Some y -> R x y.
Proof.
  intros Hs. revert i. induction Hs as [|a l Hs IH Hhd]; intros i Hx Hy.
  - discriminate.
  - destruct i as [|i]; cbn in *.
    + injection Hx as ->. destruct Hhd as [|b l Hab]; [discriminate|].
      cbn in Hy. injection Hy as ->. exact Hab.
    + eapply IH; eassumption.
Qed.

(** The client-side sort puts the ratings in descending order. *)
Lemma py_sorted_reverse_descending (l sorted : list pydict) (n : nat) :
  py_sorted_reverse rating_key l = Ok sorted ->
  descending_ratings (firstn n sorted).
Proof.
  unfold py_sorted_reverse.
  destruct (traverse _ l) as [kxs| |] eqn:Ht; cbn; try discriminate.
  intros [= <-].
  pose proof (traverse_keys_ok l kxs Ht) as Hkeys.
  pose proof (sort_desc_sorted Qle_bool fst kxs Qle_bool_total) as Hs.
  assert (Hkeys' : Forall (fun kx => rating_key (snd kx) = Ok (fst kx))
                     (sort_desc Qle_bool fst kxs)).
  { rewrite List.Forall_forall in *. intros kx Hin. apply Hkeys.
    eapply Permutation_in; [apply (sort_desc_perm Qle_bool fst kxs)|exact Hin]. }
  assert (Hsorted : Sorted rating_not_below (map snd (sort_desc Qle_bool fst kxs))).
  { induction Hs as [|kx rest Hs IH Hhd]; cbn; [constructor|].
    inversion Hkeys' as [|? ? Hkx Hrest]; subst.
    constructor; [apply IH, Hrest|].
    destruct Hhd as [|ky rest Hxy]; cbn; constructor.
    inversion Hrest as [|? ? Hky _]; subst.
    exists (fst kx), (fst ky). repeat split; try assumption.
    apply Qle_bool_iff. exact Hxy. }
  intros i x y Hx Hy.
  eapply Sorted_adjacent; [apply Sorted_firstn, Hsorted|exact Hx|exact Hy].
Qed.

Lemma py_sorted_reverse_raises (l : list pydict) :
  forallb has_float_rating l = false ->
  exists e, py_sorted_reverse rating_key l = Raise e.
Proof.
  intros Hl. unfold py_sorted_reverse.
  assert (Ht : exists e,
            traverse (fun x => obind (rating_key x) (fun k => Ok (k, x))) l = Raise e).
  { induction l as [|x l IH]; cbn in *; [discriminate|].
    unfold has_float_rating in Hl at 1.
    pose proof (rating_key_returns x) as Hx.
    destruct (rating_key x) as [k|e|]; cbn in *; [|eauto|congruence].
    destruct (IH Hl) as [e ->]. cbn. eauto. }
  destruct Ht as [e ->]. cbn. eauto.
Qed.

(** X1. Where nothing is raised [find_movies] returns at most twenty
    results, and the client-side sort leaves them in descending order
    of rating. *)
Lemma find_movies_top_twenty (key value : string) (w : world) :
  (forall results w',
     MovieProject.MovieEncyclopedia.find_movies "mongodb" key value w = (Ok results, w')
     \/ Movies2.MovieEncyclopedia.find_movies "mongodb" key value w = (Ok results, w') ->
     length results <= 20)
  /\ (forall results w',
        Movies2.MovieEncyclopedia.find_movies "dynamodb" key value w = (Ok results, w') ->
        length results <= 20 /\ descending_ratings results)
  /\ (answered (S (length (table w))) w = true ->
      forallb has_float_rating
        (List.filter (Dynamo.contains key value) (table w)) = true ->
      exists results w',
        MovieProject.MovieEncyclopedia.find_movies "dynamodb" key value w
          = (Ok results, w')
        /\ length results <= 20 /\ descending_ratings results).
Proof.
  split; [|split].
  - intros results w'.
    unfold MovieProject.MovieEncyclopedia.find_movies, Movies2.MovieEncyclopedia.find_movies.
    change (String.eqb "mongodb" "mongodb") with true. cbv iota.
    unfold Mongo.find_sort_limit, bind, request, gets, ret.
    destruct (faults w) as [|[e|] fs]; intros [Hr|Hr]; try discriminate Hr;
      injection Hr as <- _; rewrite length_map; apply firstn_le_length.
  - intros results w'.
    unfold Movies2.MovieEncyclopedia.find_movies.
    change (String.eqb "dynamodb" "mongodb") with false.
    change (String.eqb "dynamodb" "dynamodb") with true. cbv iota.
    unfold bind at 1. rewrite scan_run. cbv zeta.
    destruct (faults w) as [|[e|] fs]; try discriminate;
      cbn [fst]; unfold bind, lift_outcome;
      match goal with |- context [py_sorted_reverse rating_key ?l] =>
        destruct (py_sorted_reverse rating_key l) as [sorted| |] eqn:Hs end;
      try discriminate; unfold ret; intros [= <- _];
      (split; [apply firstn_le_length|eapply py_sorted_reverse_descending; exact Hs]).
  - intros Hans Hkeys.
    destruct (scan_pages_complete (S (length (table w))) key value None None [] w)
      as (w' & Hrun & Htab & Hout); [cbn; lia|cbn; lia|exact Hans|].
    cbn [default from_option app] in Hrun. unfold id in Hrun. rewrite skipn_0 in Hrun.
    unfold MovieProject.MovieEncyclopedia.find_movies.
    change (String.eqb "dynamodb" "mongodb") with false.
    change (String.eqb "dynamodb" "dynamodb") with true. cbv iota.
    unfold with_local, try_except.
    unfold bind at 1. unfold lift at 1, gets at 1. cbn [fst snd].
    unfold bind at 1. rewrite Hrun.
    unfold bind at 1. unfold get_local at 1, gets at 1. cbn [fst].
    unfold bind at 1. unfold lift_outcome at 1.
    destruct (py_sorted_reverse_ok _ Hkeys) as [sorted Hsorted]. rewrite Hsorted.
    eexists _, _. split; [reflexivity|].
    split; [apply firstn_le_length|eapply py_sorted_reverse_descending; exact Hsorted].
Qed.

(** C1. FindMovies is to return at most twenty results, in descending
    order of rating.  On the key-value backend of movieproject.py, when
    the sort key of an item that passes the filter cannot be computed
    (no [rating], or one that [float] refuses), the sort raises inside
    the [try], the handler prints, and [find_movies] returns [results]
    as the scan left it: every item that passes the filter, in scan
    order, neither sorted nor cut to twenty. *)
Theorem find_movies_error_path (key value : string) (w : world) :
  answered (S (length (table w))) w = true ->
  forallb has_float_rating
    (List.filter (Dynamo.contains key value) (table w)) = false ->
  exists e w',
    MovieProject.MovieEncyclopedia.find_movies "dynamodb" key value w
      = (Ok (List.filter (Dynamo.contains key value) (table w)), w')
    /\ stdout w' = (stdout w ++ [("Error scanning DynamoDB: " ++ exn_msg e)%string])%list.
Proof.
  intros Hans Hkeys.
  destruct (scan_pages_complete (S (length (table w))) key value None None [] w)
    as (w' & Hrun & Htab & Hout); [cbn; lia|cbn; lia|exact Hans|].
  cbn [default from_option app] in Hrun. unfold id in Hrun. rewrite skipn_0 in Hrun.
  destruct (py_sorted_reverse_raises _ Hkeys) as [e Hraise].
  exists e.
  unfold MovieProject.MovieEncyclopedia.find_movies.
  change (String.eqb "dynamodb" "mongodb") with false.
  change (String.eqb "dynamodb" "dynamodb") with true. cbv iota.
  unfold with_local, try_except.
  unfold bind at 1. unfold lift at 1, gets at 1. cbn [fst snd].
  unfold bind at 1. rewrite Hrun.
  unfold bind at 1. unfold get_local at 1, gets at 1. cbn [fst].
  unfold bind at 1. unfold lift_outcome at 1. rewrite Hraise.
  rewrite issubclass_Exception. unfold lift, print, modify. cbn [fst snd].
  eexists. split; [reflexivity|]. cbn [stdout with_stdout]. rewrite Hout. reflexivity.
Qed.
End Claims.

(** ** More of the facade and of the form *)

Section Coverage.
Context `{Externals}.

Lemma split_on_cons (sep : ascii) (s : string) :
  exists w ws, split_on sep s = w :: ws.
Proof.
  destruct s as [|c s]; cbn; [eauto|].
  destruct (Ascii.eqb c sep); [eauto|]. destruct (split_on sep s); eauto.
Qed.

Lemma append_nil_r_local (s : string) : s ++ "" = s.
Proof.
  induction s as [|c s IH]; [reflexivity|].
  change (String c s ++ "") with (String c (s ++ "")). rewrite IH. reflexivity.
Qed.

Lemma concat_cons2 (sep x y : string) (l : list string) :
  String.concat sep (x :: y :: l) = x ++ sep ++ String.concat sep (y :: l).
Proof. reflexivity. Qed.

Lemma split_join_round_trip (sep : ascii) (s : string) :
  split_on sep s <> []
  /\ String.concat (String sep EmptyString) (split_on sep s) = s.
Proof.
  split.
  - destruct (split_on_cons sep s) as (w & ws & ->). discriminate.
  - induction s as [|c s IH]; [reflexivity|]. cbn [split_on].
    destruct (split_on_cons sep s) as (w & ws & Hs). rewrite Hs in IH |- *.
    destruct (Ascii.eqb_spec c sep) as [->|Hne].
    + rewrite concat_cons2, IH. reflexivity.
    + destruct ws as [|w' ws].
      * cbn in IH |- *. rewrite IH. reflexivity.
      * rewrite concat_cons2 in IH |- *. rewrite <- IH. reflexivity.
Qed.

Lemma split_counts_separators (sep : ascii) (s : string) :
  length (split_on sep s) = S (count_char sep s)
  /\ Forall (fun w => count_char sep w = 0%nat) (split_on sep s).
Proof.
  induction s as [|c s [IHlen IHall]]; cbn [split_on count_char].
  - split; [reflexivity|]. repeat constructor.
  - destruct (split_on_cons sep s) as (w & ws & Hs). rewrite Hs in *.
    destruct (Ascii.eqb c sep) eqn:Hc.
    + split; [cbn in IHlen |- *; lia|]. constructor; [reflexivity|exact IHall].
    + split; [cbn in IHlen |- *; lia|].
      inversion IHall as [|? ? Hw Hws]; subst. constructor; [|exact Hws].
      cbn. rewrite Hc. exact Hw.
Qed.

Lemma lstrip_from_start (k : nat) (s : string) : space_width (lstrip_from k s) = 0%nat.
Proof.
  revert k. induction s as [|c s IH]; intros k; [reflexivity|].
  cbn [lstrip_from]. destruct k as [|k]; [|apply IH].
  destruct (space_width (String c s)) as [|w] eqn:Hw; [exact Hw|apply IH].
Qed.

Lemma lstrip_fixed (s : string) : starts_with_space s = false -> lstrip s = s.
Proof.
  unfold starts_with_space, lstrip. intros Hs. apply negb_false_iff, Nat.eqb_eq in Hs.
  destruct s as [|c s]; [reflexivity|]. cbn [lstrip_from]. rewrite Hs. reflexivity.
Qed.

Lemma lstrip_start (s : string) : starts_with_space (lstrip s) = false.
Proof. unfold starts_with_space, lstrip. rewrite lstrip_from_start. reflexivity. Qed.

Lemma space_width_le (s : string) : (space_width s <= String.length s)%nat.
Proof.
  destruct s as [|a [|b [|c s]]]; cbn;
    repeat match goal with |- context [if ?x then _ else _] => destruct x end; lia.
Qed.

Lemma append_cons (c : ascii) (s t : string) : String c s ++ t = String c (s ++ t).
Proof. reflexivity. Qed.

Lemma space_width_prefix (p t : string) (k : nat) :
  space_width p = S k -> space_width (p ++ t) = S k.
Proof.
  destruct p as [|a [|b [|c p]]]; rewrite ?append_cons; cbn [space_width];
    try discriminate.
  - destruct (is_space a); [intros; destruct t; assumption|discriminate].
  - destruct (is_space a); [auto|].
    destruct (is_space2 a b); [intros; destruct t; assumption|discriminate].
  - destruct (is_space a); [auto|]. destruct (is_space2 a b); auto.
Qed.

Lemma lstrip_from_app (a b : string) (k : nat) :
  (k <= String.length a)%nat ->
  lstrip_from k a = "" ->
  lstrip_from k (a ++ b) = lstrip_from 0 b.
Proof.
  revert k. induction a as [|c a IH]; intros k Hk Ha.
  - cbn in Hk. replace k with 0%nat by lia. reflexivity.
  - rewrite append_cons. cbn [lstrip_from] in Ha |- *. destruct k as [|k].
    + destruct (space_width (String c a)) as [|w] eqn:Hw; [discriminate Ha|].
      rewrite <- append_cons, (space_width_prefix _ b w Hw).
      apply IH; [|exact Ha].
      pose proof (space_width_le (String c a)) as Hle. rewrite Hw in Hle.
      cbn in Hle. lia.
    + apply IH; [cbn in Hk; lia|exact Ha].
Qed.

Lemma all_space_app (a b : string) :
  all_space a = true -> all_space b = true -> all_space (a ++ b) = true.
Proof.
  unfold all_space, lstrip. intros Ha Hb.
  apply String.eqb_eq in Ha. rewrite lstrip_from_app; [exact Hb|lia|exact Ha].
Qed.

Lemma rstrip_split (s : string) : exists t, s = rstrip s ++ t /\ all_space t = true.
Proof.
  induction s as [|c s (t & Hs & Ht)]; [exists ""; split; reflexivity|].
  cbn [rstrip]. destruct (all_space (String c s)) eqn:Hall.
  - exists (String c s). split; [reflexivity|exact Hall].
  - exists t. split; [|exact Ht]. rewrite append_cons, <- Hs. reflexivity.
Qed.

Lemma rstrip_fixed (s : string) : ends_with_space s = false -> rstrip s = s.
Proof.
  induction s as [|c s IH]; [reflexivity|]. cbn [ends_with_space rstrip].
  intros He. apply orb_false_iff in He as [-> He]. rewrite (IH He). reflexivity.
Qed.

Lemma rstrip_end (s : string) : ends_with_space (rstrip s) = false.
Proof.
  induction s as [|c s IH]; [reflexivity|]. cbn [rstrip].
  destruct (all_space (String c s)) eqn:Hall; [reflexivity|].
  cbn [ends_with_space]. rewrite IH, orb_false_r.
  destruct (all_space (String c (rstrip s))) eqn:Hall'; [|reflexivity].
  destruct (rstrip_split s) as (t & Hs & Ht).
  rewrite Hs, <- append_cons, (all_space_app _ _ Hall' Ht) in Hall. discriminate Hall.
Qed.

Lemma rstrip_start (s : string) :
  starts_with_space s = false -> starts_with_space (rstrip s) = false.
Proof.
  unfold starts_with_space. intros Hs. apply negb_false_iff, Nat.eqb_eq in Hs.
  destruct (space_width (rstrip s)) as [|k] eqn:Hk; [reflexivity|].
  destruct (rstrip_split s) as (t & Hsplit & _).
  rewrite Hsplit, (space_width_prefix _ t k Hk) in Hs. discriminate Hs.
Qed.

Lemma strip_leaves_no_space (s : string) :
  starts_with_space (strip s) = false
  /\ ends_with_space (strip s) = false
  /\ strip (strip s) = strip s.
Proof.
  assert (Hs : starts_with_space (strip s) = false)
    by (apply rstrip_start, lstrip_start).
  assert (He : ends_with_space (strip s) = false) by apply rstrip_end.
  split; [exact Hs|]. split; [exact He|].
  unfold strip at 1. rewrite (lstrip_fixed _ Hs). apply rstrip_fixed, He.
Qed.

(** X3. The genres the form keeps,
    [[genre.strip() for genre in genres if genre.strip()]]: each is the
    strip of an entry, is not empty, and neither starts nor ends with
    white space; no entry whose strip is not empty is lost; and filtering
    the result again changes nothing.  White space is what [str.strip]
    removes: the blanks of ASCII and the spaces of Unicode, such as the
    no-break space U+00A0. *)
Theorem stripped_nonempty_entries (l : list string) :
  Forall (fun g => g <> ""
                   /\ starts_with_space g = false
                   /\ ends_with_space g = false
                   /\ exists g0, In g0 l /\ g = strip g0)
         (stripped_nonempty l)
  /\ (forall g0, In g0 l -> strip g0 <> "" -> In (strip g0) (stripped_nonempty l))
  /\ stripped_nonempty (stripped_nonempty l) = stripped_nonempty l.
Proof.
  assert (Hsound : Forall (fun g => g <> ""
                   /\ starts_with_space g = false
                   /\ ends_with_space g = false
                   /\ exists g0, In g0 l /\ g = strip g0)
         (stripped_nonempty l)).
  { unfold stripped_nonempty. apply List.Forall_forall. intros g Hg.
    apply in_map_iff in Hg as (g0 & <- & Hg0).
    apply filter_In in Hg0 as [Hin Ht].
    destruct (strip_leaves_no_space g0) as (Hs & He & _).
    split; [|split; [exact Hs|split; [exact He|eauto]]].
    unfold str_truthy in Ht. apply negb_true_iff in Ht.
    apply String.eqb_neq. exact Ht. }
  split; [exact Hsound|]. split.
  - intros g0 Hin Hg0. unfold stripped_nonempty. apply in_map, filter_In.
    split; [exact Hin|]. apply str_truthy_nonempty. exact Hg0.
  - revert Hsound. generalize (stripped_nonempty l). intros gs Hgs.
    induction Hgs as [|g gs (Hne & Hs & He & _) _ IH]; [reflexivity|].
    unfold stripped_nonempty in *. cbn [List.filter].
    assert (Hg : strip g = g).
    { unfold strip. rewrite (lstrip_fixed _ Hs). apply rstrip_fixed, He. }
    rewrite Hg, (str_truthy_nonempty _ Hne). cbn [map]. rewrite Hg, IH. reflexivity.
Qed.

Lemma prefix_app (a b : string) : String.prefix a (a ++ b) = true.
Proof.
  induction a as [|c a IH]; [destruct b; reflexivity|].
  change (String c a ++ b) with (String c (a ++ b)). cbn [String.prefix].
  destruct (ascii_dec c c) as [_|Hc]; [exact IH|contradiction].
Qed.

Lemma split_first (sep : ascii) (s : string) :
  exists g rest,
    split_on sep s = g :: rest
    /\ count_char sep g = 0%nat
    /\ String.prefix g s = true.
Proof.
  destruct (split_on_cons sep s) as (g & rest & Hs). exists g, rest.
  split; [exact Hs|].
  destruct (split_counts_separators sep s) as [_ Hall].
  destruct (split_join_round_trip sep s) as [_ Hjoin].
  rewrite Hs in Hall, Hjoin. apply List.Forall_inv in Hall.
  split; [exact Hall|].
  destruct rest as [|g' rest].
  - cbn in Hjoin. rewrite Hjoin. rewrite <- (append_nil_r_local s) at 2. apply prefix_app.
  - rewrite concat_cons2 in Hjoin. rewrite <- Hjoin. apply prefix_app.
Qed.

(** X2. The bulk load splits the columns [genre], [casts] and
    [directors] on the comma.  Joining the pieces of a column with commas
    gives the text of the file back; a column with k commas gives k + 1
    pieces, so never none; and the first genre, which [item_of_row] stores
    as [primary_genre], is the text of the column before its first comma:
    the fallback ['None'] is not taken for a row of the data frame. *)
Theorem split_columns_round_trip (r : csv_row) :
  let row := split_columns r in
  let joined := String.concat "," in
  let commas := count_char "," in
  (joined (row_genre row) = csv_genre r
   /\ joined (row_casts row) = csv_casts r
   /\ joined (row_directors row) = csv_directors r)
  /\ (length (row_genre row) = S (commas (csv_genre r))
      /\ length (row_casts row) = S (commas (csv_casts r))
      /\ length (row_directors row) = S (commas (csv_directors r)))
  /\ exists first rest,
       row_genre row = first :: rest
       /\ commas first = 0%nat
       /\ String.prefix first (csv_genre r) = true
       /\ MovieProject.MovieEncyclopedia.item_of_row row !! "primary_genre"
          = Some (PStr first).
Proof.
  intros row joined commas. subst row joined commas. cbn [split_columns row_genre
    row_casts row_directors].
  split; [|split].
  - repeat split; apply (split_join_round_trip ","%char).
  - repeat split; apply (split_counts_separators ","%char).
  - destruct (split_first ","%char (csv_genre r)) as (g & rest & Hs & Hg & Hp).
    exists g, rest. split; [exact Hs|]. split; [exact Hg|]. split; [exact Hp|].
    unfold MovieProject.MovieEncyclopedia.item_of_row.
    cbn [split_columns row_genre]. rewrite Hs.
    rewrite !lookup_insert_ne by discriminate. apply lookup_insert_eq.
Qed.

(** X4. The form refuses an empty movie name or an empty rating: one
    error dialog is shown and nothing else changes, in both files and
    whatever the backend. *)
Theorem form_add_movie_requires_name_and_rating
    (db_choice : string) (fields : form) (w : world) :
  movie_name_entry fields = "" \/ rating_entry fields = "" ->
  let refused :=
    with_dialogs (dialogs w ++ [("Error", "Movie name and rating are required.")]) w in
  MovieProject.MovieEncyclopediaGUI.add_movie db_choice fields w = (Ok tt, refused)
  /\ Movies2.MovieEncyclopediaGUI.add_movie db_choice fields w = (Ok tt, refused).
Proof.
  intros Hmissing refused.
  unfold MovieProject.MovieEncyclopediaGUI.add_movie,
    Movies2.MovieEncyclopediaGUI.add_movie.
  assert (Hcond : negb (str_truthy (movie_name_entry fields))
                  || negb (str_truthy (rating_entry fields)) = true).
  { unfold str_truthy. destruct Hmissing as [-> | ->]; cbn;
      [reflexivity|apply orb_true_r]. }
  rewrite Hcond. split; reflexivity.
Qed.

(** X5. With a name and a rating that [Decimal] reads, the form refuses
    genres that are all empty once stripped: one error dialog is shown,
    no dictionary is built and no backend is called, in both files. *)
Theorem form_add_movie_requires_genre
    (db_choice : string) (fields : form) (x : Q) (w : world) :
  movie_name_entry fields <> "" ->
  rating_entry fields <> "" ->
  decimal_of_str (rating_entry fields) = Some x ->
  stripped_nonempty (split_on "," (genre_entry fields)) = [] ->
  let refused :=
    with_dialogs (dialogs w ++ [("Error", "At least one genre is required.")]) w in
  MovieProject.MovieEncyclopediaGUI.add_movie db_choice fields w = (Ok tt, refused)
  /\ Movies2.MovieEncyclopediaGUI.add_movie db_choice fields w = (Ok tt, refused).
Proof.
  intros Hname Hrating Hparse Hgenres refused.
  unfold MovieProject.MovieEncyclopediaGUI.add_movie,
    Movies2.MovieEncyclopediaGUI.add_movie.
  rewrite (str_truthy_nonempty _ Hname), (str_truthy_nonempty _ Hrating).
  cbn [negb orb].
  unfold bind at 1 3. unfold try_except, bind, lift_outcome, py_Decimal, ret.
  rewrite Hparse, Hgenres. split; reflexivity.
Qed.

Lemma observable_movies (w : world) ms t out ds tx :
  observable w = (ms, t, out, ds, tx) -> movies w = ms.
Proof. unfold observable. intros Hobs. inversion Hobs. reflexivity. Qed.

Lemma observable_fields (w : world) ms t out ds tx :
  observable w = (ms, t, out, ds, tx) ->
  movies w = ms /\ table w = t /\ stdout w = out /\ dialogs w = ds /\ text w = tx.
Proof. unfold observable. intros Hobs. inversion Hobs. repeat split. Qed.

Lemma answered_after (n : nat) (w w' : world) :
  answered (S n) w = true -> faults w' = tl (faults w) -> answered n w' = true.
Proof.
  intros Hans Hf. destruct (answered_tail n w Hans) as [_ Hn].
  unfold answered in *. rewrite Hf. exact Hn.
Qed.

Lemma answered_less (n : nat) (w : world) :
  answered (S n) w = true -> answered n w = true.
Proof.
  unfold answered. generalize (faults w). induction n as [|n IH]; intros fs Hfs.
  - reflexivity.
  - destruct fs as [|f fs]; [reflexivity|].
    cbn [firstn forallb] in *. apply andb_true_iff in Hfs as [Hf Hfs].
    rewrite Hf. cbn. apply IH. exact Hfs.
Qed.

Lemma insert_one_run (document : nat) (w : world) :
  let doc := with_id (next_oid w) (heap w !!! document) in
  Mongo.encodable doc = true ->
  answered 1 w = true ->
  exists w',
    Mongo.insert_one document w = (Ok tt, w')
    /\ observable w' = ((movies w ++ [doc])%list, table w, stdout w, dialogs w, text w)
    /\ faults w' = tl (faults w)
    /\ heap w' = <[document := doc]> (heap w).
Proof.
  intros doc Henc Hans. subst doc.
  unfold Mongo.insert_one. unfold bind at 1. unfold deref, gets.
  unfold bind at 1. unfold Mongo.assign_id, with_id in *.
  destruct ((heap w !!! document) !! "_id") eqn:Hid.
  - unfold ret at 1. unfold bind at 1. unfold modify at 1. unfold bind at 1.
    match goal with |- context [request ?w1] =>
      destruct (request_answered 0 w1) as [-> _]; [exact Hans|] end.
    rewrite Henc. unfold modify. eexists. split; [reflexivity|].
    repeat split; reflexivity.
  - unfold bind at 1. unfold bind at 1. unfold gets at 1, modify at 1, ret at 1.
    unfold bind at 1. unfold modify at 1. unfold bind at 1.
    match goal with |- context [request ?w1] =>
      destruct (request_answered 0 w1) as [-> _]; [exact Hans|] end.
    cbn [next_oid with_heap with_next_oid].
    rewrite Henc. unfold modify. eexists. split; [reflexivity|].
    repeat split; reflexivity.
Qed.

(** [add_movie] on the document backend, the rating convertible and the
    server there: one run for the two files. *)
Lemma add_movie_mongodb_run (movie_data : nat) (r : pyval) (x : Q) (w : world) :
  let d := heap w !!! movie_data in
  let doc := with_id (next_oid w) (<["rating" := PFloat x]> d) in
  d !! "rating" = Some r ->
  py_float r = Ok x ->
  Mongo.encodable doc = true ->
  answered 1 w = true ->
  exists w',
    MovieProject.MovieEncyclopedia.add_movie "mongodb" movie_data w = (Ok tt, w')
    /\ Movies2.MovieEncyclopedia.add_movie "mongodb" movie_data w = (Ok tt, w')
    /\ observable w' = ((movies w ++ [doc])%list, table w, stdout w, dialogs w, text w)
    /\ faults w' = tl (faults w)
    /\ heap w' !!! movie_data = doc.
Proof.
  intros d doc Hr Hx Henc Hans.
  set (w1 := with_heap (<[movie_data := <["rating" := PFloat x]> d]> (heap w)) w).
  assert (Hheap : heap w1 !!! movie_data = <["rating" := PFloat x]> d)
    by apply lookup_total_insert_eq.
  destruct (insert_one_run movie_data w1) as (w' & Hrun & Hobs & Hfaults & Hh).
  { rewrite Hheap. exact Henc. }
  { exact Hans. }
  rewrite Hheap in Hobs, Hh. change (next_oid w1) with (next_oid w) in Hobs, Hh.
  fold doc in Hobs, Hh.
  exists w'. split; [|split; [|split; [exact Hobs|split; [exact Hfaults|]]]].
  - unfold MovieProject.MovieEncyclopedia.add_movie.
    change (String.eqb "mongodb" "mongodb") with true. cbv iota.
    unfold bind at 1. unfold bind at 1. unfold py_in, bind at 1, deref, gets, ret at 1.
    fold d. rewrite Hr, bool_decide_eq_true_2 by eauto.
    unfold bind at 1. unfold getitem, bind at 1, deref, gets. fold d. rewrite Hr.
    unfold ret at 1. unfold bind at 1, lift_outcome. rewrite Hx.
    unfold setitem, modify. fold d. fold w1. exact Hrun.
  - unfold Movies2.MovieEncyclopedia.add_movie.
    change (String.eqb "mongodb" "mongodb") with true. cbv iota.
    unfold bind at 1. unfold bind at 1.
    unfold getitem, bind at 1, deref, gets. fold d. rewrite Hr.
    unfold ret at 1. unfold bind at 1, lift_outcome. rewrite Hx.
    unfold setitem, modify. fold d. fold w1. exact Hrun.
  - rewrite Hh. apply lookup_total_insert_eq.
Qed.

Lemma put_item_run (item : pydict) (n : string) (w : world) :
  item !! "name" = Some (PStr n) ->
  Dynamo.serializable item = true ->
  answered 1 w = true ->
  Dynamo.put_item item w
  = (Ok tt, with_table (Dynamo.table_put n (Dynamo.as_attribute <$> item) (table w))
              (with_faults (tl (faults w)) w)).
Proof.
  intros Hn Hser Hans. unfold Dynamo.put_item. rewrite Hser.
  unfold bind at 1. destruct (request_answered 0 w Hans) as [-> _].
  unfold Dynamo.item_key. rewrite Hn. reflexivity.
Qed.

Lemma serializable_set_decimal (d : pydict) (k : string) (q : Q) :
  context_error q = None ->
  Dynamo.serializable d = true -> Dynamo.serializable (<[k := PDecimal q]> d) = true.
Proof.
  unfold Dynamo.serializable, Dynamo.float_free, Dynamo.values_accepted.
  intros Hq Hd. apply andb_true_iff in Hd as [Hfloat Hnumber].
  apply bool_decide_eq_true in Hfloat, Hnumber.
  apply andb_true_iff. split; apply bool_decide_eq_true, map_Forall_insert_2;
    [reflexivity|exact Hfloat| |exact Hnumber].
  unfold Dynamo.accepted. cbn [Dynamo.value_error]. rewrite Hq. reflexivity.
Qed.

(** [add_movie] on the key-value backend of movies2.py: the dictionary
    goes to [put_item] as it is. *)
Lemma add_movie2_dynamodb_run (movie_data : nat) (n : string) (w : world) :
  let d := heap w !!! movie_data in
  d !! "name" = Some (PStr n) ->
  Dynamo.serializable d = true ->
  answered 1 w = true ->
  Movies2.MovieEncyclopedia.add_movie "dynamodb" movie_data w
  = (Ok tt, with_table (Dynamo.table_put n (Dynamo.as_attribute <$> d) (table w))
              (with_faults (tl (faults w)) w)).
Proof.
  intros d Hn Hser Hans. unfold Movies2.MovieEncyclopedia.add_movie.
  change (String.eqb "dynamodb" "mongodb") with false.
  change (String.eqb "dynamodb" "dynamodb") with true. cbv iota.
  unfold bind at 1. unfold ret at 1. unfold bind at 1. unfold deref, gets. fold d.
  apply put_item_run; assumption.
Qed.

(** [add_movie] on the key-value backend of movieproject.py with a
    [Decimal] rating: the rating is read again from its [str]. *)
Lemma add_movie_dynamodb_run (movie_data : nat) (n : string) (q q' : Q) (w : world) :
  let d := heap w !!! movie_data in
  let d' := <["rating" := PDecimal q']> d in
  d !! "name" = Some (PStr n) ->
  d !! "rating" = Some (PDecimal q) ->
  decimal_of_str (py_str (PDecimal q)) = Some q' ->
  Dynamo.serializable d' = true ->
  answered 1 w = true ->
  MovieProject.MovieEncyclopedia.add_movie "dynamodb" movie_data w
  = (Ok tt, with_table (Dynamo.table_put n (Dynamo.as_attribute <$> d') (table w))
              (with_faults (tl (faults w))
                 (with_heap (<[movie_data := d']> (heap w)) w))).
Proof.
  intros d d' Hn Hr Hq Hser Hans. unfold MovieProject.MovieEncyclopedia.add_movie.
  change (String.eqb "dynamodb" "mongodb") with false.
  change (String.eqb "dynamodb" "dynamodb") with true. cbv iota.
  unfold bind at 1. unfold bind at 1. unfold py_in, bind at 1, deref, gets, ret at 1.
  fold d. rewrite Hr, bool_decide_eq_true_2 by eauto.
  unfold bind at 1. unfold bind at 1. unfold getitem at 1. unfold bind at 1, deref, gets.
  fold d. rewrite Hr. unfold ret at 1 2. cbn [is_Decimal].
  unfold bind at 1. unfold getitem at 1. unfold bind at 1, deref, gets.
  fold d. rewrite Hr. unfold ret at 1.
  unfold bind at 1. unfold lift_outcome, py_Decimal. rewrite Hq.
  unfold setitem, modify. fold d. fold d'.
  unfold bind at 1. unfold deref, gets. cbn [heap with_heap].
  rewrite lookup_total_insert_eq.
  apply (put_item_run d' n (with_heap (<[movie_data := d']> (heap w)) w)).
  - unfold d'. rewrite lookup_insert_ne by discriminate. exact Hn.
  - exact Hser.
  - exact Hans.
Qed.

Lemma has_key_other (n m : string) (d : pydict) :
  Dynamo.item_key d = Some m -> Dynamo.has_key n d = String.eqb m n.
Proof. unfold Dynamo.has_key. intros ->. reflexivity. Qed.

Lemma has_key_none (n : string) (d : pydict) :
  Dynamo.item_key d = None -> Dynamo.has_key n d = false.
Proof. unfold Dynamo.has_key. intros ->. reflexivity. Qed.

Lemma find_table_place (n : string) (item : pydict) (t : list pydict) :
  Dynamo.has_key n item = true ->
  existsb (Dynamo.has_key n) t = false ->
  List.find (Dynamo.has_key n) (Dynamo.table_place n item t) = Some item.
Proof.
  intros Hitem. induction t as [|d t IH]; cbn [existsb Dynamo.table_place List.find].
  - rewrite Hitem. reflexivity.
  - intros Hnone. apply orb_false_iff in Hnone as [Hd Ht].
    destruct (Dynamo.item_key d) as [m|]; [destruct (scan_before n m)|];
      cbn [List.find]; rewrite ?Hitem, ?Hd; auto.
Qed.

Lemma find_table_replace (n : string) (f : pydict -> pydict) (t : list pydict) :
  (forall d, Dynamo.has_key n d = true -> Dynamo.has_key n (f d) = true) ->
  existsb (Dynamo.has_key n) t = true ->
  List.find (Dynamo.has_key n) (Dynamo.table_replace n f t)
  = f <$> List.find (Dynamo.has_key n) t.
Proof.
  intros Hf. induction t as [|d t IH]; cbn [existsb Dynamo.table_replace List.find];
    [discriminate|].
  destruct (Dynamo.has_key n d) eqn:Hd; cbn [List.find orb].
  - intros _. rewrite (Hf d Hd). reflexivity.
  - rewrite Hd. exact IH.
Qed.

Lemma find_table_put (n : string) (item : pydict) (t : list pydict) :
  Dynamo.has_key n item = true ->
  List.find (Dynamo.has_key n) (Dynamo.table_put n item t) = Some item.
Proof.
  intros Hitem. unfold Dynamo.table_put.
  destruct (existsb (Dynamo.has_key n) t) eqn:Hex.
  - rewrite find_table_replace; [|auto|exact Hex].
    apply existsb_exists in Hex as (d & Hin & Hd).
    destruct (List.find (Dynamo.has_key n) t) eqn:Hfind; [reflexivity|].
    eapply find_none in Hfind; [|exact Hin]. congruence.
  - apply find_table_place; assumption.
Qed.

Lemma has_key_as_attribute (n : string) (d : pydict) :
  Dynamo.has_key n (Dynamo.as_attribute <$> d) = Dynamo.has_key n d.
Proof.
  unfold Dynamo.has_key, Dynamo.item_key. rewrite lookup_fmap.
  destruct (d !! "name") as [[]|]; reflexivity.
Qed.

Lemma get_item_run (n : string) (w : world) :
  answered 1 w = true ->
  Dynamo.get_item n w
  = (Ok (List.find (Dynamo.has_key n) (table w)), with_faults (tl (faults w)) w).
Proof.
  intros Hans. unfold Dynamo.get_item. unfold bind at 1.
  destruct (request_answered 0 w Hans) as [-> _]. reflexivity.
Qed.

(** X6. On the key-value backend, a dictionary with a string name that
    boto3 serializes (no float, no [ObjectId], no number that its
    number context refuses), added while the two requests are
    answered, is what [get_movie_details] of that name returns next:
    every field as the table holds it (an [int] as a [Decimal]), in
    movies2.py as it was passed, and in movieproject.py with a
    [Decimal] rating read again from its [str], when the context takes
    that number too. *)
Theorem add_then_details_key_value (movie_data : nat) (n : string) (w : world) :
  let d := heap w !!! movie_data in
  d !! "name" = Some (PStr n) ->
  Dynamo.serializable d = true ->
  answered 2 w = true ->
  (exists w',
     (Movies2.MovieEncyclopedia.add_movie "dynamodb" movie_data ;;
      Movies2.MovieEncyclopedia.get_movie_details "dynamodb" n) w
     = (Ok (Some (Dynamo.as_attribute <$> d)), w'))
  /\ (forall q q',
        d !! "rating" = Some (PDecimal q) ->
        decimal_of_str (py_str (PDecimal q)) = Some q' ->
        context_error q' = None ->
        exists w',
          (MovieProject.MovieEncyclopedia.add_movie "dynamodb" movie_data ;;
           MovieProject.MovieEncyclopedia.get_movie_details "dynamodb" n) w
          = (Ok (Some (Dynamo.as_attribute <$> <["rating" := PDecimal q']> d)), w')).
Proof.
  intros d Hn Hser Hans. pose proof (answered_less 1 w Hans) as Hans1. split.
  - unfold bind. rewrite (add_movie2_dynamodb_run movie_data n w Hn Hser Hans1).
    unfold Movies2.MovieEncyclopedia.get_movie_details,
      MovieProject.MovieEncyclopedia.get_movie_details.
    change (String.eqb "dynamodb" "mongodb") with false.
    change (String.eqb "dynamodb" "dynamodb") with true. cbv iota.
    rewrite get_item_run by (eapply answered_after; [exact Hans|reflexivity]).
    cbn [table with_table with_faults]. rewrite find_table_put.
    + eexists. reflexivity.
    + rewrite has_key_as_attribute. apply has_key_name. exact Hn.
  - intros q q' Hr Hq Hq'. unfold bind.
    rewrite (add_movie_dynamodb_run movie_data n q q' w Hn Hr Hq
               (serializable_set_decimal _ _ _ Hq' Hser) Hans1).
    unfold MovieProject.MovieEncyclopedia.get_movie_details.
    change (String.eqb "dynamodb" "mongodb") with false.
    change (String.eqb "dynamodb" "dynamodb") with true. cbv iota.
    rewrite get_item_run by (eapply answered_after; [exact Hans|reflexivity]).
    cbn [table with_table with_faults]. rewrite find_table_put.
    + eexists. reflexivity.
    + rewrite has_key_as_attribute. apply has_key_name.
      rewrite lookup_insert_ne by discriminate. exact Hn.
Qed.

Lemma find_one_run (field : string) (c : mongo_cond) (w : world) :
  answered 1 w = true ->
  Mongo.find_one field c w
  = (Ok (delete "_id" <$> List.find (Mongo.matches field c) (movies w)),
     with_faults (tl (faults w)) w).
Proof.
  intros Hans. unfold Mongo.find_one. unfold bind at 1.
  destruct (request_answered 0 w Hans) as [-> _]. reflexivity.
Qed.

(** X7. On the document backend, in both files: when no stored document
    has a name the pattern matches and the name matches itself as a
    pattern, a dictionary added with that name comes back from
    [get_movie_details] with its rating as a float, every other field
    unchanged and without the [_id] the collection gave it. *)
Theorem add_then_details_document
    (movie_data : nat) (n : string) (r : pyval) (x : Q) (w : world) :
  let d := heap w !!! movie_data in
  let stored := <["rating" := PFloat x]> d in
  d !! "name" = Some (PStr n) ->
  d !! "rating" = Some r ->
  py_float r = Ok x ->
  d !! "_id" = None ->
  Mongo.encodable stored = true ->
  regex_search n n = true ->
  forallb (fun d' => negb (Mongo.matches "name" (CondRegexI n) d')) (movies w) = true ->
  answered 2 w = true ->
  exists w',
    (MovieProject.MovieEncyclopedia.add_movie "mongodb" movie_data ;;
     MovieProject.MovieEncyclopedia.get_movie_details "mongodb" n) w
    = (Ok (Some stored), w')
    /\ (Movies2.MovieEncyclopedia.add_movie "mongodb" movie_data ;;
        Movies2.MovieEncyclopedia.get_movie_details "mongodb" n) w
       = (Ok (Some stored), w')
    /\ movies w' = (movies w ++ [<["_id" := PObjectId (next_oid w)]> stored])%list.
Proof.
  intros d stored Hn Hr Hx Hid Henc Hre Hnone Hans.
  pose proof (answered_less 1 w Hans) as Hans1.
  assert (Hdoc : with_id (next_oid w) stored = <["_id" := PObjectId (next_oid w)]> stored).
  { unfold with_id, stored. rewrite lookup_insert_ne by discriminate. rewrite Hid.
    reflexivity. }
  destruct (add_movie_mongodb_run movie_data r x w Hr Hx) as (w1 & Hmp & Hm2 & Hobs & Hf & _).
  { fold d. fold stored. rewrite Hdoc. unfold Mongo.encodable in *.
    apply bool_decide_eq_true in Henc. apply bool_decide_eq_true.
    apply map_Forall_insert_2; [reflexivity|exact Henc]. }
  { exact Hans1. }
  fold d in Hobs. fold stored in Hobs. rewrite Hdoc in Hobs.
  assert (Hmovies : movies w1 = (movies w ++ [<["_id" := PObjectId (next_oid w)]> stored])%list).
  { exact (observable_movies _ _ _ _ _ _ Hobs). }
  assert (Hget : MovieProject.MovieEncyclopedia.get_movie_details "mongodb" n w1
                 = (Ok (Some stored), with_faults (tl (faults w1)) w1)).
  { unfold MovieProject.MovieEncyclopedia.get_movie_details.
    change (String.eqb "mongodb" "mongodb") with true. cbv iota.
    rewrite find_one_run by (eapply answered_after; [exact Hans|exact Hf]).
    rewrite Hmovies, find_past; [| exact Hnone |].
    - cbn [fmap option_fmap option_map]. rewrite delete_insert_eq, delete_id; [reflexivity|].
      unfold stored. rewrite lookup_insert_ne by discriminate. exact Hid.
    - unfold Mongo.matches. rewrite lookup_insert_ne by discriminate.
      unfold stored. rewrite lookup_insert_ne by discriminate. rewrite Hn. exact Hre. }
  exists (with_faults (tl (faults w1)) w1). split; [|split].
  - unfold bind. rewrite Hmp. exact Hget.
  - unfold bind. rewrite Hm2. exact Hget.
  - exact Hmovies.
Qed.

(** X8. [add_movie] on the document backend never replaces: the document
    goes to the end of the collection, nothing else a user observes
    changes, and the number of documents with that exact name grows by
    one, in both files. *)
Theorem add_movie_document_appends
    (movie_data : nat) (n : string) (r : pyval) (x : Q) (w : world) :
  let d := heap w !!! movie_data in
  let doc := with_id (next_oid w) (<["rating" := PFloat x]> d) in
  let named := Mongo.matches "name" (CondEq n) in
  d !! "name" = Some (PStr n) ->
  d !! "rating" = Some r ->
  py_float r = Ok x ->
  Mongo.encodable doc = true ->
  answered 1 w = true ->
  exists w',
    MovieProject.MovieEncyclopedia.add_movie "mongodb" movie_data w = (Ok tt, w')
    /\ Movies2.MovieEncyclopedia.add_movie "mongodb" movie_data w = (Ok tt, w')
    /\ observable w' = ((movies w ++ [doc])%list, table w, stdout w, dialogs w, text w)
    /\ length (List.filter named (movies w')) = S (length (List.filter named (movies w))).
Proof.
  intros d doc named Hn Hr Hx Henc Hans.
  destruct (add_movie_mongodb_run movie_data r x w Hr Hx Henc Hans)
    as (w' & Hmp & Hm2 & Hobs & _ & _).
  exists w'. repeat split; try assumption.
  assert (Hmovies : movies w' = (movies w ++ [doc])%list)
    by exact (observable_movies _ _ _ _ _ _ Hobs).
  rewrite Hmovies, List.filter_app, length_app.
  assert (Hdoc : named doc = true).
  { unfold named, Mongo.matches, doc, with_id. fold d.
    destruct (<["rating" := PFloat x]> d !! "_id");
      rewrite ?(lookup_insert_ne _ "_id") by discriminate;
      rewrite lookup_insert_ne by discriminate; rewrite Hn; cbn; apply String.eqb_refl. }
  cbn. rewrite Hdoc. cbn. lia.
Qed.

Lemma form_record_rating (fields : form) (v v' : pyval) :
  <["rating" := v']> (form_record fields v) = form_record fields v'.
Proof.
  unfold form_record.
  rewrite (insert_insert_ne _ "rating" "name") by discriminate.
  rewrite (insert_insert_ne _ "rating" "genre") by discriminate.
  rewrite (insert_insert_ne _ "rating" "directors") by discriminate.
  rewrite (insert_insert_ne _ "rating" "certificate") by discriminate.
  rewrite insert_insert_eq. reflexivity.
Qed.

Lemma form_record2_rating (fields : form) (v v' : pyval) :
  <["rating" := v']> (form_record2 fields v) = form_record2 fields v'.
Proof.
  unfold form_record2.
  rewrite (insert_insert_ne _ "rating" "name") by discriminate.
  rewrite (insert_insert_ne _ "rating" "genre") by discriminate.
  rewrite insert_insert_eq. reflexivity.
Qed.

Lemma form_record_encodable (fields : form) (n : nat) (x : Q) :
  Mongo.encodable (with_id n (form_record fields (PFloat x))) = true
  /\ with_id n (form_record fields (PFloat x))
     = <["_id" := PObjectId n]> (form_record fields (PFloat x)).
Proof.
  assert (Hid : with_id n (form_record fields (PFloat x))
                = <["_id" := PObjectId n]> (form_record fields (PFloat x))).
  { unfold with_id, form_record. rewrite !lookup_insert_ne by discriminate.
    rewrite lookup_empty. reflexivity. }
  split; [|exact Hid]. rewrite Hid. unfold Mongo.encodable, form_record.
  apply bool_decide_eq_true.
  repeat (apply map_Forall_insert_2; [reflexivity|]). apply map_Forall_empty.
Qed.

Lemma form_record2_encodable (fields : form) (n : nat) (x : Q) :
  Mongo.encodable (with_id n (form_record2 fields (PFloat x))) = true
  /\ with_id n (form_record2 fields (PFloat x))
     = <["_id" := PObjectId n]> (form_record2 fields (PFloat x)).
Proof.
  assert (Hid : with_id n (form_record2 fields (PFloat x))
                = <["_id" := PObjectId n]> (form_record2 fields (PFloat x))).
  { unfold with_id, form_record2. rewrite !lookup_insert_ne by discriminate.
    rewrite lookup_empty. reflexivity. }
  split; [|exact Hid]. rewrite Hid. unfold Mongo.encodable, form_record2.
  apply bool_decide_eq_true.
  repeat (apply map_Forall_insert_2; [reflexivity|]). apply map_Forall_empty.
Qed.

(** The form of either file up to the call of the facade: the entries
    pass the checks and the dictionary is built. *)
Lemma form_add_movie_run (db_choice : string) (fields : form) (x : Q) (w : world) :
  movie_name_entry fields <> "" ->
  rating_entry fields <> "" ->
  decimal_of_str (rating_entry fields) = Some x ->
  stripped_nonempty (split_on "," (genre_entry fields)) <> [] ->
  let added := text_insert ("Added movie: " ++ movie_name_entry fields ++ "
") in
  MovieProject.MovieEncyclopediaGUI.add_movie db_choice fields w
  = (movie_data <- alloc (form_record fields (PDecimal x)) ;;
     MovieProject.MovieEncyclopedia.add_movie db_choice movie_data ;; added) w
  /\ Movies2.MovieEncyclopediaGUI.add_movie db_choice fields w
     = (movie_data <- alloc (form_record2 fields (PDecimal x)) ;;
        Movies2.MovieEncyclopedia.add_movie db_choice movie_data ;; added) w.
Proof.
  intros Hname Hrating Hparse Hgenres added.
  unfold MovieProject.MovieEncyclopediaGUI.add_movie,
    Movies2.MovieEncyclopediaGUI.add_movie.
  rewrite (str_truthy_nonempty _ Hname), (str_truthy_nonempty _ Hrating).
  cbn [negb orb].
  unfold bind at 1. unfold bind at 5.
  unfold try_except, bind at 1, lift_outcome, py_Decimal, ret at 1.
  unfold bind at 3. unfold ret at 1. rewrite Hparse.
  destruct (stripped_nonempty (split_on "," (genre_entry fields))) eqn:Hg;
    [contradiction|].
  unfold form_record, form_record2. rewrite Hg. split; reflexivity.
Qed.

(** X9. The form with a name, a rating that [Decimal] reads and a genre,
    on the document backend with the server there: the collection gains
    one document, with a fresh [_id], the stripped genres and the rating
    as a float (and, in movieproject.py, the directors and the
    certificate), and the result field gains the line
    [Added movie: name]. *)
Theorem form_add_movie_document_stores (fields : form) (x : Q) (w : world) :
  movie_name_entry fields <> "" ->
  rating_entry fields <> "" ->
  decimal_of_str (rating_entry fields) = Some x ->
  stripped_nonempty (split_on "," (genre_entry fields)) <> [] ->
  answered 1 w = true ->
  let stored record := <["_id" := PObjectId (next_oid w)]> (record (PFloat (round64 x))) in
  let shown := (text w ++ [("Added movie: " ++ movie_name_entry fields ++ "
")%string])%list in
  exists w' w2',
    MovieProject.MovieEncyclopediaGUI.add_movie "mongodb" fields w = (Ok tt, w')
    /\ Movies2.MovieEncyclopediaGUI.add_movie "mongodb" fields w = (Ok tt, w2')
    /\ observable w'
       = ((movies w ++ [stored (form_record fields)])%list,
          table w, stdout w, dialogs w, shown)
    /\ observable w2'
       = ((movies w ++ [stored (form_record2 fields)])%list,
          table w, stdout w, dialogs w, shown).
Proof.
  intros Hname Hrating Hparse Hgenres Hans stored shown.
  destruct (form_add_movie_run "mongodb" fields x w Hname Hrating Hparse Hgenres)
    as [-> ->].
  set (l := fresh (dom (heap w))).
  pose (wa := with_heap (<[l := form_record fields (PDecimal x)]> (heap w)) w).
  pose (wb := with_heap (<[l := form_record2 fields (PDecimal x)]> (heap w)) w).
  destruct (add_movie_mongodb_run l (PDecimal x) (round64 x) wa)
    as (w1 & Hrun1 & _ & Hobs1 & _ & _).
  { unfold wa. cbn [heap with_heap]. rewrite lookup_total_insert_eq.
    unfold form_record. rewrite !lookup_insert_ne by discriminate.
    apply lookup_insert_eq. }
  { reflexivity. }
  { unfold wa. cbn [heap with_heap next_oid]. rewrite lookup_total_insert_eq.
    rewrite form_record_rating. apply form_record_encodable. }
  { exact Hans. }
  destruct (add_movie_mongodb_run l (PDecimal x) (round64 x) wb)
    as (w2 & _ & Hrun2 & Hobs2 & _ & _).
  { unfold wb. cbn [heap with_heap]. rewrite lookup_total_insert_eq.
    unfold form_record2. rewrite !lookup_insert_ne by discriminate.
    apply lookup_insert_eq. }
  { reflexivity. }
  { unfold wb. cbn [heap with_heap next_oid]. rewrite lookup_total_insert_eq.
    rewrite form_record2_rating. apply form_record2_encodable. }
  { exact Hans. }
  unfold wa in Hobs1. unfold wb in Hobs2.
  cbn [heap with_heap next_oid movies table stdout dialogs text] in Hobs1, Hobs2.
  rewrite lookup_total_insert_eq in Hobs1, Hobs2.
  rewrite form_record_rating in Hobs1. rewrite form_record2_rating in Hobs2.
  rewrite (proj2 (form_record_encodable _ _ _)) in Hobs1.
  rewrite (proj2 (form_record2_encodable _ _ _)) in Hobs2.
  unfold observable in Hobs1, Hobs2. inversion Hobs1. inversion Hobs2.
  exists (with_text (text w1 ++ [("Added movie: " ++ movie_name_entry fields ++ "
")%string]) w1),
         (with_text (text w2 ++ [("Added movie: " ++ movie_name_entry fields ++ "
")%string]) w2).
  split; [|split; [|split]].
  - unfold bind at 1. unfold alloc. fold l. fold wa.
    unfold bind at 1. rewrite Hrun1. reflexivity.
  - unfold bind at 1. unfold alloc. fold l. fold wb.
    unfold bind at 1. rewrite Hrun2. reflexivity.
  - unfold observable, stored, shown. cbn [movies table stdout dialogs text with_text].
    congruence.
  - unfold observable, stored, shown. cbn [movies table stdout dialogs text with_text].
    congruence.
Qed.

Lemma serializable_parts (d : pydict) :
  map_Forall (fun _ v => is_float v = false) d ->
  map_Forall (fun _ v => Dynamo.accepted v = true) d ->
  Dynamo.serializable d = true.
Proof.
  intros Hfloat Hnumber. unfold Dynamo.serializable. apply andb_true_iff.
  split; apply bool_decide_eq_true_2; assumption.
Qed.

Lemma omap_none {A B} (f : A -> option B) (l : list A) :
  Forall (fun a => f a = None) l -> omap f l = [].
Proof.
  induction 1 as [|a l Ha _ IH]; [reflexivity|]. cbn. rewrite Ha. exact IH.
Qed.

(** A dictionary without a float in which one number is out of the
    context: boto3 raises what the context raises on it. *)
Lemma refusal_of_number (d : pydict) (k : string) (v : pyval) (e : exn) :
  d !! k = Some v ->
  Dynamo.value_error v = Some e ->
  map_Forall (fun k' v' => is_float v' = false
                           /\ (k' <> k -> Dynamo.value_error v' = None)) d ->
  Dynamo.serializable d = false /\ Dynamo.refusal d = e.
Proof.
  intros Hk He Hall.
  assert (Hfree : Dynamo.float_free d = true).
  { apply bool_decide_eq_true_2. intros k' v' Hk'. exact (proj1 (Hall k' v' Hk')). }
  unfold Dynamo.serializable, Dynamo.refusal. rewrite Hfree. split.
  - cbn [andb]. apply bool_decide_eq_false_2. intros Hin.
    specialize (Hin k v Hk). cbv beta in Hin.
    rewrite (accepted_error _ _ He) in Hin. discriminate Hin.
  - assert (Hlist : omap (fun kv : string * pyval => Dynamo.value_error kv.2)
                      (map_to_list d) = [e]).
    { apply Permutation_singleton_r.
      rewrite <- (insert_id d k v Hk), <- insert_delete_eq.
      rewrite map_to_list_insert by apply lookup_delete_eq.
      cbn [omap list_omap snd]. rewrite He. rewrite omap_none; [reflexivity|].
      apply List.Forall_forall. intros [k' v'] Hin.
      apply list_elem_of_In, elem_of_map_to_list, lookup_delete_Some in Hin
        as [Hne Hk'].
      apply (Hall k' v' Hk'). congruence. }
    rewrite Hlist. reflexivity.
Qed.

Lemma put_item_unserializable (item : pydict) (w : world) :
  Dynamo.serializable item = false ->
  Dynamo.put_item item w = (Raise (Dynamo.refusal item), w).
Proof. intros Hser. unfold Dynamo.put_item. rewrite Hser. reflexivity. Qed.

Lemma add_movie2_dynamodb_refused (movie_data : nat) (w : world) :
  let d := heap w !!! movie_data in
  Dynamo.serializable d = false ->
  Movies2.MovieEncyclopedia.add_movie "dynamodb" movie_data w
  = (Raise (Dynamo.refusal d), w).
Proof.
  intros d Hser. unfold Movies2.MovieEncyclopedia.add_movie.
  change (String.eqb "dynamodb" "mongodb") with false.
  change (String.eqb "dynamodb" "dynamodb") with true. cbv iota.
  unfold bind at 1. unfold ret at 1. unfold bind at 1. unfold deref, gets. fold d.
  apply put_item_unserializable. exact Hser.
Qed.

Lemma add_movie_dynamodb_refused (movie_data : nat) (q q' : Q) (w : world) :
  let d := heap w !!! movie_data in
  let d' := <["rating" := PDecimal q']> d in
  d !! "rating" = Some (PDecimal q) ->
  decimal_of_str (py_str (PDecimal q)) = Some q' ->
  Dynamo.serializable d' = false ->
  MovieProject.MovieEncyclopedia.add_movie "dynamodb" movie_data w
  = (Raise (Dynamo.refusal d'), with_heap (<[movie_data := d']> (heap w)) w).
Proof.
  intros d d' Hr Hq Hser. unfold MovieProject.MovieEncyclopedia.add_movie.
  change (String.eqb "dynamodb" "mongodb") with false.
  change (String.eqb "dynamodb" "dynamodb") with true. cbv iota.
  unfold bind at 1. unfold bind at 1. unfold py_in, bind at 1, deref, gets, ret at 1.
  fold d. rewrite Hr, bool_decide_eq_true_2 by eauto.
  unfold bind at 1. unfold bind at 1. unfold getitem at 1. unfold bind at 1, deref, gets.
  fold d. rewrite Hr. unfold ret at 1 2. cbn [is_Decimal].
  unfold bind at 1. unfold getitem at 1. unfold bind at 1, deref, gets.
  fold d. rewrite Hr. unfold ret at 1.
  unfold bind at 1. unfold lift_outcome, py_Decimal. rewrite Hq.
  unfold setitem, modify. fold d. fold d'.
  unfold bind at 1. unfold deref, gets. cbn [heap with_heap].
  rewrite lookup_total_insert_eq.
  apply (put_item_unserializable d' (with_heap (<[movie_data := d']> (heap w)) w)).
  exact Hser.
Qed.

Lemma form_record_attributes (fields : form) (q : Q) :
  Dynamo.as_attribute <$> form_record fields (PDecimal q) = form_record fields (PDecimal q)
  /\ (context_error q = None ->
      Dynamo.serializable (form_record fields (PDecimal q)) = true)
  /\ form_record fields (PDecimal q) !! "name" = Some (PStr (movie_name_entry fields))
  /\ form_record fields (PDecimal q) !! "rating" = Some (PDecimal q)
  /\ (forall e, context_error q = Some e ->
        Dynamo.serializable (form_record fields (PDecimal q)) = false
        /\ Dynamo.refusal (form_record fields (PDecimal q)) = e).
Proof.
  assert (Hrating : form_record fields (PDecimal q) !! "rating" = Some (PDecimal q)).
  { unfold form_record. rewrite !lookup_insert_ne by discriminate.
    apply lookup_insert_eq. }
  split; [|split; [|split; [|split; [exact Hrating|]]]].
  - unfold form_record. rewrite !fmap_insert, fmap_empty. reflexivity.
  - intros Hq. unfold form_record. apply serializable_parts.
    + repeat (apply map_Forall_insert_2; [reflexivity|]). apply map_Forall_empty.
    + repeat (apply map_Forall_insert_2; [reflexivity|]).
      apply map_Forall_insert_2; [|apply map_Forall_empty].
      unfold Dynamo.accepted. cbn [Dynamo.value_error]. rewrite Hq. reflexivity.
  - apply lookup_insert_eq.
  - intros e He. apply (refusal_of_number _ "rating" (PDecimal q)); [exact Hrating|exact He|].
    unfold form_record.
    repeat (apply map_Forall_insert_2; [split; [reflexivity|intros _; reflexivity]|]).
    apply map_Forall_insert_2; [|apply map_Forall_empty].
    split; [reflexivity|]. intros Hne. contradiction.
Qed.

Lemma form_record2_attributes (fields : form) (q : Q) :
  Dynamo.as_attribute <$> form_record2 fields (PDecimal q) = form_record2 fields (PDecimal q)
  /\ (context_error q = None ->
      Dynamo.serializable (form_record2 fields (PDecimal q)) = true)
  /\ form_record2 fields (PDecimal q) !! "name" = Some (PStr (movie_name_entry fields))
  /\ (forall e, context_error q = Some e ->
        Dynamo.serializable (form_record2 fields (PDecimal q)) = false
        /\ Dynamo.refusal (form_record2 fields (PDecimal q)) = e).
Proof.
  assert (Hrating : form_record2 fields (PDecimal q) !! "rating" = Some (PDecimal q)).
  { unfold form_record2. rewrite !lookup_insert_ne by discriminate.
    apply lookup_insert_eq. }
  split; [|split; [|split]].
  - unfold form_record2. rewrite !fmap_insert, fmap_empty. reflexivity.
  - intros Hq. unfold form_record2. apply serializable_parts.
    + repeat (apply map_Forall_insert_2; [reflexivity|]). apply map_Forall_empty.
    + repeat (apply map_Forall_insert_2; [reflexivity|]).
      apply map_Forall_insert_2; [|apply map_Forall_empty].
      unfold Dynamo.accepted. cbn [Dynamo.value_error]. rewrite Hq. reflexivity.
  - apply lookup_insert_eq.
  - intros e He. apply (refusal_of_number _ "rating" (PDecimal q)); [exact Hrating|exact He|].
    unfold form_record2.
    repeat (apply map_Forall_insert_2; [split; [reflexivity|intros _; reflexivity]|]).
    apply map_Forall_insert_2; [|apply map_Forall_empty].
    split; [reflexivity|]. intros Hne. contradiction.
Qed.

(** X10. The same form on the key-value backend, the rating a number
    the number context of boto3 takes: the item with the rating as a
    [Decimal] is put under its name, replacing an item of that name or
    taking its place in the order of the scan, and the result field
    gains the line [Added movie: name]; movieproject.py stores the
    rating read again from its [str].  When the context refuses the
    rating, as it does a number of more than 38 digits, [add_movie]
    raises what the context raises: nothing is written and no line is
    added. *)
Theorem form_add_movie_key_value_stores (fields : form) (x : Q) (w : world) :
  movie_name_entry fields <> "" ->
  rating_entry fields <> "" ->
  decimal_of_str (rating_entry fields) = Some x ->
  stripped_nonempty (split_on "," (genre_entry fields)) <> [] ->
  answered 1 w = true ->
  let name := movie_name_entry fields in
  let shown := (text w ++ [("Added movie: " ++ name ++ "
")%string])%list in
  (context_error x = None ->
   exists w2',
     Movies2.MovieEncyclopediaGUI.add_movie "dynamodb" fields w = (Ok tt, w2')
     /\ observable w2'
        = (movies w, Dynamo.table_put name (form_record2 fields (PDecimal x)) (table w),
           stdout w, dialogs w, shown))
  /\ (forall x',
        decimal_of_str (py_str (PDecimal x)) = Some x' ->
        context_error x' = None ->
        exists w',
          MovieProject.MovieEncyclopediaGUI.add_movie "dynamodb" fields w = (Ok tt, w')
          /\ observable w'
             = (movies w, Dynamo.table_put name (form_record fields (PDecimal x')) (table w),
                stdout w, dialogs w, shown))
  /\ (forall e,
        context_error x = Some e ->
        exists w2',
          Movies2.MovieEncyclopediaGUI.add_movie "dynamodb" fields w = (Raise e, w2')
          /\ observable w2' = observable w)
  /\ (forall x' e,
        decimal_of_str (py_str (PDecimal x)) = Some x' ->
        context_error x' = Some e ->
        exists w',
          MovieProject.MovieEncyclopediaGUI.add_movie "dynamodb" fields w = (Raise e, w')
          /\ observable w' = observable w).
Proof.
  intros Hname Hrating Hparse Hgenres Hans name shown.
  destruct (form_add_movie_run "dynamodb" fields x w Hname Hrating Hparse Hgenres)
    as [-> ->].
  set (l := fresh (dom (heap w))).
  pose (wa := with_heap (<[l := form_record fields (PDecimal x)]> (heap w)) w).
  pose (wb := with_heap (<[l := form_record2 fields (PDecimal x)]> (heap w)) w).
  split; [|split; [|split]].
  - intros Hx. destruct (form_record2_attributes fields x) as (Hattr & Hser & Hn & _).
    pose proof (add_movie2_dynamodb_run l (movie_name_entry fields) wb) as Hrun.
    unfold wb in Hrun at 1 2 3. cbn [heap with_heap] in Hrun.
    rewrite lookup_total_insert_eq in Hrun. specialize (Hrun Hn (Hser Hx) Hans).
    rewrite Hattr in Hrun.
    eexists. split.
    + unfold bind at 1. unfold alloc. fold l.
      unfold bind at 1. rewrite Hrun. reflexivity.
    + reflexivity.
  - intros x' Hx' Hcontext.
    destruct (form_record_attributes fields x) as (_ & _ & Hn & Hr & _).
    destruct (form_record_attributes fields x') as (Hattr & Hser & _ & _ & _).
    pose proof (add_movie_dynamodb_run l (movie_name_entry fields) x x' wa) as Hrun.
    unfold wa in Hrun at 1 2 3 4 5. cbn [heap with_heap] in Hrun.
    rewrite lookup_total_insert_eq, form_record_rating in Hrun.
    specialize (Hrun Hn Hr Hx' (Hser Hcontext) Hans). rewrite Hattr in Hrun.
    eexists. split.
    + unfold bind at 1. unfold alloc. fold l.
      unfold bind at 1. rewrite Hrun. reflexivity.
    + reflexivity.
  - intros e He. destruct (form_record2_attributes fields x) as (_ & _ & _ & Hno).
    destruct (Hno e He) as [Hser Hrefusal].
    pose proof (add_movie2_dynamodb_refused l wb) as Hrun.
    unfold wb in Hrun. cbn [heap with_heap] in Hrun.
    rewrite lookup_total_insert_eq, Hrefusal in Hrun. specialize (Hrun Hser).
    eexists. split.
    + unfold bind at 1. unfold alloc. fold l.
      unfold bind at 1. rewrite Hrun. reflexivity.
    + reflexivity.
  - intros x' e Hx' He.
    destruct (form_record_attributes fields x) as (_ & _ & _ & Hr & _).
    destruct (form_record_attributes fields x') as (_ & _ & _ & _ & Hno).
    destruct (Hno e He) as [Hser Hrefusal].
    pose proof (add_movie_dynamodb_refused l x x' wa) as Hrun.
    unfold wa in Hrun. cbn [heap with_heap] in Hrun.
    rewrite lookup_total_insert_eq, form_record_rating, Hrefusal in Hrun.
    specialize (Hrun Hr Hx' Hser).
    eexists. split.
    + unfold bind at 1. unfold alloc. fold l.
      unfold bind at 1. rewrite Hrun. reflexivity.
    + reflexivity.
Qed.

(** [update_movie] with the dictionary [{'rating': r}] on the document
    backend. *)
Lemma update_rating_mongodb_run (n : string) (l : nat) (r : pyval) (w : world) :
  heap w !!! l = {["rating" := r]} ->
  answered 1 w = true ->
  exists h,
    h !!! l = {["rating" := to_float_value r]}
    /\ MovieProject.MovieEncyclopedia.update_movie "mongodb" n l w
       = (Ok tt,
          with_movies
            (Mongo.update_first (Mongo.matches "name" (CondEq n))
               (fun d => {["rating" := to_float_value r]} ∪ d) (movies w))
            (with_faults (tl (faults w)) (with_heap h w))).
Proof.
  intros Hdata Hans.
  destruct (update_movie_mongodb_run n l w) as (h & Hh & Hrun).
  rewrite Hdata, map_fmap_singleton in Hh, Hrun.
  exists h. split; [exact Hh|]. rewrite Hrun.
  unfold Mongo.update_one_set. rewrite to_float_value_encodable.
  unfold bind at 1.
  destruct (request_answered 0 (with_heap h w)) as [-> _]; [exact Hans|].
  reflexivity.
Qed.

(** [update_movie] with the dictionary [{'rating': r}] on the key-value
    backend. *)
Lemma update_rating_dynamodb_run (n : string) (l : nat) (r : pyval) (w : world) :
  heap w !!! l = {["rating" := r]} ->
  is_float (to_decimal_value r) = false ->
  Dynamo.accepted (to_decimal_value r) = true ->
  answered 1 w = true ->
  exists h,
    h !!! l = {["rating" := to_decimal_value r]}
    /\ MovieProject.MovieEncyclopedia.update_movie "dynamodb" n l w
       = (Ok tt,
          with_table
            (Dynamo.table_update n
               {["rating" := Dynamo.as_attribute (to_decimal_value r)]} (table w))
            (with_faults (tl (faults w)) (with_heap h w))).
Proof.
  intros Hdata Hrepr Hcontext Hans.
  destruct (update_movie_dynamodb_run n l w) as (h & Hh & Hrun).
  { rewrite Hdata. intros k x Hk.
    apply lookup_singleton_Some in Hk as [_ ->].
    cbn in Hrepr |- *. destruct (decimal_of_str (py_str (PFloat x))); [eauto|].
    discriminate Hrepr. }
  rewrite Hdata, map_fmap_singleton in Hh, Hrun.
  exists h. split; [exact Hh|]. rewrite Hrun.
  unfold Dynamo.update_item.
  rewrite (proj1 (serializable_rating _ Hrepr)), Hcontext. unfold bind at 1.
  destruct (request_answered 0 (with_heap h w)) as [-> _]; [exact Hans|].
  unfold modify. rewrite map_fmap_singleton. reflexivity.
Qed.

(** [update_movie] with a rating the number context refuses. *)
Lemma update_rating_dynamodb_refused
    (n : string) (l : nat) (r : pyval) (e : exn) (w : world) :
  heap w !!! l = {["rating" := r]} ->
  is_float (to_decimal_value r) = false ->
  Dynamo.value_error (to_decimal_value r) = Some e ->
  exists h,
    h !!! l = {["rating" := to_decimal_value r]}
    /\ MovieProject.MovieEncyclopedia.update_movie "dynamodb" n l w
       = (Raise e, with_heap h w).
Proof.
  intros Hdata Hrepr Herror.
  destruct (update_movie_dynamodb_run n l w) as (h & Hh & Hrun).
  { rewrite Hdata. intros k x Hk.
    apply lookup_singleton_Some in Hk as [_ ->].
    cbn in Hrepr |- *. destruct (decimal_of_str (py_str (PFloat x))); [eauto|].
    discriminate Hrepr. }
  rewrite Hdata, map_fmap_singleton in Hh, Hrun.
  exists h. split; [exact Hh|]. rewrite Hrun.
  unfold Dynamo.update_item.
  destruct (serializable_rating _ Hrepr) as [-> Hrefusal].
  rewrite (Hrefusal e Herror), (accepted_error _ _ Herror). reflexivity.
Qed.

Lemma update_first_none (p : pydict -> bool) (f : pydict -> pydict) (l : list pydict) :
  existsb p l = false -> Mongo.update_first p f l = l.
Proof.
  induction l as [|d l IH]; cbn; [reflexivity|].
  intros Hl. apply orb_false_iff in Hl as [-> Hl]. rewrite IH by exact Hl. reflexivity.
Qed.

Lemma table_update_none (n : string) (update : pydict) (t : list pydict) :
  existsb (Dynamo.has_key n) t = false ->
  Dynamo.table_update n update t
  = Dynamo.table_place n (update ∪ {["name" := PStr n]}) t.
Proof. intros Ht. unfold Dynamo.table_update. rewrite Ht. reflexivity. Qed.

(** X11. [update_movie] of a rating under a name that is not stored:
    the document backend changes nothing a user observes; the key-value
    backend, when boto3 accepts the rating (a number its context
    takes), creates an item that holds the name and the rating alone,
    at its place in the order of the scan, and [get_movie_details]
    finds it; when boto3 refuses the rating, [update_movie] raises what
    boto3 raises and creates nothing. *)
Theorem update_movie_unknown_name (n : string) (update_data : nat) (r : pyval) (w : world) :
  heap w !!! update_data = {["rating" := r]} ->
  answered 2 w = true ->
  (existsb (Mongo.matches "name" (CondEq n)) (movies w) = false ->
   exists w',
     MovieProject.MovieEncyclopedia.update_movie "mongodb" n update_data w = (Ok tt, w')
     /\ observable w' = observable w)
  /\ (existsb (Dynamo.has_key n) (table w) = false ->
      is_float (to_decimal_value r) = false ->
      Dynamo.accepted (to_decimal_value r) = true ->
      let created :=
        <["rating" := Dynamo.as_attribute (to_decimal_value r)]> {["name" := PStr n]} in
      exists w' w'',
        MovieProject.MovieEncyclopedia.update_movie "dynamodb" n update_data w = (Ok tt, w')
        /\ observable w'
           = (movies w, Dynamo.table_place n created (table w),
              stdout w, dialogs w, text w)
        /\ MovieProject.MovieEncyclopedia.get_movie_details "dynamodb" n w'
           = (Ok (Some created), w''))
  /\ (forall e,
        is_float (to_decimal_value r) = false ->
        Dynamo.value_error (to_decimal_value r) = Some e ->
        exists w',
          MovieProject.MovieEncyclopedia.update_movie "dynamodb" n update_data w
            = (Raise e, w')
          /\ observable w' = observable w).
Proof.
  intros Hdata Hans. pose proof (answered_less 1 w Hans) as Hans1.
  split; [|split].
  - intros Hnone.
    destruct (update_rating_mongodb_run n update_data r w Hdata Hans1) as (h & _ & ->).
    rewrite update_first_none by exact Hnone.
    eexists. split; reflexivity.
  - intros Hnone Hrepr Hcontext created.
    destruct (update_rating_dynamodb_run n update_data r w Hdata Hrepr Hcontext Hans1)
      as (h & _ & ->).
    rewrite table_update_none by exact Hnone. rewrite set_rating_union. fold created.
    eexists _, _. split; [reflexivity|]. split; [reflexivity|].
    unfold MovieProject.MovieEncyclopedia.get_movie_details.
    change (String.eqb "dynamodb" "mongodb") with false.
    change (String.eqb "dynamodb" "dynamodb") with true. cbv iota.
    rewrite get_item_run.
    + cbn [table with_table with_faults with_heap].
      rewrite find_table_place; [reflexivity| |exact Hnone].
      unfold created. rewrite has_key_set_rating. apply has_key_name.
      apply lookup_singleton_eq.
    + eapply answered_after; [exact Hans|reflexivity].
  - intros e Hrepr Herror.
    destruct (update_rating_dynamodb_refused n update_data r e w Hdata Hrepr Herror)
      as (h & _ & ->).
    eexists. split; reflexivity.
Qed.

Lemma find_filter_out {A} (p : A -> bool) (l : list A) :
  List.find p (List.filter (fun x => negb (p x)) l) = None.
Proof.
  induction l as [|x l IH]; cbn; [reflexivity|].
  destruct (p x) eqn:Hx; cbn; [exact IH|]. rewrite Hx. exact IH.
Qed.

(** X12. On the key-value backend [get_movie_details] after
    [delete_movie] of the same name returns [None], in both files: the
    table is the one before without the items of that name. *)
Theorem delete_then_details_key_value (n : string) (w : world) :
  answered 2 w = true ->
  exists w' w2',
    (MovieProject.MovieEncyclopedia.delete_movie "dynamodb" n ;;
     MovieProject.MovieEncyclopedia.get_movie_details "dynamodb" n) w = (Ok None, w')
    /\ (Movies2.MovieEncyclopedia.delete_movie "dynamodb" n ;;
        Movies2.MovieEncyclopedia.get_movie_details "dynamodb" n) w = (Ok None, w2')
    /\ table w' = List.filter (fun d => negb (Dynamo.has_key n d)) (table w)
    /\ table w2' = table w'.
Proof.
  intros Hans. pose proof (delete_movie_dynamodb_run n w) as Hrun.
  destruct (answered_tail 1 w Hans) as [Hf Hans'].
  assert (Hok : match faults w with Some _ :: _ => False | _ => True end).
  { destruct Hf as [-> | [fs ->]]; exact I. }
  unfold bind. destruct (faults w) as [|[e|] fs] eqn:Hfaults; try contradiction;
    cbv zeta in Hrun; destruct Hrun as [-> ->];
    unfold Movies2.MovieEncyclopedia.get_movie_details,
      MovieProject.MovieEncyclopedia.get_movie_details;
    change (String.eqb "dynamodb" "mongodb") with false;
    change (String.eqb "dynamodb" "dynamodb") with true; cbv iota;
    rewrite !get_item_run by (unfold answered in *; cbn in *; rewrite ?Hfaults in *; exact Hans');
    cbn [table with_table with_faults with_stdout];
    rewrite find_filter_out; eexists _, _; repeat split; reflexivity.
Qed.

Lemma remove_first_others (p q : pydict -> bool) (l : list pydict) :
  (forall d, p d = true -> q d = false) ->
  List.filter q (Mongo.remove_first p l) = List.filter q l.
Proof.
  intros Hpq. induction l as [|d l IH]; cbn; [reflexivity|].
  destruct (p d) eqn:Hd; cbn.
  - rewrite (Hpq d Hd). reflexivity.
  - rewrite IH. reflexivity.
Qed.

Lemma remove_first_count (p : pydict -> bool) (l : list pydict) :
  length (List.filter p (Mongo.remove_first p l)) = pred (length (List.filter p l)).
Proof.
  induction l as [|d l IH]; cbn; [reflexivity|].
  destruct (p d) eqn:Hd; cbn; rewrite ?Hd; cbn; [reflexivity|exact IH].
Qed.

(** X13. [delete_movie] on the document backend, the server there: the
    number of documents with that exact name drops by one (stays zero),
    so duplicates of the name survive; the documents with other names
    stay, in their order; the table is not touched. *)
Theorem delete_movie_document_removes_one (n : string) (w : world) :
  let named := Mongo.matches "name" (CondEq n) in
  answered 1 w = true ->
  exists w' w2',
    MovieProject.MovieEncyclopedia.delete_movie "mongodb" n w = (Ok tt, w')
    /\ Movies2.MovieEncyclopedia.delete_movie "mongodb" n w = (Ok tt, w2')
    /\ movies w2' = movies w'
    /\ length (List.filter named (movies w')) = pred (length (List.filter named (movies w)))
    /\ List.filter (fun d => negb (named d)) (movies w')
       = List.filter (fun d => negb (named d)) (movies w)
    /\ table w' = table w /\ table w2' = table w.
Proof.
  intros named Hans. pose proof (delete_movie_mongodb_run n w) as Hrun.
  destruct (answered_tail 0 w Hans) as [Hf _].
  assert (Hmovies : forall w0, movies w0 = Mongo.remove_first named (movies w) ->
            length (List.filter named (movies w0)) = pred (length (List.filter named (movies w)))
            /\ List.filter (fun d => negb (named d)) (movies w0)
               = List.filter (fun d => negb (named d)) (movies w)).
  { intros w0 ->. split; [apply remove_first_count|].
    apply remove_first_others. intros d ->. reflexivity. }
  destruct (faults w) as [|[e|] fs] eqn:Hfaults;
    [| destruct Hf as [Hf | [fs' Hf]]; discriminate Hf |];
    cbv zeta in Hrun; destruct Hrun as [-> ->]; fold named;
    destruct (existsb named (movies w)); eexists _, _;
    (split; [reflexivity|]); (split; [reflexivity|]); (split; [reflexivity|]);
    (split; [apply Hmovies; reflexivity|]); (split; [apply Hmovies; reflexivity|]);
    split; reflexivity.
Qed.

Lemma keeps_table_ret {A} (a : A) : keeps_table (ret a).
Proof. intros w. reflexivity. Qed.

Lemma keeps_table_gets {A} (f : world -> A) : keeps_table (gets f).
Proof. intros w. reflexivity. Qed.

Lemma keeps_table_lift_outcome {A} (o : outcome A) : keeps_table (lift_outcome o).
Proof. intros w. reflexivity. Qed.

Lemma keeps_table_setitem (l : nat) (k : string) (v : pyval) : keeps_table (setitem l k v).
Proof. intros w. reflexivity. Qed.

Lemma keeps_table_bind {A B} (c : M world A) (k : A -> M world B) :
  keeps_table c -> (forall a, keeps_table (k a)) -> keeps_table (bind c k).
Proof.
  intros Hc Hk w. unfold bind. specialize (Hc w).
  destruct (c w) as [[a|e|] w1]; cbn in Hc |- *; [|exact Hc|exact Hc].
  rewrite Hk. exact Hc.
Qed.

Lemma keeps_table_getitem (l : nat) (k : string) : keeps_table (getitem l k).
Proof.
  apply keeps_table_bind; [apply keeps_table_gets|].
  intros d w. destruct (d !! k); reflexivity.
Qed.

Lemma keeps_table_py_in (k : string) (l : nat) : keeps_table (py_in k l).
Proof. apply keeps_table_bind; [apply keeps_table_gets|]. intros d. apply keeps_table_ret. Qed.

(** The table after [c ;; k] is related to the table before as [k]
    relates them, when [c] keeps the table. *)
Lemma bind_table {A B} (P : list pydict -> list pydict -> Prop)
    (c : M world A) (k : A -> M world B) (w : world) :
  keeps_table c ->
  (forall t, P t t) ->
  (forall a w', P (table w') (table (snd (k a w')))) ->
  P (table w) (table (snd (bind c k w))).
Proof.
  intros Hc Hrefl Hk. unfold bind. specialize (Hc w).
  destruct (c w) as [[a|e|] w1]; cbn in Hc |- *; rewrite <- Hc;
    [apply Hk|apply Hrefl|apply Hrefl].
Qed.

Lemma put_item_table (item : pydict) (w : world) :
  put_step (table w) (table (snd (Dynamo.put_item item w))).
Proof.
  unfold Dynamo.put_item. destruct (Dynamo.serializable item); [|left; reflexivity].
  unfold bind, request.
  destruct (faults w) as [|[e|] fs]; cbn; try (left; reflexivity);
    destruct (Dynamo.item_key item) as [n|] eqn:Hkey; cbn; try (left; reflexivity);
    right; exists n, (Dynamo.as_attribute <$> item);
    (split; [|reflexivity]);
    rewrite has_key_as_attribute; unfold Dynamo.has_key; rewrite Hkey;
    apply String.eqb_refl.
Qed.

Lemma add_movie_dynamodb_table (movie_data : nat) (w : world) :
  put_step (table w)
    (table (snd (MovieProject.MovieEncyclopedia.add_movie "dynamodb" movie_data w)))
  /\ put_step (table w)
       (table (snd (Movies2.MovieEncyclopedia.add_movie "dynamodb" movie_data w))).
Proof.
  unfold MovieProject.MovieEncyclopedia.add_movie, Movies2.MovieEncyclopedia.add_movie.
  change (String.eqb "dynamodb" "mongodb") with false.
  change (String.eqb "dynamodb" "dynamodb") with true. cbv iota.
  assert (Hput : forall (a : unit) w',
            put_step (table w')
              (table (snd ((item <- deref movie_data ;; Dynamo.put_item item) w')))).
  { intros _ w'. unfold bind at 1. unfold deref, gets. apply put_item_table. }
  split.
  - apply (bind_table put_step); [|left; reflexivity|exact Hput].
    apply keeps_table_bind; [apply keeps_table_py_in|]. intros has_rating.
    apply keeps_table_bind.
    + destruct has_rating; [|apply keeps_table_ret].
      apply keeps_table_bind; [apply keeps_table_getitem|]. intros r.
      apply keeps_table_ret.
    + intros [|]; [|apply keeps_table_ret].
      apply keeps_table_bind; [apply keeps_table_getitem|]. intros r.
      apply keeps_table_bind; [apply keeps_table_lift_outcome|]. intros d.
      apply keeps_table_setitem.
  - apply (bind_table put_step); [|left; reflexivity|exact Hput].
    apply keeps_table_ret.
Qed.

Lemma has_key_functional (n m : string) (d : pydict) :
  Dynamo.has_key n d = true -> Dynamo.has_key m d = true -> n = m.
Proof.
  intros Hn Hm. apply has_key_name in Hn. apply has_key_name in Hm. congruence.
Qed.

Lemma has_key_same (n m : string) (d d' : pydict) :
  Dynamo.has_key n d = true -> Dynamo.has_key n d' = true ->
  Dynamo.has_key m d' = Dynamo.has_key m d.
Proof.
  intros Hd Hd'. apply has_key_name in Hd. apply has_key_name in Hd'.
  unfold Dynamo.has_key, Dynamo.item_key. rewrite Hd, Hd'. reflexivity.
Qed.

Lemma filter_none_count {A} (p : A -> bool) (l : list A) :
  existsb p l = false -> length (List.filter p l) = 0%nat.
Proof.
  induction l as [|x l IH]; cbn; [reflexivity|].
  intros Hl. apply orb_false_iff in Hl as [-> Hl]. apply IH. exact Hl.
Qed.

Lemma filter_some_count {A} (p : A -> bool) (l : list A) :
  existsb p l = true -> (1 <= length (List.filter p l))%nat.
Proof.
  induction l as [|x l IH]; cbn; [discriminate|].
  destruct (p x); cbn; [lia|exact IH].
Qed.

Lemma table_place_count (n m : string) (item : pydict) (t : list pydict) :
  length (List.filter (Dynamo.has_key m) (Dynamo.table_place n item t))
  = (length (List.filter (Dynamo.has_key m) t)
     + if Dynamo.has_key m item then 1 else 0)%nat.
Proof.
  induction t as [|d t IH]; cbn [Dynamo.table_place List.filter].
  - destruct (Dynamo.has_key m item); reflexivity.
  - destruct (Dynamo.item_key d) as [k|]; [destruct (scan_before n k)|];
      cbn [List.filter]; destruct (Dynamo.has_key m d), (Dynamo.has_key m item) eqn:Hi;
      cbn [length]; rewrite ?IH, ?Hi; lia.
Qed.

Lemma table_replace_count (n m : string) (f : pydict -> pydict) (t : list pydict) :
  (forall d, Dynamo.has_key n d = true -> Dynamo.has_key m (f d) = Dynamo.has_key m d) ->
  length (List.filter (Dynamo.has_key m) (Dynamo.table_replace n f t))
  = length (List.filter (Dynamo.has_key m) t).
Proof.
  intros Hf. induction t as [|d t IH]; cbn [Dynamo.table_replace List.filter];
    [reflexivity|].
  destruct (Dynamo.has_key n d) eqn:Hd; cbn [List.filter].
  - rewrite (Hf d Hd). destruct (Dynamo.has_key m d); reflexivity.
  - destruct (Dynamo.has_key m d); cbn [length]; rewrite IH; reflexivity.
Qed.

Lemma table_put_count_other (n m : string) (item : pydict) (t : list pydict) :
  Dynamo.has_key n item = true ->
  Dynamo.has_key m item = false ->
  length (List.filter (Dynamo.has_key m) (Dynamo.table_put n item t))
  = length (List.filter (Dynamo.has_key m) t).
Proof.
  intros Hn Hm. unfold Dynamo.table_put.
  destruct (existsb (Dynamo.has_key n) t).
  - apply table_replace_count. intros d Hd. apply (has_key_same n); assumption.
  - rewrite table_place_count, Hm. lia.
Qed.

Lemma table_put_count_same (n : string) (item : pydict) (t : list pydict) :
  Dynamo.has_key n item = true ->
  length (List.filter (Dynamo.has_key n) (Dynamo.table_put n item t))
  = Nat.max 1 (length (List.filter (Dynamo.has_key n) t)).
Proof.
  intros Hn. unfold Dynamo.table_put.
  destruct (existsb (Dynamo.has_key n) t) eqn:Hex.
  - rewrite table_replace_count.
    + pose proof (filter_some_count _ _ Hex). lia.
    + intros d Hd. congruence.
  - rewrite table_place_count, Hn, (filter_none_count _ _ Hex). reflexivity.
Qed.

Lemma put_step_unique (t t' : list pydict) :
  put_step t t' -> one_item_per_name t -> one_item_per_name t'.
Proof.
  intros [-> | (n & item & Hn & ->)] Ht; [exact Ht|].
  intros m. specialize (Ht m). destruct (Dynamo.has_key m item) eqn:Hm.
  - rewrite (has_key_functional _ _ _ Hm Hn) in *.
    rewrite table_put_count_same by exact Hn. lia.
  - rewrite table_put_count_other by assumption. exact Ht.
Qed.

Lemma has_key_union (m : string) (update d : pydict) :
  update !! "name" = None ->
  Dynamo.has_key m (update ∪ d) = Dynamo.has_key m d.
Proof.
  intros Hu. unfold Dynamo.has_key, Dynamo.item_key.
  rewrite lookup_union_r by exact Hu. reflexivity.
Qed.

Lemma table_update_count (n m : string) (update : pydict) (t : list pydict) :
  update !! "name" = None ->
  length (List.filter (Dynamo.has_key m) (Dynamo.table_update n update t))
  = (length (List.filter (Dynamo.has_key m) t)
     + if existsb (Dynamo.has_key n) t then 0
       else if String.eqb n m then 1 else 0)%nat.
Proof.
  intros Hu. unfold Dynamo.table_update.
  destruct (existsb (Dynamo.has_key n) t).
  - rewrite table_replace_count; [lia|].
    intros d _. apply has_key_union. exact Hu.
  - rewrite table_place_count, has_key_union by exact Hu.
    unfold Dynamo.has_key, Dynamo.item_key. rewrite lookup_singleton_eq. reflexivity.
Qed.

Lemma table_update_unique (n : string) (update : pydict) (t : list pydict) :
  update !! "name" = None ->
  one_item_per_name t -> one_item_per_name (Dynamo.table_update n update t).
Proof.
  intros Hu Ht m. rewrite table_update_count by exact Hu. specialize (Ht m).
  destruct (existsb (Dynamo.has_key n) t) eqn:Hex; [lia|].
  destruct (String.eqb_spec n m) as [<-|]; [|lia].
  rewrite filter_none_count by exact Hex. lia.
Qed.

Lemma filter_filter_count {A} (p q : A -> bool) (l : list A) :
  (length (List.filter p (List.filter q l)) <= length (List.filter p l))%nat.
Proof.
  induction l as [|x l IH]; cbn; [lia|].
  destruct (q x), (p x) eqn:Hp; cbn; rewrite ?Hp; cbn; lia.
Qed.

Lemma update_item_table (n : string) (update : pydict) (w : world) :
  table (snd (Dynamo.update_item n update w)) = table w
  \/ table (snd (Dynamo.update_item n update w))
     = Dynamo.table_update n (Dynamo.as_attribute <$> update) (table w).
Proof.
  unfold Dynamo.update_item. destruct (Dynamo.serializable update); [|left; reflexivity].
  unfold bind, request. destruct (faults w) as [|[e|] fs]; cbn; auto.
Qed.

(** X14. A table with at most one item per name stays so under
    [add_movie], under [update_movie] of a rating and under
    [delete_movie] on the key-value backend, in both files and however
    the call ends. *)
Theorem key_value_names_stay_unique (n : string) (data : nat) (w : world) :
  one_item_per_name (table w) ->
  let after (run : M world unit) := table (snd (run w)) in
  one_item_per_name (after (MovieProject.MovieEncyclopedia.add_movie "dynamodb" data))
  /\ one_item_per_name (after (Movies2.MovieEncyclopedia.add_movie "dynamodb" data))
  /\ (forall r,
        heap w !!! data = {["rating" := r]} ->
        is_float (to_decimal_value r) = false ->
        one_item_per_name
          (after (MovieProject.MovieEncyclopedia.update_movie "dynamodb" n data))
        /\ one_item_per_name
             (after (Movies2.MovieEncyclopedia.update_movie "dynamodb" n data)))
  /\ one_item_per_name (after (MovieProject.MovieEncyclopedia.delete_movie "dynamodb" n))
  /\ one_item_per_name (after (Movies2.MovieEncyclopedia.delete_movie "dynamodb" n)).
Proof.
  intros Ht after. subst after. cbv beta.
  destruct (add_movie_dynamodb_table data w) as [Hadd Hadd2].
  split; [exact (put_step_unique _ _ Hadd Ht)|].
  split; [exact (put_step_unique _ _ Hadd2 Ht)|].
  split; [|].
  - intros r Hdata Hrepr.
    assert (Hupdate : one_item_per_name
              (table (snd (MovieProject.MovieEncyclopedia.update_movie "dynamodb" n data w)))).
    { destruct (update_movie_dynamodb_run n data w) as (h & _ & ->).
      { rewrite Hdata. intros k x Hk.
        apply lookup_singleton_Some in Hk as [_ ->].
        cbn in Hrepr |- *. destruct (decimal_of_str (py_str (PFloat x))); [eauto|].
        discriminate Hrepr. }
      destruct (update_item_table n (to_decimal_value <$> heap w !!! data) (with_heap h w))
        as [-> | ->]; [exact Ht|].
      apply table_update_unique; [|exact Ht].
      rewrite Hdata, !map_fmap_singleton. apply lookup_singleton_ne. discriminate. }
    split; exact Hupdate.
  - pose proof (delete_movie_dynamodb_run n w) as Hrun. cbv zeta in Hrun.
    destruct (faults w) as [|[e|] fs]; destruct Hrun as [-> ->];
      cbn [snd table with_table with_stdout with_faults];
      split; try exact Ht; intros m; (etransitivity; [apply filter_filter_count|apply Ht]).
Qed.

Lemma assign_ids_run (ds : list pydict) (w : world) :
  Forall (fun d => d !! "_id" = None) ds ->
  Mongo.assign_ids ds w
  = (Ok (with_ids (next_oid w) ds), with_next_oid (next_oid w + length ds) w).
Proof.
  revert w. induction ds as [|d ds IH]; intros w Hds.
  - cbn. unfold ret. rewrite Nat.add_0_r. destruct w; reflexivity.
  - inversion Hds as [|? ? Hd Hds']; subst.
    cbn [Mongo.assign_ids with_ids length]. unfold bind at 1.
    unfold Mongo.assign_id. rewrite Hd.
    unfold bind at 1. unfold gets at 1. unfold bind at 1. unfold modify at 1.
    unfold ret at 1. unfold bind at 1. rewrite IH by exact Hds'.
    unfold ret. cbn [next_oid with_next_oid].
    replace (S (next_oid w) + length ds)%nat with (next_oid w + S (length ds))%nat by lia.
    reflexivity.
Qed.

Lemma to_record_no_id (r : frame_row) : to_record r !! "_id" = None.
Proof. unfold to_record. rewrite !lookup_insert_ne by discriminate. apply lookup_empty. Qed.

Lemma records_no_id (rows : list frame_row) :
  Forall (fun d => d !! "_id" = None) (map to_record rows).
Proof.
  induction rows as [|r rows IH]; cbn; constructor; [apply to_record_no_id|exact IH].
Qed.

Lemma cell_not_Decimal (c : cell) : is_Decimal (cell_value c) = false.
Proof. destruct c; reflexivity. Qed.

Lemma to_record_encodable (r : frame_row) (n : nat) :
  Mongo.encodable (<["_id" := PObjectId n]> (to_record r)) = true.
Proof.
  unfold Mongo.encodable, to_record. apply bool_decide_eq_true.
  repeat (apply map_Forall_insert_2; [first [reflexivity|apply cell_not_Decimal]|]).
  apply map_Forall_empty.
Qed.

Lemma with_ids_records_encodable (rows : list frame_row) (n : nat) :
  forallb Mongo.encodable (with_ids n (map to_record rows)) = true.
Proof.
  revert n. induction rows as [|r rows IH]; intros n; cbn; [reflexivity|].
  rewrite to_record_encodable, IH. reflexivity.
Qed.

Lemma with_ids_length (n : nat) (ds : list pydict) : length (with_ids n ds) = length ds.
Proof. revert n. induction ds as [|d ds IH]; intros n; cbn; [|rewrite IH]; reflexivity. Qed.

Lemma with_ids_lookup (n i : nat) (ds : list pydict) :
  with_ids n ds !! i = (fun d => <["_id" := PObjectId (n + i)]> d) <$> ds !! i.
Proof.
  revert n i. induction ds as [|d ds IH]; intros n [|i]; cbn; try reflexivity.
  - rewrite Nat.add_0_r. reflexivity.
  - rewrite IH. replace (S n + i)%nat with (n + S i)%nat by lia. reflexivity.
Qed.

Lemma load_mongodb_unfold (file : list csv_row) (w : world) :
  MovieProject.MovieEncyclopedia.load_movies_from_csv "mongodb" file w
  = (Mongo.drop ;; Mongo.insert_many (map to_record (map split_columns file))) w.
Proof.
  unfold MovieProject.MovieEncyclopedia.load_movies_from_csv.
  change (String.eqb "mongodb" "mongodb") with true.
  change (String.eqb "mongodb" "dynamodb") with false. cbv iota zeta.
  unfold bind. destruct (Mongo.drop w) as [[[]|e|] w1]; try reflexivity.
  destruct (Mongo.insert_many _ w1) as [[[]|e|] w2]; reflexivity.
Qed.

Lemma split_text_cases (c : option cell) :
  (exists s, c = Some (CellStr s) /\ split_text c = Ok s)
  \/ (exists e, split_text c = Raise e /\ exn_type e = AttributeError).
Proof. destruct c as [[s|z|x]|]; cbn; eauto. Qed.

Lemma traverse_cases {A B} (f : A -> outcome B) (l : list A) :
  (forall x, In x l ->
     (exists y, f x = Ok y) \/ (exists e, f x = Raise e /\ exn_type e = AttributeError)) ->
  (exists ys, traverse f l = Ok ys /\ forall x, In x l -> exists y, f x = Ok y)
  \/ (exists e, traverse f l = Raise e /\ exn_type e = AttributeError).
Proof.
  induction l as [|x l IH]; intros Hf; cbn [traverse].
  - left. exists []. split; [reflexivity|]. intros x [].
  - destruct (Hf x (or_introl eq_refl)) as [[y Hy]|[e [He Hc]]].
    + rewrite Hy. cbn [obind].
      destruct IH as [(ys & -> & Hall)|(e & -> & Hc)].
      * intros x' Hx'. apply Hf. right. exact Hx'.
      * left. exists (y :: ys). split; [reflexivity|].
        intros x' [<-|Hx']; [eauto|apply Hall, Hx'].
      * right. exists e. split; [reflexivity|exact Hc].
    + right. exists e. rewrite He. split; [reflexivity|exact Hc].
Qed.

(** [text_rows] gives the rows when every cell of the three delimited
    columns is text, and [AttributeError] otherwise. *)
Lemma text_rows_cases (df : list read_row) :
  (exists file,
     text_rows df = Ok file
     /\ forall r c, In r df -> In c [read_casts r; read_directors r; read_genre r] ->
          exists s, c = Some (CellStr s))
  \/ (exists e, text_rows df = Raise e /\ exn_type e = AttributeError).
Proof.
  unfold text_rows.
  destruct (traverse_cases (fun r => split_text (read_casts r)) df)
    as [(cs & -> & Hcasts)|(e & -> & He)];
    [intros r _; destruct (split_text_cases (read_casts r)) as [(s & _ & Hs)|Hs]; eauto
    | |right; eauto].
  cbn [obind].
  destruct (traverse_cases (fun r => split_text (read_directors r)) df)
    as [(ds & -> & Hdirectors)|(e & -> & He)];
    [intros r _; destruct (split_text_cases (read_directors r)) as [(s & _ & Hs)|Hs]; eauto
    | |right; eauto].
  cbn [obind].
  match goal with |- context [traverse ?f df] =>
    destruct (traverse_cases f df) as [(file & -> & Hgenre)|(e & -> & He)] end.
  - intros r Hr.
    destruct (split_text_cases (read_genre r)) as [(g & _ & ->)|(e & -> & He)];
      [|right; eauto].
    destruct (Hcasts r Hr) as [c ->]. destruct (Hdirectors r Hr) as [d ->].
    left. cbn [obind]. eauto.
  - left. exists file. split; [reflexivity|].
    intros r c Hr Hc.
    assert (Htext : forall c', (exists y, split_text c' = Ok y) ->
                               exists s, c' = Some (CellStr s)).
    { intros c' [y Hy].
      destruct (split_text_cases c') as [(s & -> & _)|(e & He & _)]; [eauto|congruence]. }
    destruct Hc as [<-|[<-|[<-|[]]]]; apply Htext.
    + apply Hcasts, Hr.
    + apply Hdirectors, Hr.
    + destruct (Hgenre r Hr) as [y Hy].
      destruct (split_text (read_genre r)) as [g|e|]; [eauto|discriminate Hy..].
  - right. eauto.
Qed.

(** X15. The bulk load of the data frame [pd.read_csv] returns.  When a
    cell of the columns [casts], [directors] or [genre] is not text,
    as an empty cell is not, the split raises [AttributeError] before
    anything else is done: nothing is dropped, whatever the backend.
    When these columns hold text in every row, there is at least one
    row and no other cell is empty, the load into the document backend,
    the server there, leaves in the collection one document per row, in
    the order of the file, each with the next fresh [_id], the three
    columns split, and every other cell as [pd.read_csv] typed it, a
    number of a column of whole numbers as an [int] and of another as a
    float; what was stored before is gone; the table is not touched. *)
Theorem bulk_load_replaces_collection (df : list read_row) (w : world) :
  (forall db_choice r c,
     In r df ->
     In c [read_casts r; read_directors r; read_genre r] ->
     (forall s, c <> Some (CellStr s)) ->
     exists e,
       MovieProject.MovieEncyclopedia.load_movies_from_frame db_choice df w = (Raise e, w)
       /\ Movies2.MovieEncyclopedia.load_movies_from_frame db_choice df w = (Raise e, w)
       /\ exn_type e = AttributeError)
  /\ (forall file,
        text_rows df = Ok file ->
        file <> [] ->
        answered 2 w = true ->
        exists w',
          MovieProject.MovieEncyclopedia.load_movies_from_frame "mongodb" df w = (Ok tt, w')
          /\ MovieProject.MovieEncyclopedia.load_movies_from_csv "mongodb" file w
             = (Ok tt, w')
          /\ Movies2.MovieEncyclopedia.load_movies_from_csv "mongodb" file w = (Ok tt, w')
          /\ movies w' = with_ids (next_oid w) (map to_record (map split_columns file))
          /\ length (movies w') = length file
          /\ (forall i r, file !! i = Some r ->
                movies w' !! i
                = Some (<["_id" := PObjectId (next_oid w + i)]>
                          (to_record (split_columns r))))
          /\ table w' = table w).
Proof.
  split.
  - intros db_choice r c Hr Hc Hnot.
    destruct (text_rows_cases df) as [(file & _ & Htext)|(e & He & Hclass)].
    + destruct (Htext r c Hr Hc) as [s Hs]. destruct (Hnot s Hs).
    + exists e. unfold Movies2.MovieEncyclopedia.load_movies_from_frame,
        MovieProject.MovieEncyclopedia.load_movies_from_frame.
      unfold bind, lift_outcome. rewrite He. repeat split. exact Hclass.
  - intros file Htext Hfile Hans.
    assert (Hrun : MovieProject.MovieEncyclopedia.load_movies_from_csv "mongodb" file w
              = (Ok tt,
                 with_movies (with_ids (next_oid w) (map to_record (map split_columns file)))
                   (with_faults (tl (tl (faults w)))
                      (with_next_oid (next_oid w + length file) w)))).
    { rewrite load_mongodb_unfold. unfold bind at 1. unfold Mongo.drop. unfold bind at 1.
      destruct (request_answered 1 w Hans) as [-> Hans1]. unfold modify at 1.
      unfold Mongo.insert_many.
      destruct (map to_record (map split_columns file)) as [|d ds] eqn:Hds.
      { destruct file; [contradiction|discriminate]. }
      rewrite <- Hds. unfold bind at 1. rewrite assign_ids_run.
      2: { apply records_no_id. }
      unfold bind at 1.
      match goal with |- context [request ?w1] =>
        destruct (request_answered 0 w1) as [-> _]; [exact Hans1|] end.
      cbn [next_oid with_movies with_faults with_next_oid].
      rewrite with_ids_records_encodable. unfold modify.
      rewrite !length_map. reflexivity. }
    eexists. split; [|split; [exact Hrun|split; [exact Hrun|]]].
    { unfold MovieProject.MovieEncyclopedia.load_movies_from_frame.
      unfold bind at 1. unfold lift_outcome. rewrite Htext. exact Hrun. }
    cbn [movies with_movies table with_faults with_next_oid].
    split; [reflexivity|]. split; [rewrite with_ids_length, !length_map; reflexivity|].
    split; [|reflexivity].
    intros i r Hi. rewrite with_ids_lookup, !list_lookup_fmap, Hi. reflexivity.
Qed.

(** X16. A bulk load that fails after the collection was dropped leaves
    it empty: a file without rows ends in the [TypeError] of
    [insert_many], and a refused insert ends in the exception of the
    backend. *)
Theorem bulk_load_failure_empties_collection (file : list csv_row) (w : world) :
  answered 1 w = true ->
  (file = [] ->
   exists e w',
     MovieProject.MovieEncyclopedia.load_movies_from_csv "mongodb" file w = (Raise e, w')
     /\ exn_type e = TypeError /\ movies w' = [])
  /\ (forall e fs,
        file <> [] ->
        faults w = None :: Some e :: fs ->
        exists w',
          MovieProject.MovieEncyclopedia.load_movies_from_csv "mongodb" file w = (Raise e, w')
          /\ movies w' = [] /\ faults w' = fs).
Proof.
  intros Hans. split.
  - intros ->. rewrite load_mongodb_unfold. unfold bind at 1. unfold Mongo.drop.
    unfold bind at 1. destruct (request_answered 0 w Hans) as [-> _].
    unfold modify at 1. cbn [map Mongo.insert_many]. unfold raise.
    eexists _, _. split; [reflexivity|]. split; reflexivity.
  - intros e fs Hfile Hf. rewrite load_mongodb_unfold. unfold bind at 1. unfold Mongo.drop.
    unfold bind at 1. destruct (request_answered 0 w Hans) as [-> _].
    unfold modify at 1. unfold Mongo.insert_many.
    destruct (map to_record (map split_columns file)) as [|d ds] eqn:Hds.
    { destruct file; [contradiction|discriminate]. }
    rewrite <- Hds. unfold bind at 1. rewrite assign_ids_run.
    2: { apply records_no_id. }
    unfold bind at 1.
    match goal with |- context [request ?w1] =>
      rewrite (request_refused e fs w1) by (cbn; rewrite Hf; reflexivity) end.
    eexists. split; [reflexivity|]. split; reflexivity.
Qed.

Lemma eqb_other (a b : string) : a <> b -> String.eqb a b = false.
Proof. intros Hab. apply String.eqb_neq. exact Hab. Qed.

(** X17. With a backend name other than ['mongodb'] and ['dynamodb']
    every operation of the facade returns at once ([[]] or [None] where
    it returns a value) and changes nothing; the form nevertheless
    reports [Deleted movie: name] and [Added movie: name], and shows
    [No movies found.] and [Movie not found.] *)
Theorem unknown_backend_does_nothing
    (db_choice key value name : string) (data : nat) (file : list csv_row)
    (fields : form) (w : world) :
  db_choice <> "mongodb" ->
  db_choice <> "dynamodb" ->
  let shown s := with_text [s] w in
  let appended s := with_text (text w ++ [s]) w in
  (MovieProject.MovieEncyclopedia.load_movies_from_csv db_choice file w = (Ok tt, w)
   /\ MovieProject.MovieEncyclopedia.add_movie db_choice data w = (Ok tt, w)
   /\ Movies2.MovieEncyclopedia.add_movie db_choice data w = (Ok tt, w)
   /\ MovieProject.MovieEncyclopedia.update_movie db_choice name data w = (Ok tt, w)
   /\ MovieProject.MovieEncyclopedia.delete_movie db_choice name w = (Ok tt, w)
   /\ Movies2.MovieEncyclopedia.delete_movie db_choice name w = (Ok tt, w)
   /\ MovieProject.MovieEncyclopedia.find_movies db_choice key value w = (Ok [], w)
   /\ Movies2.MovieEncyclopedia.find_movies db_choice key value w = (Ok [], w)
   /\ MovieProject.MovieEncyclopedia.perform_search db_choice key value w = (Ok [], w)
   /\ MovieProject.MovieEncyclopedia.get_movie_details db_choice name w = (Ok None, w))
  /\ (MovieProject.MovieEncyclopediaGUI.perform_search db_choice key value w
      = (Ok tt, shown "No movies found.
")
      /\ Movies2.MovieEncyclopediaGUI.perform_search db_choice key value w
         = (Ok tt, shown "No movies found.
")
      /\ MovieProject.MovieEncyclopediaGUI.get_movie_details db_choice name w
         = (Ok tt, shown "Movie not found.
")
      /\ MovieProject.MovieEncyclopediaGUI.delete_movie db_choice fields w
         = (Ok tt, appended ("Deleted movie: " ++ movie_name_entry fields ++ "
"))
      /\ Movies2.MovieEncyclopediaGUI.delete_movie db_choice fields w
         = (Ok tt, appended ("Deleted movie: " ++ movie_name_entry fields ++ "
")))
  /\ (forall x,
        movie_name_entry fields <> "" ->
        rating_entry fields <> "" ->
        decimal_of_str (rating_entry fields) = Some x ->
        stripped_nonempty (split_on "," (genre_entry fields)) <> [] ->
        exists w' w2',
          MovieProject.MovieEncyclopediaGUI.add_movie db_choice fields w = (Ok tt, w')
          /\ Movies2.MovieEncyclopediaGUI.add_movie db_choice fields w = (Ok tt, w2')
          /\ observable w'
             = observable (appended ("Added movie: " ++ movie_name_entry fields ++ "
"))
          /\ observable w2' = observable w').
Proof.
  intros Hm Hd shown appended.
  assert (Hfacade : forall name key value w,
    MovieProject.MovieEncyclopedia.load_movies_from_csv db_choice file w = (Ok tt, w)
    /\ (forall l, MovieProject.MovieEncyclopedia.add_movie db_choice l w = (Ok tt, w))
    /\ (forall l, Movies2.MovieEncyclopedia.add_movie db_choice l w = (Ok tt, w))
    /\ MovieProject.MovieEncyclopedia.update_movie db_choice name data w = (Ok tt, w)
    /\ MovieProject.MovieEncyclopedia.delete_movie db_choice name w = (Ok tt, w)
    /\ Movies2.MovieEncyclopedia.delete_movie db_choice name w = (Ok tt, w)
    /\ MovieProject.MovieEncyclopedia.find_movies db_choice key value w = (Ok [], w)
    /\ Movies2.MovieEncyclopedia.find_movies db_choice key value w = (Ok [], w)
    /\ MovieProject.MovieEncyclopedia.perform_search db_choice key value w = (Ok [], w)
    /\ MovieProject.MovieEncyclopedia.get_movie_details db_choice name w = (Ok None, w)).
  { intros name0 key0 value0 w0.
    unfold MovieProject.MovieEncyclopedia.load_movies_from_csv,
      MovieProject.MovieEncyclopedia.add_movie, Movies2.MovieEncyclopedia.add_movie,
      MovieProject.MovieEncyclopedia.update_movie,
      MovieProject.MovieEncyclopedia.delete_movie, Movies2.MovieEncyclopedia.delete_movie,
      MovieProject.MovieEncyclopedia.find_movies, Movies2.MovieEncyclopedia.find_movies,
      MovieProject.MovieEncyclopedia.perform_search,
      MovieProject.MovieEncyclopedia.get_movie_details.
    rewrite (eqb_other _ _ Hm), (eqb_other _ _ Hd). cbv zeta.
    repeat split; reflexivity. }
  split; [|split].
  - destruct (Hfacade name key value w)
      as (Hload & Hadd & Hadd2 & Hupdate & Hdelete & Hdelete2 & Hfind
          & Hfind2 & Hsearch & Hget).
    repeat split; auto.
  - destruct (Hfacade (movie_name_entry fields) key value w)
      as (_ & _ & _ & _ & Hdelete & Hdelete2 & Hfind & Hfind2 & _ & _).
    destruct (Hfacade name key value w) as (_ & _ & _ & _ & _ & _ & _ & _ & _ & Hget).
    unfold MovieProject.MovieEncyclopediaGUI.perform_search,
      Movies2.MovieEncyclopediaGUI.perform_search,
      MovieProject.MovieEncyclopediaGUI.get_movie_details,
      MovieProject.MovieEncyclopediaGUI.delete_movie,
      Movies2.MovieEncyclopediaGUI.delete_movie.
    unfold bind. rewrite Hfind, Hfind2, Hget, Hdelete, Hdelete2.
    repeat split; reflexivity.
  - intros x Hname Hrating Hparse Hgenres.
    destruct (form_add_movie_run db_choice fields x w Hname Hrating Hparse Hgenres)
      as [-> ->].
    unfold bind, alloc.
    match goal with |- context [MovieProject.MovieEncyclopedia.add_movie _ ?l ?w0] =>
      destruct (Hfacade name key value w0) as (_ & Hadd & _); rewrite (Hadd l) end.
    match goal with |- context [Movies2.MovieEncyclopedia.add_movie _ ?l ?w0] =>
      destruct (Hfacade name key value w0) as (_ & _ & Hadd2 & _); rewrite (Hadd2 l) end.
    eexists _, _. repeat split; reflexivity.
Qed.

(** What [find_movies] of movieproject.py returns from the key-value
    backend when every page is answered: the items that pass the filter,
    sorted and cut when the sort key of each can be computed, and as the
    scan found them when not. *)
Lemma find_movies_dynamodb_result (key value : string) (w : world) :
  answered (S (length (table w))) w = true ->
  let found := List.filter (Dynamo.contains key value) (table w) in
  fst (MovieProject.MovieEncyclopedia.find_movies "dynamodb" key value w)
  = Ok match py_sorted_reverse rating_key found with
       | Ok sorted => firstn 20 sorted
       | _ => found
       end.
Proof.
  intros Hans found.
  destruct (scan_pages_complete (S (length (table w))) key value None None [] w)
    as (w' & Hrun & Htab & Hout); [cbn; lia|cbn; lia|exact Hans|].
  cbn [default from_option app] in Hrun. unfold id in Hrun. rewrite skipn_0 in Hrun.
  fold found in Hrun.
  unfold MovieProject.MovieEncyclopedia.find_movies.
  change (String.eqb "dynamodb" "mongodb") with false.
  change (String.eqb "dynamodb" "dynamodb") with true. cbv iota.
  unfold with_local, try_except.
  unfold bind at 1. unfold lift at 1, gets at 1. cbn [fst snd].
  unfold bind at 1. rewrite Hrun.
  unfold bind at 1. unfold get_local at 1, gets at 1. cbn [fst].
  unfold bind at 1. unfold lift_outcome at 1.
  pose proof (py_sorted_reverse_returns rating_key found rating_key_returns) as Hs.
  destruct (py_sorted_reverse rating_key found) as [sorted|e|]; [| |congruence].
  - reflexivity.
  - rewrite issubclass_Exception. reflexivity.
Qed.

(** X18. What [find_movies] of movieproject.py returns from the
    key-value backend does not depend on the page size of the scan, when
    every page is answered: the loop over [LastEvaluatedKey] collects
    all pages. *)
Theorem find_movies_ignores_page_size (key value : string) (limit : positive) (w : world) :
  answered (S (length (table w))) w = true ->
  fst (MovieProject.MovieEncyclopedia.find_movies "dynamodb" key value
         (with_scan_limit limit w))
  = fst (MovieProject.MovieEncyclopedia.find_movies "dynamodb" key value w).
Proof.
  intros Hans.
  rewrite (find_movies_dynamodb_result key value w Hans).
  rewrite (find_movies_dynamodb_result key value (with_scan_limit limit w) Hans).
  reflexivity.
Qed.

Lemma scan_one_page (key value : string) (w : world) :
  (length (table w) <= Pos.to_nat (scan_limit w))%nat ->
  answered 1 w = true ->
  Dynamo.scan key value None w
  = (Ok (List.filter (Dynamo.contains key value) (table w), None),
     with_faults (tl (faults w)) w).
Proof.
  intros Hfit Hans. rewrite scan_run. cbv zeta.
  destruct (answered_tail 0 w Hans) as [Hf _].
  assert (Hpage : scan_page w 0 = table w).
  { unfold scan_page. rewrite skipn_0. apply firstn_all2. exact Hfit. }
  cbn [default from_option]. unfold id. rewrite Hpage. cbn [Nat.add].
  rewrite Nat.ltb_irrefl, andb_false_r.
  destruct Hf as [-> | [fs ->]]; reflexivity.
Qed.

(** X19. [perform_search] of the facade, on a table that fits in one
    page of the scan: it is [find_movies] of movies2.py, it agrees with
    [find_movies] of movieproject.py when the rating of every item found
    converts to a float, and otherwise raises where [find_movies]
    returns the items as the scan found them. *)
Theorem perform_search_one_page (key value : string) (w : world) :
  (length (table w) <= Pos.to_nat (scan_limit w))%nat ->
  answered 1 w = true ->
  let found := List.filter (Dynamo.contains key value) (table w) in
  MovieProject.MovieEncyclopedia.perform_search "dynamodb" key value w
  = Movies2.MovieEncyclopedia.find_movies "dynamodb" key value w
  /\ (forallb has_float_rating found = true ->
      MovieProject.MovieEncyclopedia.perform_search "dynamodb" key value w
      = MovieProject.MovieEncyclopedia.find_movies "dynamodb" key value w)
  /\ (forallb has_float_rating found = false ->
      exists e w',
        MovieProject.MovieEncyclopedia.perform_search "dynamodb" key value w = (Raise e, w')
        /\ fst (MovieProject.MovieEncyclopedia.find_movies "dynamodb" key value w)
           = Ok found
        /\ observable w' = observable w).
Proof.
  intros Hfit Hans found. split; [reflexivity|].
  assert (Hfind : MovieProject.MovieEncyclopedia.find_movies "dynamodb" key value w
            = match py_sorted_reverse rating_key found with
              | Ok sorted => (Ok (firstn 20 sorted), with_faults (tl (faults w)) w)
              | Raise e =>
                  (Ok found,
                   with_stdout (stdout w ++ ["Error scanning DynamoDB: " ++ exn_msg e])
                     (with_faults (tl (faults w)) w))
              | Diverge => (Diverge, with_faults (tl (faults w)) w)
              end).
  { unfold MovieProject.MovieEncyclopedia.find_movies.
    change (String.eqb "dynamodb" "mongodb") with false.
    change (String.eqb "dynamodb" "dynamodb") with true. cbv iota.
    unfold with_local, try_except.
    unfold bind at 1. unfold lift at 1, gets at 1. cbn [fst snd].
    cbn [MovieProject.MovieEncyclopedia.scan_pages].
    unfold bind at 1. unfold bind at 1. unfold lift at 1. cbn [fst snd].
    rewrite (scan_one_page key value w Hfit Hans). fold found.
    unfold bind at 1. unfold get_local at 1, gets at 1. cbn [fst snd].
    unfold bind at 1. unfold set_local at 1, modify at 1. cbn [fst snd app].
    unfold ret at 1.
    unfold bind at 1. unfold get_local at 1, gets at 1. cbn [fst].
    unfold bind at 1. unfold lift_outcome at 1.
    destruct (py_sorted_reverse rating_key found) as [sorted|e|]; try reflexivity.
    rewrite issubclass_Exception. reflexivity. }
  assert (Hsearch : MovieProject.MovieEncyclopedia.perform_search "dynamodb" key value w
            = match py_sorted_reverse rating_key found with
              | Ok sorted => (Ok (firstn 20 sorted), with_faults (tl (faults w)) w)
              | Raise e => (Raise e, with_faults (tl (faults w)) w)
              | Diverge => (Diverge, with_faults (tl (faults w)) w)
              end).
  { unfold MovieProject.MovieEncyclopedia.perform_search.
    change (String.eqb "dynamodb" "mongodb") with false.
    change (String.eqb "dynamodb" "dynamodb") with true. cbv iota.
    unfold bind at 1. rewrite (scan_one_page key value w Hfit Hans). fold found.
    cbn [fst]. unfold bind, lift_outcome, ret.
    destruct (py_sorted_reverse rating_key found); reflexivity. }
  split.
  - intros Hkeys. rewrite Hfind, Hsearch.
    destruct (py_sorted_reverse_ok _ Hkeys) as [sorted ->]. reflexivity.
  - intros Hkeys. rewrite Hfind, Hsearch.
    destruct (py_sorted_reverse_raises _ Hkeys) as [e ->].
    eexists _, _. repeat split; reflexivity.
Qed.

(** The loop that writes one line per movie into the result field. *)
Lemma render_lines (line_of : pydict -> outcome string) (results : list pydict)
    (lines : list string) (w : world) :
  traverse line_of results = Ok lines ->
  for_each results (fun movie => line <- lift_outcome (line_of movie) ;; text_insert line) w
  = (Ok tt, with_text (text w ++ lines) w).
Proof.
  revert lines w. induction results as [|m results IH]; intros lines w Hlines.
  - cbn in Hlines. injection Hlines as <-. cbn. unfold ret.
    rewrite app_nil_r. destruct w; reflexivity.
  - cbn in Hlines. destruct (line_of m) as [line| |] eqn:Hm; try discriminate.
    cbn in Hlines. destruct (traverse line_of results) as [rest| |] eqn:Hrest;
      try discriminate.
    cbn in Hlines. injection Hlines as <-.
    cbn [for_each]. unfold bind at 1. unfold bind at 1. unfold lift_outcome at 1.
    rewrite Hm. unfold text_insert at 1, modify at 1.
    rewrite (IH rest) by reflexivity. cbn [text with_text].
    rewrite <- app_assoc. reflexivity.
Qed.

Lemma traverse_each {A B} (f : A -> outcome B) (l : list A) (l' : list B) :
  traverse f l = Ok l' -> Forall2 (fun x y => f x = Ok y) l l'.
Proof.
  revert l'. induction l as [|x l IH]; intros l' Hl; cbn in Hl.
  - injection Hl as <-. constructor.
  - destruct (f x) as [y| |] eqn:Hx; try discriminate. cbn in Hl.
    destruct (traverse f l) as [ys| |]; try discriminate. cbn in Hl.
    injection Hl as <-. constructor; [exact Hx|apply IH; reflexivity].
Qed.

Lemma search_lines_exist (results : list pydict) :
  Forall (fun m : pydict => is_Some (m !! "name")) results ->
  exists lines, traverse search_line results = Ok lines.
Proof.
  induction 1 as [|m results [v Hm] _ [lines IH]]; cbn; [eauto|].
  unfold search_line at 1, shown_name. rewrite Hm. cbn. rewrite IH. cbn. eauto.
Qed.

(** X20. [perform_search] of the form, in both files: the result field
    is emptied and then holds [No movies found.] for an empty result and
    otherwise one line per result, in order, when every result has a
    name; when [find_movies] raises, the exception goes on and the field
    is not touched. *)
Theorem form_perform_search_shows
    (db_choice key value : string) (results : list pydict) (w w1 : world) :
  let show (found : list pydict) (after : world) (run : outcome unit * world) :=
    match found with
    | [] => run = (Ok tt, with_text ["No movies found.
"] after)
    | _ =>
        Forall (fun m : pydict => is_Some (m !! "name")) found ->
        exists lines,
          run = (Ok tt, with_text lines after)
          /\ Forall2 (fun m line => search_line m = Ok line) found lines
    end in
  (MovieProject.MovieEncyclopedia.find_movies db_choice key value w = (Ok results, w1) ->
   show results w1 (MovieProject.MovieEncyclopediaGUI.perform_search db_choice key value w))
  /\ (Movies2.MovieEncyclopedia.find_movies db_choice key value w = (Ok results, w1) ->
      show results w1 (Movies2.MovieEncyclopediaGUI.perform_search db_choice key value w))
  /\ (forall e,
        MovieProject.MovieEncyclopedia.find_movies db_choice key value w = (Raise e, w1) ->
        MovieProject.MovieEncyclopediaGUI.perform_search db_choice key value w
        = (Raise e, w1))
  /\ (forall e,
        Movies2.MovieEncyclopedia.find_movies db_choice key value w = (Raise e, w1) ->
        Movies2.MovieEncyclopediaGUI.perform_search db_choice key value w = (Raise e, w1)).
Proof.
  intros show.
  assert (Hshow : forall find : M world (list pydict),
            find w = (Ok results, w1) ->
            show results w1
              ((found <- find ;;
                text_clear ;;
                match found with
                | [] => text_insert "No movies found.
"
                | _ =>
                    for_each found (fun movie =>
                      line <- lift_outcome (search_line movie) ;; text_insert line)
                end) w)).
  { intros find Hfind. unfold bind at 1. rewrite Hfind.
    unfold bind at 1. unfold text_clear, modify at 1.
    unfold show. destruct results as [|m results]; [reflexivity|].
    intros Hnames. destruct (search_lines_exist _ Hnames) as [lines Hlines].
    exists lines. split; [|apply traverse_each; exact Hlines].
    rewrite (render_lines _ _ lines) by exact Hlines. reflexivity. }
  split; [|split; [|split]].
  - intros Hfind. exact (Hshow _ Hfind).
  - intros Hfind. exact (Hshow _ Hfind).
  - intros e Hfind. unfold MovieProject.MovieEncyclopediaGUI.perform_search.
    unfold bind at 1. rewrite Hfind. reflexivity.
  - intros e Hfind. unfold Movies2.MovieEncyclopediaGUI.perform_search.
    unfold bind at 1. rewrite Hfind. reflexivity.
Qed.

(** X21. [get_movie_details] of the form, the same in both files: the
    result field is emptied and then holds [Movie not found.] for [None]
    or an empty record, and the six lines of the record otherwise; when
    a field cannot be shown the exception goes on and the field stays
    empty. *)
Theorem form_get_movie_details_shows
    (db_choice movie_name : string) (found : option pydict) (w w1 : world) :
  MovieProject.MovieEncyclopedia.get_movie_details db_choice movie_name w = (Ok found, w1) ->
  let run := MovieProject.MovieEncyclopediaGUI.get_movie_details db_choice movie_name w in
  Movies2.MovieEncyclopediaGUI.get_movie_details db_choice movie_name w = run
  /\ match found with
     | None => run = (Ok tt, with_text ["Movie not found.
"] w1)
     | Some movie =>
         (movie = ∅ -> run = (Ok tt, with_text ["Movie not found.
"] w1))
         /\ (movie <> ∅ ->
             match details_text movie with
             | Ok shown_text => run = (Ok tt, with_text [shown_text] w1)
             | Raise e => run = (Raise e, with_text [] w1)
             | Diverge => False
             end)
     end.
Proof.
  intros Hget run. split; [reflexivity|].
  assert (Hrun : run
            = match found with
              | Some m =>
                  if dict_truthy m
                  then match details_text m with
                       | Ok shown_text => (Ok tt, with_text [shown_text] w1)
                       | Raise e => (Raise e, with_text [] w1)
                       | Diverge => (Diverge, with_text [] w1)
                       end
                  else (Ok tt, with_text ["Movie not found.
"] w1)
              | None => (Ok tt, with_text ["Movie not found.
"] w1)
              end).
  { subst run. unfold MovieProject.MovieEncyclopediaGUI.get_movie_details.
    unfold bind at 1. rewrite Hget. unfold bind at 1. unfold text_clear, modify at 1.
    destruct found as [m|]; [|reflexivity].
    destruct (dict_truthy m); [|reflexivity].
    unfold bind, lift_outcome. destruct (details_text m); reflexivity. }
  rewrite Hrun. clear Hrun.
  destruct found as [movie|]; [|reflexivity]. split.
  - intros ->. reflexivity.
  - intros Hmovie.
    assert (Htruthy : dict_truthy movie = true).
    { unfold dict_truthy. apply Nat.ltb_lt.
      destruct (size movie) eqn:Hsize; [|lia].
      apply map_size_empty_iff in Hsize. contradiction. }
    rewrite Htruthy.
    destruct (details_text movie) as [shown_text|e|] eqn:Hd; try reflexivity.
    unfold details_text, shown_name, py_join in Hd.
    repeat match type of Hd with
           | context [match ?x with _ => _ end] => destruct x; cbn in Hd; try discriminate
           end.
Qed.

(** X22. [delete_movie] of the form reports [Deleted movie: name]
    whatever happened: on the key-value backend it always returns, also
    when the request was refused and the table is unchanged; on the
    document backend it does so when no document has the name. *)
Theorem form_delete_movie_always_reports (fields : form) (w : world) :
  let name := movie_name_entry fields in
  let named := Mongo.matches "name" (CondEq name) in
  let reported (w' : world) :=
    text w' = (text w ++ [("Deleted movie: " ++ name ++ "
")%string])%list in
  (exists w' w2',
     MovieProject.MovieEncyclopediaGUI.delete_movie "dynamodb" fields w = (Ok tt, w')
     /\ Movies2.MovieEncyclopediaGUI.delete_movie "dynamodb" fields w = (Ok tt, w2')
     /\ reported w' /\ reported w2')
  /\ (forall e fs,
        faults w = Some e :: fs ->
        exists w',
          MovieProject.MovieEncyclopediaGUI.delete_movie "dynamodb" fields w = (Ok tt, w')
          /\ Movies2.MovieEncyclopediaGUI.delete_movie "dynamodb" fields w = (Ok tt, w')
          /\ reported w'
          /\ table w' = table w
          /\ stdout w'
             = (stdout w ++ [("Failed to delete movie: " ++ exn_msg e)%string])%list)
  /\ (answered 1 w = true ->
      existsb named (movies w) = false ->
      exists w',
        MovieProject.MovieEncyclopediaGUI.delete_movie "mongodb" fields w = (Ok tt, w')
        /\ Movies2.MovieEncyclopediaGUI.delete_movie "mongodb" fields w = (Ok tt, w')
        /\ reported w'
        /\ movies w' = movies w
        /\ stdout w' = (stdout w ++ ["No movie found with that name."])%list).
Proof.
  intros name named reported.
  unfold MovieProject.MovieEncyclopediaGUI.delete_movie,
    Movies2.MovieEncyclopediaGUI.delete_movie. fold name.
  pose proof (delete_movie_dynamodb_run name w) as Hrun. cbv zeta in Hrun.
  pose proof (delete_movie_mongodb_run name w) as Hrun'. cbv zeta in Hrun'.
  fold named in Hrun'.
  split; [|split].
  - unfold bind.
    destruct (faults w) as [|[e|] fs]; destruct Hrun as [-> ->];
      eexists _, _; repeat split; reflexivity.
  - intros e fs Hf. rewrite Hf in Hrun. destruct Hrun as [Hmp Hm2].
    unfold bind. rewrite Hmp, Hm2. eexists. repeat split; reflexivity.
  - intros Hans Hnone. destruct (answered_tail 0 w Hans) as [Hf _].
    rewrite Hnone in Hrun'. unfold bind.
    destruct (faults w) as [|[e|] fs];
      [| destruct Hf as [Hf | [fs' Hf]]; discriminate Hf |];
      destruct Hrun' as [-> ->]; eexists;
      (split; [reflexivity|]); (split; [reflexivity|]); (split; [reflexivity|]);
      cbn [movies with_text with_stdout with_movies with_faults stdout];
      (split; [apply remove_first_none; exact Hnone|reflexivity]).
Qed.

(** X23. [update_movie] of the form, the backend there.  The float the
    dialog returns becomes the [Decimal] of exactly that value.  On the
    document backend the first document with the exact name gets the
    rating as a float, and the result field gains the line with the new
    rating as [str] writes the [Decimal].  On the key-value backend the
    item under the name gets the rating as a [Decimal] and the same
    line is added when the number context of boto3 takes that
    [Decimal]; when it does not, as for [Decimal(8.1)] with its fifty
    digits, the form raises what the context raises: nothing is written
    and no line is added.  With the dialog cancelled only the
    information dialog is shown. *)
Theorem form_update_movie_stores (fields : form) (x : Q) (w : world) :
  answered 1 w = true ->
  let name := movie_name_entry fields in
  let shown :=
    (text w ++ [("Updated movie: " ++ name ++ " with new rating: "
                 ++ py_str (PDecimal x) ++ "
")%string])%list in
  let cancelled :=
    with_dialogs (dialogs w ++ [("Cancelled", "Update operation cancelled.")]) w in
  (exists w',
     MovieProject.MovieEncyclopediaGUI.update_movie "mongodb" fields (Some x) w
     = (Ok tt, w')
     /\ Movies2.MovieEncyclopediaGUI.update_movie "mongodb" fields (Some x) w
        = (Ok tt, w')
     /\ observable w'
        = (Mongo.update_first (Mongo.matches "name" (CondEq name))
             (fun d => <["rating" := PFloat (round64 x)]> d) (movies w),
           table w, stdout w, dialogs w, shown))
  /\ (context_error x = None ->
      exists w',
        MovieProject.MovieEncyclopediaGUI.update_movie "dynamodb" fields (Some x) w
        = (Ok tt, w')
        /\ Movies2.MovieEncyclopediaGUI.update_movie "dynamodb" fields (Some x) w
           = (Ok tt, w')
        /\ observable w'
           = (movies w,
              Dynamo.table_update name {["rating" := PDecimal x]} (table w),
              stdout w, dialogs w, shown))
  /\ (forall e,
        context_error x = Some e ->
        exists w',
          MovieProject.MovieEncyclopediaGUI.update_movie "dynamodb" fields (Some x) w
          = (Raise e, w')
          /\ Movies2.MovieEncyclopediaGUI.update_movie "dynamodb" fields (Some x) w
             = (Raise e, w')
          /\ observable w' = observable w)
  /\ (forall db_choice,
        MovieProject.MovieEncyclopediaGUI.update_movie db_choice fields None w
        = (Ok tt, cancelled)
        /\ Movies2.MovieEncyclopediaGUI.update_movie db_choice fields None w
           = (Ok tt, cancelled)).
Proof.
  intros Hans name shown cancelled.
  set (l := fresh (dom (heap w))).
  pose (wa := with_heap (<[l := {["rating" := PDecimal x]}]> (heap w)) w).
  assert (Hdata : heap wa !!! l = {["rating" := PDecimal x]})
    by apply lookup_total_insert_eq.
  assert (Hfun : forall ds,
            Mongo.update_first (Mongo.matches "name" (CondEq name))
              (fun d : pydict => {["rating" := PFloat (round64 x)]} ∪ d) ds
            = Mongo.update_first (Mongo.matches "name" (CondEq name))
                (fun d => <["rating" := PFloat (round64 x)]> d) ds).
  { induction ds as [|d ds IH]; cbn; [reflexivity|].
    rewrite IH, set_rating_union. reflexivity. }
  split; [|split; [|split]].
  - destruct (update_rating_mongodb_run name l (PDecimal x) wa Hdata Hans)
      as (h & _ & Hrun).
    cbn [to_float_value] in Hrun. rewrite Hfun in Hrun.
    assert (Hgui : MovieProject.MovieEncyclopediaGUI.update_movie "mongodb" fields (Some x) w
              = (Ok tt,
                 with_text shown
                   (with_movies
                      (Mongo.update_first (Mongo.matches "name" (CondEq name))
                         (fun d => <["rating" := PFloat (round64 x)]> d) (movies w))
                      (with_faults (tl (faults w)) (with_heap h wa))))).
    { unfold MovieProject.MovieEncyclopediaGUI.update_movie. fold name.
      unfold bind at 1. unfold lift_outcome at 1. cbn [py_Decimal].
      unfold bind at 1. unfold alloc. fold l. fold wa.
      unfold bind at 1. rewrite Hrun. reflexivity. }
    eexists. split; [exact Hgui|]. split; [exact Hgui|]. reflexivity.
  - intros Hcontext.
    assert (Hin : Dynamo.accepted (to_decimal_value (PDecimal x)) = true).
    { unfold Dynamo.accepted. cbn [to_decimal_value Dynamo.value_error].
      rewrite Hcontext. reflexivity. }
    destruct (update_rating_dynamodb_run name l (PDecimal x) wa Hdata eq_refl Hin Hans)
      as (h & _ & Hrun).
    cbn [to_decimal_value Dynamo.as_attribute] in Hrun.
    assert (Hgui : MovieProject.MovieEncyclopediaGUI.update_movie "dynamodb" fields (Some x) w
              = (Ok tt,
                 with_text shown
                   (with_table
                      (Dynamo.table_update name {["rating" := PDecimal x]} (table w))
                      (with_faults (tl (faults w)) (with_heap h wa))))).
    { unfold MovieProject.MovieEncyclopediaGUI.update_movie. fold name.
      unfold bind at 1. unfold lift_outcome at 1. cbn [py_Decimal].
      unfold bind at 1. unfold alloc. fold l. fold wa.
      unfold bind at 1. rewrite Hrun. reflexivity. }
    eexists. split; [exact Hgui|]. split; [exact Hgui|]. reflexivity.
  - intros e Herror.
    destruct (update_rating_dynamodb_refused name l (PDecimal x) e wa Hdata eq_refl Herror)
      as (h & _ & Hrun).
    assert (Hgui : MovieProject.MovieEncyclopediaGUI.update_movie "dynamodb" fields (Some x) w
              = (Raise e, with_heap h wa)).
    { unfold MovieProject.MovieEncyclopediaGUI.update_movie. fold name.
      unfold bind at 1. unfold lift_outcome at 1. cbn [py_Decimal].
      unfold bind at 1. unfold alloc. fold l. fold wa.
      unfold bind at 1. rewrite Hrun. reflexivity. }
    eexists. split; [exact Hgui|]. split; [exact Hgui|]. reflexivity.
  - intros db_choice; split; reflexivity.
Qed.
Lemma name_lines_exist (results : list pydict) :
  Forall (fun m : pydict => is_Some (m !! "name")) results ->
  exists lines, traverse name_line results = Ok lines.
Proof.
  induction 1 as [|m results [v Hm] _ [lines IH]]; cbn; [eauto|].
  unfold name_line at 1, shown_name. rewrite Hm. cbn. rewrite IH. cbn. eauto.
Qed.

(** X24. [find_movies] of the form: the result field is emptied and
    then holds one line per result, in order, when every result has a
    name; for no result it stays empty. *)
Theorem form_find_movies_shows
    (db_choice : string) (fields : form) (results : list pydict) (w w1 : world) :
  MovieProject.MovieEncyclopedia.find_movies db_choice "name" (movie_name_entry fields) w
  = (Ok results, w1) ->
  Forall (fun m : pydict => is_Some (m !! "name")) results ->
  exists lines,
    MovieProject.MovieEncyclopediaGUI.find_movies db_choice fields w
    = (Ok tt, with_text lines w1)
    /\ Forall2 (fun m line => name_line m = Ok line) results lines
    /\ (forall w2,
          Movies2.MovieEncyclopedia.find_movies db_choice "name" (movie_name_entry fields) w
          = (Ok results, w2) ->
          Movies2.MovieEncyclopediaGUI.find_movies db_choice fields w
          = (Ok tt, with_text lines w2)).
Proof.
  intros Hfind Hnames. destruct (name_lines_exist _ Hnames) as [lines Hlines].
  exists lines. split; [|split; [apply traverse_each; exact Hlines|]].
  - unfold MovieProject.MovieEncyclopediaGUI.find_movies.
    unfold bind at 1. rewrite Hfind. unfold bind at 1. unfold text_clear, modify at 1.
    rewrite (render_lines _ _ lines) by exact Hlines. reflexivity.
  - intros w2 Hfind2. unfold Movies2.MovieEncyclopediaGUI.find_movies.
    unfold bind at 1. rewrite Hfind2. unfold bind at 1. unfold text_clear, modify at 1.
    rewrite (render_lines _ _ lines) by exact Hlines. reflexivity.
Qed.

Lemma form_eq (f g : form) :
  movie_name_entry f = movie_name_entry g ->
  genre_entry f = genre_entry g ->
  director_entry f = director_entry g ->
  certificate_entry f = certificate_entry g ->
  rating_entry f = rating_entry g ->
  f = g.
Proof. destruct f, g; cbn; intros; subst; reflexivity. Qed.

(** X25. [execute_operation] of movieproject.py depends on the entries
    [update_fields] shows for the chosen operation only: two fillings of
    the form that agree on the operation, on the answer of the rating
    dialog and on the entries shown run the same. *)
Theorem execute_operation_reads_shown_entries
    (db_choice : string) (c c' : controls) (w : world) :
  operation_var c = operation_var c' ->
  askfloat c = askfloat c' ->
  (forall x,
     In x (MovieProject.MovieEncyclopediaGUI.update_fields (operation_var c)) ->
     entry_value c x = entry_value c' x) ->
  MovieProject.MovieEncyclopediaGUI.execute_operation db_choice c w
  = MovieProject.MovieEncyclopediaGUI.execute_operation db_choice c' w.
Proof.
  intros Hop Hask Hshown.
  unfold MovieProject.MovieEncyclopediaGUI.execute_operation. rewrite <- Hop, <- Hask.
  pose (shown := MovieProject.MovieEncyclopediaGUI.update_fields (operation_var c)).
  assert (Hsearch : In details_entry_widget shown ->
                    details_entry c = details_entry c')
    by (intros Hin; exact (Hshown _ Hin)).
  assert (Hform : In certificate_entry_widget shown -> entries c = entries c').
  { intros Hin. subst shown. unfold MovieProject.MovieEncyclopediaGUI.update_fields in Hin, Hshown.
    destruct (existsb _ _); [cbn in Hin; intuition discriminate|].
    destruct (existsb _ _).
    - apply form_eq.
      + apply (Hshown movie_name_entry_widget). cbn. tauto.
      + apply (Hshown genre_entry_widget). cbn. tauto.
      + apply (Hshown director_entry_widget). cbn. tauto.
      + apply (Hshown certificate_entry_widget). cbn. tauto.
      + apply (Hshown rating_entry_widget). cbn. tauto.
    - destruct (String.eqb _ _); cbn in Hin; intuition discriminate. }
  assert (Hname : In movie_name_entry_widget shown ->
                  movie_name_entry (entries c) = movie_name_entry (entries c'))
    by (intros Hin; exact (Hshown _ Hin)).
  subst shown.
  repeat match goal with
         | |- (if String.eqb (operation_var c) ?s then _ else _) w = _ =>
             destruct (String.eqb_spec (operation_var c) s) as [Heq|_]
         end; try reflexivity;
    rewrite Heq in Hsearch, Hform, Hname;
    try (rewrite Hsearch by (vm_compute; tauto); reflexivity);
    try (rewrite Hform by (vm_compute; tauto); reflexivity).
  unfold MovieProject.MovieEncyclopediaGUI.delete_movie.
  rewrite Hname by (vm_compute; tauto). reflexivity.
Qed.

(** X26. [execute_operation] with an operation outside the menu does
    nothing, and [update_fields] shows no entry for it; movieproject.py
    strips the details entry, so that stripping it beforehand changes
    nothing, and [Get movie details] then runs as in movies2.py on the
    stripped entry. *)
Theorem execute_operation_dispatch (db_choice : string) (c : controls) (w : world) :
  (~ In (operation_var c) operations ->
   MovieProject.MovieEncyclopediaGUI.update_fields (operation_var c) = []
   /\ MovieProject.MovieEncyclopediaGUI.execute_operation db_choice c w = (Ok tt, w)
   /\ Movies2.MovieEncyclopediaGUI.execute_operation db_choice c w = (Ok tt, w))
  /\ MovieProject.MovieEncyclopediaGUI.execute_operation db_choice
       (with_details (strip (details_entry c)) c) w
     = MovieProject.MovieEncyclopediaGUI.execute_operation db_choice c w
  /\ (operation_var c = "Get movie details" ->
      MovieProject.MovieEncyclopediaGUI.execute_operation db_choice c w
      = Movies2.MovieEncyclopediaGUI.execute_operation db_choice
          (with_details (strip (details_entry c)) c) w).
Proof.
  split; [|split].
  - intros Hout.
    assert (Hne : forall s, In s operations -> String.eqb (operation_var c) s = false).
    { intros s Hs. apply String.eqb_neq. intros Heq. apply Hout. rewrite Heq. exact Hs. }
    unfold MovieProject.MovieEncyclopediaGUI.update_fields.
    unfold MovieProject.MovieEncyclopediaGUI.execute_operation,
      Movies2.MovieEncyclopediaGUI.execute_operation. cbn [existsb].
    rewrite !Hne by (cbn; tauto). repeat split; reflexivity.
  - unfold MovieProject.MovieEncyclopediaGUI.execute_operation.
    cbn [with_details operation_var details_entry entries askfloat].
    destruct (strip_leaves_no_space (details_entry c)) as (_ & _ & ->). reflexivity.
  - intros Hop.
    unfold MovieProject.MovieEncyclopediaGUI.execute_operation,
      Movies2.MovieEncyclopediaGUI.execute_operation.
    cbn [with_details operation_var details_entry entries askfloat].
    rewrite Hop. reflexivity.
Qed.
End Coverage.

(** ** The properties at sample data *)

#[local] Existing Instance plain_runtime.

(** Twenty-one rated dramas and an unrated one: all twenty-two come back,
    the first two with ratings 1 and 2. *)
Lemma find_movies_error_path_witness :
  answered (S (length (table crowded_world))) crowded_world = true
  /\ forallb has_float_rating
       (List.filter (Dynamo.contains "genre" "Drama") (table crowded_world)) = false
  /\ exists results w',
       MovieProject.MovieEncyclopedia.find_movies "dynamodb" "genre" "Drama" crowded_world
         = (Ok results, w')
       /\ length results = 22
       /\ map (fun d : pydict => d !! "rating") (firstn 2 results)
          = [Some (PDecimal 1); Some (PDecimal 2)].
Proof.
  split; [vm_compute; reflexivity|]. split; [vm_compute; reflexivity|].
  destruct (find_movies_error_path "genre" "Drama" crowded_world)
    as (e & w' & Hrun & _); [vm_compute; reflexivity|vm_compute; reflexivity|].
  eexists _, w'. split; [exact Hrun|]. split; vm_compute; reflexivity.
Defined.

(** The search for "sci" and for "Sci-Fi" in the sample stores. *)
Lemma find_movies_filter_witness :
  answered 1 sample_world = true
  /\ answered (S (length (table sample_world))) sample_world = true
  /\ forallb has_float_rating
       (List.filter (Dynamo.contains "genre" "Sci-Fi") (scan_page sample_world 0)) = true
  /\ (exists results w',
        MovieProject.MovieEncyclopedia.find_movies "mongodb" "genre" "sci" sample_world
          = (Ok results, w')
        /\ returned_of (Mongo.matches "genre" (CondRegexI "sci")) (movies sample_world)
             (delete "_id") results)
  /\ (exists results w',
        Movies2.MovieEncyclopedia.find_movies "dynamodb" "genre" "Sci-Fi" sample_world
          = (Ok results, w')
        /\ returned_of (Dynamo.contains "genre" "Sci-Fi") (scan_page sample_world 0)
             (fun d => d) results).
Proof.
  destruct (find_movies_filter "genre" "sci" sample_world) as (Hdoc & _ & _ & _).
  destruct (find_movies_filter "genre" "Sci-Fi" sample_world) as (_ & _ & _ & Hkv).
  split; [reflexivity|]. split; [reflexivity|]. split; [vm_compute; reflexivity|].
  split; [apply Hdoc; reflexivity|].
  apply Hkv; [reflexivity|vm_compute; reflexivity].
Defined.

(** On the key-value backend, and on the document backend of movies2.py,
    the search for "sci" in the genre misses "Dune", whose genre
    "Sci-Fi" contains it without regard to case. *)
Lemma find_movies_misses_sci :
  let dune := record "Dune" ["Sci-Fi"] (PDecimal (17 # 2)) in
  In dune (table sample_world)
  /\ occurs_ignoring_case "genre" "sci" dune = true
  /\ fst (MovieProject.MovieEncyclopedia.find_movies "dynamodb" "genre" "sci" sample_world)
     = Ok []
  /\ fst (Movies2.MovieEncyclopedia.find_movies "dynamodb" "genre" "sci" sample_world)
     = Ok []
  /\ fst (Movies2.MovieEncyclopedia.find_movies "mongodb" "genre" "sci" sample_world)
     = Ok [].
Proof.
  cbv zeta. split; [left; reflexivity|]. repeat split; vm_compute; reflexivity.
Qed.

(** [add_movie] of a "Dune" rated 8.5 as a float, key-value backend. *)
Lemma add_movie_key_value_keeps_float_witness :
  let w := with_heap {[0%nat := record "Dune" ["Sci-Fi"] (PFloat (17 # 2))]} empty_world in
  (heap w !!! 0%nat) !! "rating" = Some (PFloat (17 # 2))
  /\ MovieProject.MovieEncyclopedia.add_movie "dynamodb" 0 w
     = (Raise Dynamo.float_unsupported, w)
  /\ Movies2.MovieEncyclopedia.add_movie "dynamodb" 0 w
     = (Raise Dynamo.float_unsupported, w).
Proof.
  cbv zeta. split; [vm_compute; reflexivity|].
  apply (add_movie_key_value_keeps_float 0 (17 # 2)). vm_compute. reflexivity.
Defined.

(** With "Dune Part Two" stored before "Dune", the details of "Dune"
    after its rating was set to 9 are those of "Dune Part Two", rating 8. *)
Lemma update_then_details_other_record :
  exists found,
    fst ((MovieProject.MovieEncyclopedia.update_movie "mongodb" "Dune" 0 ;;
          MovieProject.MovieEncyclopedia.get_movie_details "mongodb" "Dune") sequel_world)
    = Ok (Some found)
    /\ found !! "name" = Some (PStr "Dune Part Two")
    /\ found !! "rating" = Some (PFloat 8).
Proof.
  eexists. split; [vm_compute; reflexivity|]. split; vm_compute; reflexivity.
Qed.

(** The rating of "Dune" set to 9 in the sample stores, and set to
    [Decimal(8.1)], which the number context refuses. *)
Lemma update_then_details_witness :
  let dune := <["_id" := PObjectId 0]> (record "Dune" ["Sci-Fi"] (PFloat (17 # 2))) in
  let item := record "Dune" ["Sci-Fi"] (PDecimal (17 # 2)) in
  let w81 := with_heap {[0%nat := {["rating" := PDecimal float_8_1]}]} sample_world in
  heap sample_world !!! 0%nat = {["rating" := PDecimal 9]}
  /\ answered 2 sample_world = true
  /\ Dynamo.accepted (PDecimal 9) = true
  /\ (exists w',
        (MovieProject.MovieEncyclopedia.update_movie "mongodb" "Dune" 0 ;;
         MovieProject.MovieEncyclopedia.get_movie_details "mongodb" "Dune") sample_world
        = (Ok (Some (<["rating" := PFloat 9]> (delete "_id" dune))), w'))
  /\ (exists w',
        (MovieProject.MovieEncyclopedia.update_movie "dynamodb" "Dune" 0 ;;
         MovieProject.MovieEncyclopedia.get_movie_details "dynamodb" "Dune") sample_world
        = (Ok (Some (<["rating" := PDecimal 9]> item)), w'))
  /\ Dynamo.value_error (PDecimal float_8_1) = Some Plain.inexact
  /\ (exists w',
        MovieProject.MovieEncyclopedia.update_movie "dynamodb" "Dune" 0 w81
        = (Raise Plain.inexact, w')
        /\ stores w' = stores sample_world).
Proof.
  cbv zeta.
  destruct (update_then_details "Dune" 0 (PDecimal 9) sample_world) as (Hdoc & Hkv & _);
    [vm_compute; reflexivity|reflexivity|].
  destruct (update_then_details "Dune" 0 (PDecimal float_8_1)
              (with_heap {[0%nat := {["rating" := PDecimal float_8_1]}]} sample_world))
    as (_ & _ & Hrefused); [vm_compute; reflexivity|reflexivity|].
  split; [vm_compute; reflexivity|]. split; [reflexivity|].
  split; [vm_compute; reflexivity|]. split; [|split; [|split]].
  - destruct (Hdoc [] (<["_id" := PObjectId 0]> (record "Dune" ["Sci-Fi"] (PFloat (17 # 2))))
                [<["_id" := PObjectId 1]> (record "Casablanca" ["Drama"] (PFloat (17 # 2)))])
      as (w1 & w2 & _ & Hrun); try (vm_compute; reflexivity).
    exists w2. exact Hrun.
  - destruct (Hkv (record "Dune" ["Sci-Fi"] (PDecimal (17 # 2))))
      as (w1 & w2 & _ & Hrun); try (vm_compute; reflexivity).
    exists w2. exact Hrun.
  - vm_compute. reflexivity.
  - destruct (Hrefused Plain.inexact) as (w' & Hrun & Hstores & _);
      [reflexivity|vm_compute; reflexivity|].
    exists w'. split; [exact Hrun|exact Hstores].
Defined.

(** The document backend refuses the request of [delete_movie]: the
    exception reaches the caller. *)
Lemma delete_movie_document_raises :
  fst (MovieProject.MovieEncyclopedia.delete_movie "mongodb" "Dune"
         (with_faults [Some unreachable] sample_world))
  = Raise unreachable
  /\ fst (Movies2.MovieEncyclopedia.find_movies "dynamodb" "genre" "Drama"
            (with_faults [Some unreachable] sample_world))
     = Raise unreachable.
Proof. split; vm_compute; reflexivity. Qed.

(** [delete_movie] of "Tenet", which the collection does not hold,
    behind a server that cannot be reached: the exception reaches the
    caller. *)
Lemma delete_movie_zero_match_raises :
  let w := with_faults [Some unreachable] sample_world in
  existsb (Mongo.matches "name" (CondEq "Tenet")) (movies w) = false
  /\ fst (MovieProject.MovieEncyclopedia.delete_movie "mongodb" "Tenet" w)
     = Raise unreachable
  /\ fst (Movies2.MovieEncyclopedia.delete_movie "mongodb" "Tenet" w)
     = Raise unreachable.
Proof. cbv zeta. repeat split; vm_compute; reflexivity. Qed.

(** The sample stores behind a backend that cannot be reached. *)
Lemma backend_exceptions_by_path_witness :
  let w := with_faults [Some unreachable] sample_world in
  faults w = [Some unreachable]
  /\ MovieProject.MovieEncyclopedia.find_movies "dynamodb" "genre" "Drama" w
     = (Ok [], with_stdout ["Error scanning DynamoDB: Could not connect to the endpoint URL"]
                 (with_faults [] w))
  /\ ends_raising unreachable []
       (MovieProject.MovieEncyclopedia.add_movie "mongodb" 0 w).
Proof.
  cbv zeta. split; [reflexivity|].
  destruct (backend_exceptions_by_path "genre" "Drama" "Dune" 0
              (with_faults [Some unreachable] sample_world)) as (_ & _ & Hrefused).
  destruct (Hrefused unreachable [] eq_refl)
    as (_ & _ & Hfind & _ & _ & _ & _ & _ & Hadd).
  split; [exact Hfind|]. apply (Hadd "mongodb"). left. reflexivity.
Defined.

(** [delete_movie] of "Tenet", which neither sample store holds. *)
Lemma delete_movie_zero_matches_witness :
  answered 1 sample_world = true
  /\ existsb (Mongo.matches "name" (CondEq "Tenet")) (movies sample_world) = false
  /\ existsb (Dynamo.has_key "Tenet") (table sample_world) = false
  /\ MovieProject.MovieEncyclopedia.delete_movie "mongodb" "Tenet" sample_world
     = (Ok tt, with_stdout ["No movie found with that name."]
                 (with_faults [] sample_world))
  /\ stores (snd ((MovieProject.MovieEncyclopedia.delete_movie "dynamodb" "Tenet" ;;
                   MovieProject.MovieEncyclopedia.delete_movie "dynamodb" "Tenet")
                    sample_world))
     = stores sample_world.
Proof.
  destruct (delete_movie_zero_matches "Tenet" sample_world)
    as (_ & Hreport & _ & _ & Hidem & _).
  split; [reflexivity|]. split; [vm_compute; reflexivity|].
  split; [vm_compute; reflexivity|]. split.
  - apply Hreport; [reflexivity|vm_compute; reflexivity].
  - destruct (Hidem ltac:(vm_compute; reflexivity) ltac:(vm_compute; reflexivity) "dynamodb")
      as (Hone & Htwo & _).
    rewrite Htwo. exact Hone.
Defined.

(** The details of "dune": found by the pattern in the document store,
    not found by the key in the table. *)
Lemma get_movie_details_lookup_witness :
  answered 1 sample_world = true
  /\ (exists found w',
        MovieProject.MovieEncyclopedia.get_movie_details "mongodb" "dune" sample_world
          = (Ok (Some found), w')
        /\ found = record "Dune" ["Sci-Fi"] (PFloat (17 # 2)))
  /\ fst (MovieProject.MovieEncyclopedia.get_movie_details "dynamodb" "dune" sample_world)
     = Ok None.
Proof.
  split; [reflexivity|].
  destruct (get_movie_details_lookup "dune" sample_world eq_refl)
    as [(found & Hrun & _ & Hfound) (item & Hrun' & _ & Hitem)].
  split.
  - destruct found as [found|].
    + exists found. eexists. split; [exact Hrun|].
      apply (f_equal fst) in Hrun. vm_compute in Hrun. injection Hrun as <-.
      vm_compute. reflexivity.
    + exfalso. apply (f_equal fst) in Hrun. vm_compute in Hrun. discriminate Hrun.
  - rewrite Hrun'. cbn [fst]. apply (f_equal fst) in Hrun'.
    vm_compute in Hrun'. injection Hrun' as <-. reflexivity.
Defined.

(** The form submitted with the rating "abc". *)
Lemma form_add_movie_invalid_rating_escapes_witness :
  let entries := {| movie_name_entry := "Dune"; genre_entry := "Sci-Fi";
                    director_entry := "Denis Villeneuve";
                    certificate_entry := "PG-13"; rating_entry := "abc" |} in
  movie_name_entry entries <> ""
  /\ rating_entry entries <> ""
  /\ decimal_of_str (rating_entry entries) = None
  /\ MovieProject.MovieEncyclopediaGUI.add_movie "mongodb" entries empty_world
     = (Raise conversion_syntax, empty_world)
  /\ Movies2.MovieEncyclopediaGUI.add_movie "dynamodb" entries empty_world
     = (Raise conversion_syntax, empty_world).
Proof.
  cbv zeta. split; [discriminate|]. split; [discriminate|]. split; [reflexivity|].
  split.
  - apply (form_add_movie_invalid_rating_escapes "mongodb"); [discriminate|discriminate|reflexivity].
  - apply (form_add_movie_invalid_rating_escapes "dynamodb"); [discriminate|discriminate|reflexivity].
Defined.

(** A "Dune" with a [Decimal] rating added to the document store, and an
    update with a float rating sent to the key-value store. *)
Lemma add_update_mutate_caller_dictionary_witness :
  let w := with_heap {[0%nat := record "Dune" ["Sci-Fi"] (PDecimal (17 # 2))]} empty_world in
  let w2 := with_heap {[0%nat := {["rating" := PFloat 9]}]} empty_world in
  (heap w !!! 0%nat) !! "rating" = Some (PDecimal (17 # 2))
  /\ py_float (PDecimal (17 # 2)) = Ok (17 # 2)%Q
  /\ heap (snd (MovieProject.MovieEncyclopedia.add_movie "mongodb" 0 w)) !!! 0%nat
     = <["_id" := PObjectId 0]> (record "Dune" ["Sci-Fi"] (PFloat (17 # 2)))
  /\ decimal_convertible (heap w2 !!! 0%nat) = true
  /\ heap (snd (MovieProject.MovieEncyclopedia.update_movie "dynamodb" "Dune" 0 w2)) !!! 0%nat
     = {["rating" := PDecimal 9]}.
Proof.
  cbv zeta.
  destruct (add_update_mutate_caller_dictionary "Dune" 0
              (with_heap {[0%nat := record "Dune" ["Sci-Fi"] (PDecimal (17 # 2))]} empty_world))
    as (Hadd & _ & _ & _).
  destruct (add_update_mutate_caller_dictionary "Dune" 0
              (with_heap {[0%nat := {["rating" := PFloat 9]}]} empty_world))
    as (_ & _ & _ & Hupdate).
  split; [vm_compute; reflexivity|]. split; [reflexivity|]. split.
  - destruct (Hadd (PDecimal (17 # 2)) (17 # 2)%Q) as [-> _];
      [vm_compute; reflexivity|reflexivity|].
    vm_compute. reflexivity.
  - split; [vm_compute; reflexivity|].
    destruct Hupdate as [-> _]; [vm_compute; reflexivity|]. vm_compute. reflexivity.
Defined.

(** The search for "Drama" among twenty-one rated dramas, stored with
    the ratings 1 to 21 in that order: twenty come back, from the one
    rated 21 down to the one rated 2. *)
Lemma find_movies_top_twenty_witness :
  answered (S (length (table rated_world))) rated_world = true
  /\ map (fun d : pydict => d !! "rating") (firstn 2 (table rated_world))
     = [Some (PDecimal 1); Some (PDecimal 2)]
  /\ length (List.filter (Dynamo.contains "genre" "Drama") (table rated_world)) = 21%nat
  /\ forallb has_float_rating
       (List.filter (Dynamo.contains "genre" "Drama") (table rated_world)) = true
  /\ (exists results w',
        MovieProject.MovieEncyclopedia.find_movies "dynamodb" "genre" "Drama" rated_world
          = (Ok results, w')
        /\ (length results <= 20)%nat /\ descending_ratings results)
  /\ match fst (MovieProject.MovieEncyclopedia.find_movies "dynamodb" "genre" "Drama"
                  rated_world) with
     | Ok results =>
         length results = 20%nat
         /\ map (fun d : pydict => d !! "rating") (firstn 3 results)
            = [Some (PDecimal 21); Some (PDecimal 20); Some (PDecimal 19)]
         /\ map (fun d : pydict => d !! "rating") (skipn 18 results)
            = [Some (PDecimal 3); Some (PDecimal 2)]
     | _ => False
     end.
Proof.
  split; [vm_compute; reflexivity|]. split; [vm_compute; reflexivity|].
  split; [vm_compute; reflexivity|]. split; [vm_compute; reflexivity|].
  split; [|vm_compute; repeat split].
  destruct (find_movies_top_twenty "genre" "Drama" rated_world) as (_ & _ & Hkv).
  apply Hkv; vm_compute; reflexivity.
Defined.

(** The form without a name. *)
Lemma form_add_movie_requires_name_and_rating_witness :
  let fields := {| movie_name_entry := ""; genre_entry := "Sci-Fi";
                   director_entry := ""; certificate_entry := ""; rating_entry := "8.5" |} in
  (movie_name_entry fields = "" \/ rating_entry fields = "")
  /\ MovieProject.MovieEncyclopediaGUI.add_movie "mongodb" fields empty_world
     = (Ok tt, with_dialogs [("Error", "Movie name and rating are required.")] empty_world).
Proof.
  cbv zeta. split; [left; reflexivity|].
  apply (form_add_movie_requires_name_and_rating "mongodb"). left. reflexivity.
Defined.

(** The form with commas and blanks for genres. *)
Lemma form_add_movie_requires_genre_witness :
  let fields := {| movie_name_entry := "Dune"; genre_entry := " , ,";
                   director_entry := ""; certificate_entry := ""; rating_entry := "8.5" |} in
  movie_name_entry fields <> ""
  /\ rating_entry fields <> ""
  /\ decimal_of_str (rating_entry fields) = Some (17 # 2)%Q
  /\ stripped_nonempty (split_on "," (genre_entry fields)) = []
  /\ Movies2.MovieEncyclopediaGUI.add_movie "dynamodb" fields empty_world
     = (Ok tt, with_dialogs [("Error", "At least one genre is required.")] empty_world).
Proof.
  cbv zeta. split; [discriminate|]. split; [discriminate|]. split; [reflexivity|].
  split; [reflexivity|].
  apply (form_add_movie_requires_genre "dynamodb" _ (17 # 2)%Q);
    [discriminate|discriminate|reflexivity|reflexivity].
Defined.

(** "Dune" added to the table and looked up. *)
Lemma add_then_details_key_value_witness :
  (heap dune_world !!! 0%nat) !! "name" = Some (PStr "Dune")
  /\ Dynamo.serializable (heap dune_world !!! 0%nat) = true
  /\ answered 2 dune_world = true
  /\ exists w',
       (MovieProject.MovieEncyclopedia.add_movie "dynamodb" 0 ;;
        MovieProject.MovieEncyclopedia.get_movie_details "dynamodb" "Dune") dune_world
       = (Ok (Some (record "Dune" ["Sci-Fi"] (PDecimal (17 # 2)))), w').
Proof.
  split; [vm_compute; reflexivity|]. split; [vm_compute; reflexivity|].
  split; [reflexivity|].
  destruct (add_then_details_key_value 0 "Dune" dune_world) as [_ Hmp];
    [vm_compute; reflexivity|vm_compute; reflexivity|reflexivity|].
  destruct (Hmp (17 # 2)%Q (17 # 2)%Q) as [w' Hrun];
    [vm_compute; reflexivity|vm_compute; reflexivity|vm_compute; reflexivity|].
  exists w'. rewrite Hrun. vm_compute. reflexivity.
Defined.

(** "Dune" added to an empty collection and looked up. *)
Lemma add_then_details_document_witness :
  let w := with_movies [] dune_world in
  (heap w !!! 0%nat) !! "name" = Some (PStr "Dune")
  /\ (heap w !!! 0%nat) !! "rating" = Some (PDecimal (17 # 2))
  /\ regex_search "Dune" "Dune" = true
  /\ answered 2 w = true
  /\ exists w',
       (MovieProject.MovieEncyclopedia.add_movie "mongodb" 0 ;;
        MovieProject.MovieEncyclopedia.get_movie_details "mongodb" "Dune") w
       = (Ok (Some (record "Dune" ["Sci-Fi"] (PFloat (17 # 2)))), w').
Proof.
  cbv zeta. split; [vm_compute; reflexivity|]. split; [vm_compute; reflexivity|].
  split; [vm_compute; reflexivity|]. split; [reflexivity|].
  destruct (add_then_details_document 0 "Dune" (PDecimal (17 # 2)) (17 # 2)%Q
              (with_movies [] dune_world))
    as (w' & Hrun & _ & _);
    try (vm_compute; reflexivity).
  exists w'. rewrite Hrun. vm_compute. reflexivity.
Defined.

(** A second "Dune" added to the sample collection. *)
Lemma add_movie_document_appends_witness :
  (heap dune_world !!! 0%nat) !! "name" = Some (PStr "Dune")
  /\ answered 1 dune_world = true
  /\ exists w',
       MovieProject.MovieEncyclopedia.add_movie "mongodb" 0 dune_world = (Ok tt, w')
       /\ length (List.filter (Mongo.matches "name" (CondEq "Dune")) (movies w')) = 2%nat.
Proof.
  split; [vm_compute; reflexivity|]. split; [reflexivity|].
  destruct (add_movie_document_appends 0 "Dune" (PDecimal (17 # 2)) (17 # 2)%Q dune_world)
    as (w' & Hrun & _ & _ & Hcount);
    try (vm_compute; reflexivity).
  exists w'. split; [exact Hrun|]. rewrite Hcount. vm_compute. reflexivity.
Defined.

(** The form for "Dune" with no-break spaces around its genres, sent to
    the document backend: the genres are stored stripped. *)
Lemma form_add_movie_document_stores_witness :
  movie_name_entry padded_form <> ""
  /\ rating_entry padded_form <> ""
  /\ decimal_of_str (rating_entry padded_form) = Some (17 # 2)%Q
  /\ split_on "," (genre_entry padded_form)
     = [no_break_space ++ "Sci-Fi" ++ no_break_space; " Adventure "; no_break_space]
  /\ stripped_nonempty (split_on "," (genre_entry padded_form)) = ["Sci-Fi"; "Adventure"]
  /\ answered 1 empty_world = true
  /\ exists w',
       MovieProject.MovieEncyclopediaGUI.add_movie "mongodb" padded_form empty_world
       = (Ok tt, w')
       /\ movies w'
          = [<["_id" := PObjectId 0]> (form_record padded_form (PFloat (17 # 2)))]
       /\ form_record padded_form (PFloat (17 # 2)) !! "genre"
          = Some (PList ["Sci-Fi"; "Adventure"])
       /\ text w' = ["Added movie: Dune
"].
Proof.
  split; [discriminate|]. split; [discriminate|]. split; [reflexivity|].
  split; [vm_compute; reflexivity|].
  split; [vm_compute; reflexivity|]. split; [reflexivity|].
  destruct (form_add_movie_document_stores padded_form (17 # 2)%Q empty_world)
    as (w' & _ & Hrun & _ & Hobs & _);
    [discriminate|discriminate|reflexivity|vm_compute; discriminate|reflexivity|].
  exists w'. split; [exact Hrun|].
  destruct (observable_fields _ _ _ _ _ _ Hobs) as (-> & _ & _ & _ & ->).
  split; [|split]; vm_compute; reflexivity.
Defined.

(** The form for "Dune" sent to the key-value backend: rated 8.5 it is
    stored; rated with forty digits it is refused by the number context
    and nothing is written. *)
Lemma form_add_movie_key_value_stores_witness :
  let long := (8500000000000000000000000000000000000001
               # 1000000000000000000000000000000000000000)%Q in
  movie_name_entry padded_form <> ""
  /\ rating_entry padded_form <> ""
  /\ decimal_of_str (rating_entry padded_form) = Some (17 # 2)%Q
  /\ stripped_nonempty (split_on "," (genre_entry padded_form)) = ["Sci-Fi"; "Adventure"]
  /\ answered 1 sample_world = true
  /\ context_error (17 # 2) = None
  /\ (exists w',
        MovieProject.MovieEncyclopediaGUI.add_movie "dynamodb" padded_form sample_world
        = (Ok tt, w')
        /\ table w'
           = [form_record padded_form (PDecimal (17 # 2));
              record "Casablanca" ["Drama"] (PDecimal (17 # 2))]
        /\ text w' = ["Added movie: Dune
"])
  /\ decimal_of_str (rating_entry long_rating_form) = Some long
  /\ context_error long = Some Plain.inexact
  /\ (exists w',
        Movies2.MovieEncyclopediaGUI.add_movie "dynamodb" long_rating_form sample_world
        = (Raise Plain.inexact, w')
        /\ table w' = table sample_world /\ text w' = []).
Proof.
  cbv zeta.
  split; [discriminate|]. split; [discriminate|]. split; [reflexivity|].
  split; [vm_compute; reflexivity|]. split; [reflexivity|].
  split; [vm_compute; reflexivity|].
  destruct (form_add_movie_key_value_stores padded_form (17 # 2)%Q sample_world)
    as (_ & Hmp & _);
    [discriminate|discriminate|reflexivity|vm_compute; discriminate|reflexivity|].
  destruct (form_add_movie_key_value_stores long_rating_form
              (8500000000000000000000000000000000000001
               # 1000000000000000000000000000000000000000)%Q sample_world)
    as (_ & _ & Hrefused & _);
    [discriminate|discriminate|vm_compute; reflexivity|vm_compute; discriminate
    |reflexivity|].
  split; [|split; [vm_compute; reflexivity|split; [vm_compute; reflexivity|]]].
  - destruct (Hmp (17 # 2)%Q) as (w' & Hrun & Hobs);
      [vm_compute; reflexivity|vm_compute; reflexivity|].
    exists w'. split; [exact Hrun|].
    destruct (observable_fields _ _ _ _ _ _ Hobs) as (_ & -> & _ & _ & ->).
    split; vm_compute; reflexivity.
  - destruct (Hrefused Plain.inexact) as (w' & Hrun & Hobs);
      [vm_compute; reflexivity|].
    exists w'. split; [exact Hrun|].
    destruct (observable_fields _ _ _ _ _ _ Hobs) as (_ & -> & _ & _ & ->).
    split; reflexivity.
Defined.

(** The rating of "Tenet", which neither sample store holds, set to 9:
    the table gains the item between "Dune" and "Casablanca", where the
    scan of the sample runtime meets it; set to [Decimal(8.1)] it is
    refused. *)
Lemma update_movie_unknown_name_witness :
  heap sample_world !!! 0%nat = {["rating" := PDecimal 9]}
  /\ answered 2 sample_world = true
  /\ existsb (Mongo.matches "name" (CondEq "Tenet")) (movies sample_world) = false
  /\ existsb (Dynamo.has_key "Tenet") (table sample_world) = false
  /\ (exists w',
        MovieProject.MovieEncyclopedia.update_movie "mongodb" "Tenet" 0 sample_world
        = (Ok tt, w')
        /\ movies w' = movies sample_world)
  /\ Dynamo.accepted (PDecimal 9) = true
  /\ (exists w',
        MovieProject.MovieEncyclopedia.update_movie "dynamodb" "Tenet" 0 sample_world
        = (Ok tt, w')
        /\ table w'
           = [record "Dune" ["Sci-Fi"] (PDecimal (17 # 2));
              <["rating" := PDecimal 9]> {["name" := PStr "Tenet"]};
              record "Casablanca" ["Drama"] (PDecimal (17 # 2))])
  /\ Dynamo.value_error (PDecimal float_8_1) = Some Plain.inexact
  /\ (exists w',
        MovieProject.MovieEncyclopedia.update_movie "dynamodb" "Tenet" 0
          (with_heap {[0%nat := {["rating" := PDecimal float_8_1]}]} sample_world)
        = (Raise Plain.inexact, w')
        /\ table w' = table sample_world).
Proof.
  destruct (update_movie_unknown_name "Tenet" 0 (PDecimal 9) sample_world)
    as (Hdoc & Hkv & _); [vm_compute; reflexivity|reflexivity|].
  destruct (update_movie_unknown_name "Tenet" 0 (PDecimal float_8_1)
              (with_heap {[0%nat := {["rating" := PDecimal float_8_1]}]} sample_world))
    as (_ & _ & Hrefused); [vm_compute; reflexivity|reflexivity|].
  split; [vm_compute; reflexivity|]. split; [reflexivity|].
  split; [vm_compute; reflexivity|]. split; [vm_compute; reflexivity|].
  split; [|split; [vm_compute; reflexivity|split; [|split; [vm_compute; reflexivity|]]]].
  - destruct Hdoc as (w' & Hrun & Hobs); [vm_compute; reflexivity|].
    exists w'. split; [exact Hrun|].
    destruct (observable_fields _ _ _ _ _ _ Hobs) as (-> & _). reflexivity.
  - destruct Hkv as (w' & w'' & Hrun & Hobs & _);
      [vm_compute; reflexivity|reflexivity|vm_compute; reflexivity|].
    exists w'. split; [exact Hrun|].
    destruct (observable_fields _ _ _ _ _ _ Hobs) as (_ & -> & _).
    vm_compute. reflexivity.
  - destruct (Hrefused Plain.inexact) as (w' & Hrun & Hobs);
      [reflexivity|vm_compute; reflexivity|].
    exists w'. split; [exact Hrun|].
    destruct (observable_fields _ _ _ _ _ _ Hobs) as (_ & -> & _). reflexivity.
Defined.

(** "Dune" deleted from the sample table and looked up. *)
Lemma delete_then_details_key_value_witness :
  answered 2 sample_world = true
  /\ exists w',
       (MovieProject.MovieEncyclopedia.delete_movie "dynamodb" "Dune" ;;
        MovieProject.MovieEncyclopedia.get_movie_details "dynamodb" "Dune") sample_world
       = (Ok None, w')
       /\ table w' = [record "Casablanca" ["Drama"] (PDecimal (17 # 2))].
Proof.
  split; [reflexivity|].
  destruct (delete_then_details_key_value "Dune" sample_world eq_refl)
    as (w' & _ & Hrun & _ & Htable & _).
  exists w'. split; [exact Hrun|]. rewrite Htable. vm_compute. reflexivity.
Defined.

(** "Dune" deleted from the sample collection. *)
Lemma delete_movie_document_removes_one_witness :
  answered 1 sample_world = true
  /\ exists w',
       MovieProject.MovieEncyclopedia.delete_movie "mongodb" "Dune" sample_world
       = (Ok tt, w')
       /\ length (List.filter (Mongo.matches "name" (CondEq "Dune")) (movies w')) = 0%nat.
Proof.
  split; [reflexivity|].
  destruct (delete_movie_document_removes_one "Dune" sample_world eq_refl)
    as (w' & _ & Hrun & _ & _ & Hcount & _).
  exists w'. split; [exact Hrun|]. rewrite Hcount. vm_compute. reflexivity.
Defined.

(** The sample table, where "Dune" is put again. *)
Lemma key_value_names_stay_unique_witness :
  one_item_per_name (table dune_world)
  /\ one_item_per_name
       (table (snd (MovieProject.MovieEncyclopedia.add_movie "dynamodb" 0 dune_world)))
  /\ length (table (snd (MovieProject.MovieEncyclopedia.add_movie "dynamodb" 0 dune_world)))
     = 2%nat.
Proof.
  assert (Hunique : one_item_per_name (table dune_world)).
  { intros n.
    change (table dune_world)
      with [record "Dune" ["Sci-Fi"] (PDecimal (17 # 2));
            record "Casablanca" ["Drama"] (PDecimal (17 # 2))].
    cbn [List.filter].
    destruct (Dynamo.has_key n (record "Dune" ["Sci-Fi"] (PDecimal (17 # 2)))) eqn:Hdune;
      destruct (Dynamo.has_key n (record "Casablanca" ["Drama"] (PDecimal (17 # 2))))
        eqn:Hcasa; cbn [length]; try lia.
    apply has_key_name in Hdune. apply has_key_name in Hcasa.
    vm_compute in Hdune, Hcasa. congruence. }
  split; [exact Hunique|]. split.
  - pose proof (key_value_names_stay_unique "Dune" 0 dune_world Hunique) as Hafter.
    cbv beta zeta in Hafter. destruct Hafter as [Hadd _]. exact Hadd.
  - vm_compute. reflexivity.
Defined.

(** The file of two rows loaded over the sample collection: the years
    and the ratings, columns of whole numbers, are stored as [int]s.
    With the genre of "Casablanca" left empty the load raises and the
    collection stays. *)
Lemma bulk_load_replaces_collection_witness :
  text_rows sample_frame = Ok sample_file
  /\ sample_file <> []
  /\ answered 2 sample_world = true
  /\ (exists w',
        MovieProject.MovieEncyclopedia.load_movies_from_frame "mongodb" sample_frame
          sample_world
        = (Ok tt, w')
        /\ map (fun d : pydict => (d !! "_id", d !! "name", d !! "genre")) (movies w')
           = [(Some (PObjectId 0), Some (PStr "Dune"),
               Some (PList ["Sci-Fi"; "Adventure"]));
              (Some (PObjectId 1), Some (PStr "Casablanca"), Some (PList ["Drama"]))]
        /\ map (fun d : pydict => (d !! "year", d !! "rating")) (movies w')
           = [(Some (PInt 2021), Some (PInt 8)); (Some (PInt 1942), Some (PInt 9))])
  /\ MovieProject.MovieEncyclopedia.load_movies_from_frame "mongodb" gapped_frame
       sample_world
     = (Raise (no_split "float"), sample_world).
Proof.
  split; [reflexivity|]. split; [discriminate|]. split; [reflexivity|].
  destruct (bulk_load_replaces_collection sample_frame sample_world) as [_ Hload].
  destruct (bulk_load_replaces_collection gapped_frame sample_world) as [Hgap _].
  split.
  - destruct (Hload sample_file) as (w' & Hrun & _ & _ & Hmovies & _);
      [reflexivity|discriminate|reflexivity|].
    exists w'. split; [exact Hrun|]. rewrite Hmovies. split; vm_compute; reflexivity.
  - destruct (Hgap "mongodb"
                {| read_name := CellStr "Casablanca"; read_year := CellInt 1942;
                   read_rating := CellInt 9; read_certificate := CellStr "PG";
                   read_genre := None;
                   read_casts := Some (CellStr "Humphrey Bogart,Ingrid Bergman");
                   read_directors := Some (CellStr "Michael Curtiz") |} None)
      as (e & Hrun & _ & _).
    + right. left. reflexivity.
    + right. right. left. reflexivity.
    + discriminate.
    + rewrite Hrun. apply (f_equal fst) in Hrun. cbn [fst] in Hrun.
      vm_compute in Hrun. injection Hrun as <-. reflexivity.
Defined.

(** A file without rows loaded over the sample collection. *)
Lemma bulk_load_failure_empties_collection_witness :
  answered 1 sample_world = true
  /\ movies sample_world <> []
  /\ exists e w',
       MovieProject.MovieEncyclopedia.load_movies_from_csv "mongodb" [] sample_world
       = (Raise e, w')
       /\ exn_type e = TypeError /\ movies w' = [].
Proof.
  split; [reflexivity|]. split; [discriminate|].
  exact (proj1 (bulk_load_failure_empties_collection [] sample_world eq_refl) eq_refl).
Defined.

(** The backend "mongo", and the form with no-break spaces around its
    genres; a genre of a no-break space alone is no genre. *)
Lemma unknown_backend_does_nothing_witness :
  "mongo" <> "mongodb"
  /\ "mongo" <> "dynamodb"
  /\ MovieProject.MovieEncyclopedia.add_movie "mongo" 0 dune_world = (Ok tt, dune_world)
  /\ MovieProject.MovieEncyclopediaGUI.delete_movie "mongo" dune_form dune_world
     = (Ok tt, with_text ["Deleted movie: Dune
"] dune_world)
  /\ stripped_nonempty (split_on "," no_break_space) = []
  /\ stripped_nonempty (split_on "," (genre_entry padded_form)) = ["Sci-Fi"; "Adventure"]
  /\ exists w',
       MovieProject.MovieEncyclopediaGUI.add_movie "mongo" padded_form dune_world
       = (Ok tt, w')
       /\ observable w' = observable (with_text ["Added movie: Dune
"] dune_world).
Proof.
  split; [discriminate|]. split; [discriminate|].
  destruct (unknown_backend_does_nothing "mongo" "genre" "Sci-Fi" "Dune" 0 sample_file
              dune_form dune_world)
    as ((_ & Hadd & _) & (_ & _ & _ & Hdelete & _) & _); [discriminate|discriminate|].
  destruct (unknown_backend_does_nothing "mongo" "genre" "Sci-Fi" "Dune" 0 sample_file
              padded_form dune_world)
    as (_ & _ & Hform); [discriminate|discriminate|].
  split; [exact Hadd|]. split; [exact Hdelete|].
  split; [vm_compute; reflexivity|]. split; [vm_compute; reflexivity|].
  destruct (Hform (17 # 2)%Q) as (w' & w2' & Hrun & _ & Hobs & _);
    [discriminate|discriminate|reflexivity|vm_compute; discriminate|].
  exists w'. split; [exact Hrun|exact Hobs].
Defined.

(** The twenty-two dramas scanned five at a time. *)
Lemma find_movies_ignores_page_size_witness :
  answered (S (length (table crowded_world))) crowded_world = true
  /\ scan_limit crowded_world = 25%positive
  /\ fst (MovieProject.MovieEncyclopedia.find_movies "dynamodb" "genre" "Drama"
            (with_scan_limit 5 crowded_world))
     = fst (MovieProject.MovieEncyclopedia.find_movies "dynamodb" "genre" "Drama"
              crowded_world).
Proof.
  split; [vm_compute; reflexivity|]. split; [reflexivity|].
  apply find_movies_ignores_page_size. vm_compute. reflexivity.
Defined.

(** The sample table, which fits in one page. *)
Lemma perform_search_one_page_witness :
  (length (table sample_world) <= Pos.to_nat (scan_limit sample_world))%nat
  /\ answered 1 sample_world = true
  /\ forallb has_float_rating
       (List.filter (Dynamo.contains "genre" "Drama") (table sample_world)) = true
  /\ MovieProject.MovieEncyclopedia.perform_search "dynamodb" "genre" "Drama" sample_world
     = MovieProject.MovieEncyclopedia.find_movies "dynamodb" "genre" "Drama" sample_world.
Proof.
  assert (Hfit : (length (table sample_world) <= Pos.to_nat (scan_limit sample_world))%nat)
    by (vm_compute; lia).
  split; [exact Hfit|]. split; [reflexivity|]. split; [vm_compute; reflexivity|].
  destruct (perform_search_one_page "genre" "Drama" sample_world Hfit eq_refl)
    as (_ & Hsame & _).
  apply Hsame. vm_compute. reflexivity.
Defined.

(** The search for "sci" in the genres of the sample collection. *)
Lemma form_perform_search_shows_witness :
  exists results w1,
    MovieProject.MovieEncyclopedia.find_movies "mongodb" "genre" "sci" sample_world
    = (Ok results, w1)
    /\ MovieProject.MovieEncyclopediaGUI.perform_search "mongodb" "genre" "sci" sample_world
       = (Ok tt, with_text ["Dune - Rating: 8.5
"] w1).
Proof.
  destruct (MovieProject.MovieEncyclopedia.find_movies "mongodb" "genre" "sci" sample_world)
    as [o w1] eqn:Hfind.
  assert (Ho : o = Ok [record "Dune" ["Sci-Fi"] (PFloat (17 # 2))]).
  { apply (f_equal fst) in Hfind. cbn [fst] in Hfind. rewrite <- Hfind. vm_compute. reflexivity. }
  subst o. eexists _, w1. split; [reflexivity|].
  destruct (form_perform_search_shows "mongodb" "genre" "sci"
              [record "Dune" ["Sci-Fi"] (PFloat (17 # 2))] sample_world w1)
    as (Hshow & _).
  destruct (Hshow Hfind) as (lines & Hrun & Hlines).
  { repeat constructor. vm_compute. eauto. }
  rewrite Hrun. inversion Hlines as [|? ? ? ? Hline Hrest]; subst.
  inversion Hrest; subst. vm_compute in Hline. injection Hline as <-. reflexivity.
Defined.

(** The details of "dune" in the sample collection. *)
Lemma form_get_movie_details_shows_witness :
  exists w1,
    MovieProject.MovieEncyclopedia.get_movie_details "mongodb" "dune" sample_world
    = (Ok (Some (record "Dune" ["Sci-Fi"] (PFloat (17 # 2)))), w1)
    /\ MovieProject.MovieEncyclopediaGUI.get_movie_details "mongodb" "dune" sample_world
       = (Ok tt, with_text ["Name: Dune
Year: N/A
Rating: 8.5
Genre: Sci-Fi
Certificate: N/A
Director: 
"] w1).
Proof.
  destruct (MovieProject.MovieEncyclopedia.get_movie_details "mongodb" "dune" sample_world)
    as [o w1] eqn:Hget.
  assert (Ho : o = Ok (Some (record "Dune" ["Sci-Fi"] (PFloat (17 # 2))))).
  { apply (f_equal fst) in Hget. cbn [fst] in Hget. rewrite <- Hget. vm_compute. reflexivity. }
  subst o. exists w1. split; [reflexivity|].
  destruct (form_get_movie_details_shows "mongodb" "dune" _ sample_world w1 Hget)
    as (_ & _ & Hshown).
  apply Hshown. vm_compute. discriminate.
Defined.

(** "Dune" deleted through the form while the table cannot be reached. *)
Lemma form_delete_movie_always_reports_witness :
  let w := with_faults [Some unreachable] sample_world in
  faults w = [Some unreachable]
  /\ exists w',
       MovieProject.MovieEncyclopediaGUI.delete_movie "dynamodb" dune_form w = (Ok tt, w')
       /\ text w' = ["Deleted movie: Dune
"]
       /\ table w' = table sample_world
       /\ stdout w' = ["Failed to delete movie: Could not connect to the endpoint URL"].
Proof.
  cbv zeta. split; [reflexivity|].
  destruct (form_delete_movie_always_reports dune_form
              (with_faults [Some unreachable] sample_world)) as (_ & Hrefused & _).
  destruct (Hrefused unreachable [] eq_refl) as (w' & Hrun & _ & Htext & Htable & Hout).
  exists w'. split; [exact Hrun|]. split; [exact Htext|]. split; [exact Htable|exact Hout].
Defined.

(** The rating of "Dune" set through the form: the dialog returns 9.0,
    8.5, and 8.1, whose [Decimal] the number context refuses. *)
Lemma form_update_movie_stores_witness :
  answered 1 sample_world = true
  /\ context_error 9 = None
  /\ (exists w',
        MovieProject.MovieEncyclopediaGUI.update_movie "dynamodb" dune_form (Some 9%Q)
          sample_world
        = (Ok tt, w')
        /\ table w'
           = [record "Dune" ["Sci-Fi"] (PDecimal 9);
              record "Casablanca" ["Drama"] (PDecimal (17 # 2))]
        /\ text w' = ["Updated movie: Dune with new rating: 9
"])
  /\ (exists w',
        MovieProject.MovieEncyclopediaGUI.update_movie "mongodb" dune_form
          (Some (17 # 2)%Q) sample_world
        = (Ok tt, w')
        /\ text w' = ["Updated movie: Dune with new rating: 8.5
"])
  /\ context_error float_8_1 = Some Plain.inexact
  /\ (exists w',
        MovieProject.MovieEncyclopediaGUI.update_movie "dynamodb" dune_form
          (Some float_8_1) sample_world
        = (Raise Plain.inexact, w')
        /\ table w' = table sample_world /\ text w' = []).
Proof.
  split; [reflexivity|]. split; [vm_compute; reflexivity|].
  destruct (form_update_movie_stores dune_form 9%Q sample_world eq_refl)
    as (_ & Hstored & _).
  destruct (form_update_movie_stores dune_form (17 # 2)%Q sample_world eq_refl)
    as ((w2 & Hrun2 & _ & Hobs2) & _).
  destruct (form_update_movie_stores dune_form float_8_1 sample_world eq_refl)
    as (_ & _ & Hrefused & _).
  split; [|split; [|split; [vm_compute; reflexivity|]]].
  - destruct Hstored as (w' & Hrun & _ & Hobs); [vm_compute; reflexivity|].
    exists w'. split; [exact Hrun|].
    destruct (observable_fields _ _ _ _ _ _ Hobs) as (_ & -> & _ & _ & ->).
    split; vm_compute; reflexivity.
  - exists w2. split; [exact Hrun2|].
    destruct (observable_fields _ _ _ _ _ _ Hobs2) as (_ & _ & _ & _ & ->).
    vm_compute. reflexivity.
  - destruct (Hrefused Plain.inexact) as (w' & Hrun & _ & Hobs);
      [vm_compute; reflexivity|].
    exists w'. split; [exact Hrun|].
    destruct (observable_fields _ _ _ _ _ _ Hobs) as (_ & -> & _ & _ & ->).
    split; reflexivity.
Defined.

(** The movies named like "casa" in the sample collection. *)
Lemma form_find_movies_shows_witness :
  let fields := {| movie_name_entry := "casa"; genre_entry := "";
                   director_entry := ""; certificate_entry := ""; rating_entry := "" |} in
  exists w1,
    MovieProject.MovieEncyclopedia.find_movies "mongodb" "name" "casa" sample_world
    = (Ok [record "Casablanca" ["Drama"] (PFloat (17 # 2))], w1)
    /\ MovieProject.MovieEncyclopediaGUI.find_movies "mongodb" fields sample_world
       = (Ok tt, with_text ["Casablanca - 8.5
"] w1).
Proof.
  cbv zeta.
  destruct (MovieProject.MovieEncyclopedia.find_movies "mongodb" "name" "casa" sample_world)
    as [o w1] eqn:Hfind.
  assert (Ho : o = Ok [record "Casablanca" ["Drama"] (PFloat (17 # 2))]).
  { apply (f_equal fst) in Hfind. cbn [fst] in Hfind. rewrite <- Hfind. vm_compute. reflexivity. }
  subst o. exists w1. split; [reflexivity|].
  destruct (form_find_movies_shows "mongodb"
              {| movie_name_entry := "casa"; genre_entry := "";
                 director_entry := ""; certificate_entry := ""; rating_entry := "" |}
              _ sample_world w1 Hfind)
    as (lines & Hrun & Hlines & _).
  { repeat constructor. vm_compute. eauto. }
  rewrite Hrun. inversion Hlines as [|? ? ? ? Hline Hrest]; subst.
  inversion Hrest; subst. vm_compute in Hline. injection Hline as <-. reflexivity.
Defined.

(** "Delete Movie" with two fillings of the hidden entries. *)
Lemma execute_operation_reads_shown_entries_witness :
  let c := {| operation_var := "Delete Movie"; details_entry := "";
              entries := dune_form; askfloat := None |} in
  let c' := {| operation_var := "Delete Movie"; details_entry := "Dune";
               entries := {| movie_name_entry := "Dune"; genre_entry := "";
                             director_entry := ""; certificate_entry := "";
                             rating_entry := "" |};
               askfloat := None |} in
  MovieProject.MovieEncyclopediaGUI.update_fields (operation_var c)
  = [name_label; movie_name_entry_widget]
  /\ MovieProject.MovieEncyclopediaGUI.execute_operation "mongodb" c sample_world
     = MovieProject.MovieEncyclopediaGUI.execute_operation "mongodb" c' sample_world.
Proof.
  cbv zeta. split; [reflexivity|].
  apply execute_operation_reads_shown_entries; [reflexivity|reflexivity|].
  intros x Hx. cbn in Hx. destruct Hx as [<-|[<-|[]]]; reflexivity.
Defined.

(** "Execute" pressed before an operation is chosen, and the details
    of "dune" asked with a no-break space before the name. *)
Lemma execute_operation_dispatch_witness :
  let c := {| operation_var := "Select Operation"; details_entry := "Dune";
              entries := dune_form; askfloat := None |} in
  let padded := {| operation_var := "Get movie details";
                   details_entry := no_break_space ++ "dune ";
                   entries := dune_form; askfloat := None |} in
  ~ In (operation_var c) operations
  /\ MovieProject.MovieEncyclopediaGUI.execute_operation "mongodb" c sample_world
     = (Ok tt, sample_world)
  /\ strip (details_entry padded) = "dune"
  /\ MovieProject.MovieEncyclopediaGUI.execute_operation "mongodb" padded sample_world
     = Movies2.MovieEncyclopediaGUI.execute_operation "mongodb"
         (with_details "dune" padded) sample_world.
Proof.
  cbv zeta.
  assert (Hout : ~ In "Select Operation" operations).
  { cbn. intros Hin. repeat destruct Hin as [Hin|Hin]; try discriminate Hin. exact Hin. }
  split; [exact Hout|].
  destruct (execute_operation_dispatch "mongodb"
              {| operation_var := "Select Operation"; details_entry := "Dune";
                 entries := dune_form; askfloat := None |} sample_world) as (Hnone & _).
  destruct (execute_operation_dispatch "mongodb"
              {| operation_var := "Get movie details";
                 details_entry := no_break_space ++ "dune ";
                 entries := dune_form; askfloat := None |} sample_world)
    as (_ & _ & Hdetails).
  split; [exact (proj1 (proj2 (Hnone Hout)))|].
  split; [vm_compute; reflexivity|].
  exact (Hdetails eq_refl).
Defined.
